(** * The ETL pipeline of [fin_python_v2.py]: extraction gate, validator,
    loader and aggregator, embedded as Rocq functions.

    The Python functions become functions in a small monad [M] that threads
    the world outside the interpreter (log file, HTTP endpoint, relational
    store, spreadsheet) and carries the three ways a Python call can end:
    it returns, it raises an exception, or [sys.exit] ends the process. *)

From Stdlib Require Import ZArith List String Ascii Bool Lia Floats Uint63.
From stdpp Require Import base option list gmap strings.

Set Warnings "-register-all".
Open Scope Z_scope.
Open Scope string_scope.

(* ===================================================================== *)
(** * Python values, exceptions and control flow *)
(* ===================================================================== *)

Module Py.

(** What [json.loads] / [resp.json()] can produce.  Python [str] is modelled
    by [string], that is characters with code point below 256; on these
    [\d] is exactly ['0'..'9']. *)
Inductive pyobj : Type :=
| PNone
| PBool (b : bool)
| PInt (z : Z)
| PFloat (f : float)
| PStr (s : string)
| PList (l : list pyobj)
| PDict (d : gmap string pyobj).

(** The exception classes that occur in the module. *)
Inductive exn : Type :=
| ValueError (msg : string)
| JSONDecodeError            (* json: subclass of ValueError *)
| StatisticsError            (* statistics: subclass of ValueError *)
| AttributeError
| TypeError
| IndexError
| KeyError
| ZeroDivisionError
| RecursionError
| RequestException           (* requests: any failure of the HTTP call *)
| Psycopg2Error              (* psycopg2.Error *)
| GSpreadError.              (* gspread / oauth2client failures *)

(** [except ValueError] *)
Definition isinstance_ValueError (e : exn) : bool :=
  match e with
  | ValueError _ | JSONDecodeError | StatisticsError => true
  | _ => false
  end.

(** [except psycopg2.Error] *)
Definition isinstance_psycopg2_Error (e : exn) : bool :=
  match e with Psycopg2Error => true | _ => false end.

(** [except Exception]: every class above derives from [Exception];
    [SystemExit] does not and is the [Exit] outcome below. *)
Definition isinstance_Exception (e : exn) : bool := true.

Inductive Outcome (A : Type) : Type :=
| Ret (a : A)
| Raise (e : exn)
| Exit (code : Z).
Arguments Ret {A} a.
Arguments Raise {A} e.
Arguments Exit {A} code.

Definition obind {A B} (o : Outcome A) (k : A -> Outcome B) : Outcome B :=
  match o with
  | Ret a => k a
  | Raise e => Raise e
  | Exit c => Exit c
  end.

(** ** Truth and equality tests used by the module *)

Definition is_none (v : pyobj) : bool :=
  match v with PNone => true | _ => false end.

Definition is_str (v : pyobj) : bool :=
  match v with PStr _ => true | _ => false end.

(** [v == n] for an int literal [n] below 2^53: bools are ints, a float is
    compared by value. *)
Definition eq_int (v : pyobj) (n : Z) : bool :=
  match v with
  | PInt z => Z.eqb z n
  | PBool b => Z.eqb (if b then 1 else 0) n
  | PFloat f => PrimFloat.eqb f (PrimFloat.of_uint63 (Uint63.of_Z n))
  | _ => false
  end.

(** [v in (0, 1, None)]: identity or equality with one of the members. *)
Definition in_0_1_None (v : pyobj) : bool :=
  eq_int v 0 || eq_int v 1 || is_none v.

(** ** Strings *)

(** [s.replace(old, new)] for one-character [old] and [new]. *)
Fixpoint replace (old new : ascii) (s : string) : string :=
  match s with
  | EmptyString => EmptyString
  | String c s' =>
      String (if Ascii.eqb c old then new else c) (replace old new s')
  end.

(** [s.split(sep)] for a one-character [sep]: never empty, keeps empty
    fields. *)
Fixpoint split (sep : ascii) (s : string) : list string :=
  match s with
  | EmptyString => [EmptyString]
  | String c s' =>
      if Ascii.eqb c sep then EmptyString :: split sep s'
      else match split sep s' with
           | f :: fs => String c f :: fs
           | [] => [String c EmptyString]
           end
  end.

(** [l[i]] on a list: [IndexError] out of range. *)
Definition getitem {A} (l : list A) (i : nat) : Outcome A :=
  match nth_error l i with
  | Some a => Ret a
  | None => Raise IndexError
  end.

Definition is_digit (c : ascii) : bool :=
  let n := N_of_ascii c in (48 <=? n)%N && (n <=? 57)%N.

Definition digit_val (c : ascii) : Z := Z.of_N (N_of_ascii c) - 48.

End Py.
Export Py.

(* ===================================================================== *)
(** * The data model *)
(* ===================================================================== *)

(** A raw record of the API: a JSON object. *)
Abbreviation RawRecord := (gmap string pyobj).

(** The dict appended to [validated_data], one field per key. *)
Record Canonical : Type := mkCanonical {
  user_id : option string;
  oauth_consumer_key : option string;
  lis_result_sourcedid : option string;
  lis_outcome_service_url : option string;
  is_correct : pyobj;
  attempt_type : string;
  created_at : string;
}.

(** A row of the target table.  Every column is nullable; [id SERIAL] is
    generated by the store and read by no query of the module, so it is
    left out.  The same record holds the values bound to the placeholders
    of the INSERT and the values that the columns keep of them. *)
Record StoredRow : Type := mkStoredRow {
  st_user_id : option string;
  st_oauth_consumer_key : option string;
  st_lis_result_sourcedid : option string;
  st_lis_outcome_service_url : option string;
  st_is_correct : pyobj;
  st_attempt_type : option string;
  st_created_at : option string;
}.

(** The [params] of the statistics request. *)
Record Request : Type := mkRequest {
  client : string;
  client_key : string;
  start : string;
  end_ : string;
}.

(** Lines written through [logger]; formatted text is abridged to the fixed
    part of the message, the exception and the record index are kept. *)
Inductive LogEntry : Type :=
| LogInfo (msg : string)
| LogError (msg : string) (e : option exn)
| LogRecordError (idx : nat) (e : exn)
| LogCount (msg : string) (n : Z).

(** The aggregate report [gs_result]: [int] or [float] metric values. *)
Inductive num : Type :=
| NInt (z : Z)
| NFloat (f : float).

(** A value written to a worksheet cell. *)
Inductive Cell : Type :=
| CellText (s : string)
| CellNumber (n : num).

Record Report : Type := mkReport {
  all_attempts : Z;
  run_attempts : Z;
  submits : Z;
  successfull_submits : Z;
  percent_of_successfull_submits : float;
  unique_users : Z;
  max_activity_hour : string;
  avg_attempts_per_user : num;
  avg_run_attempts_per_user : num;
  avg_submits_per_user : num;
  avg_successfull_submits_per_user : num;
}.

(* ===================================================================== *)
(** * The world outside the interpreter and the monad [M] *)
(* ===================================================================== *)

(** The relational store behind one psycopg2 connection.  [committed] is
    what other sessions see, [session] what this connection sees inside its
    open transaction.  Any statement may fail (a lost connection, a
    parameter that psycopg2 cannot send, a value that the column refuses,
    ...): [faults] says, statement by statement, whether the next one
    fails; an exhausted schedule means no further fault.  After a failure
    reported by the server the transaction is aborted and every statement
    fails until the transaction ends. *)
Record DbState : Type := mkDb {
  committed : gmap string (list StoredRow);
  session : gmap string (list StoredRow);
  aborted : bool;
  faults : list bool;
}.

Record World : Type := mkWorld {
  w_log : list LogEntry;
  (** HTTP requests issued so far, oldest first *)
  w_requests : list Request;
  (** the statistics endpoint: the decoded payload, or [None] when
      [requests.get] or [resp.json()] raises *)
  w_api : Request -> option (list RawRecord);
  (** whether [psycopg2.connect] succeeds *)
  w_db_connect_ok : bool;
  w_db : DbState;
  (** whether Google authorisation and opening the spreadsheet succeed *)
  w_gs_auth_ok : bool;
  w_gs_open_ok : bool;
  (** whether the worksheet accepts updates *)
  w_gs_update_ok : bool;
  (** cells written so far: (column, row, value), oldest first *)
  w_sheet : list (string * nat * Cell);
}.

Definition M (A : Type) : Type := World -> Outcome A * World.

Definition ret {A} (a : A) : M A := fun w => (Ret a, w).

Definition bind {A B} (m : M A) (k : A -> M B) : M B :=
  fun w =>
    match m w with
    | (Ret a, w') => k a w'
    | (Raise e, w') => (Raise e, w')
    | (Exit c, w') => (Exit c, w')
    end.

Notation "'do' x <- m ; k" := (bind m (fun x => k))
  (at level 10, x name, m at level 100, k at level 200).
Notation "'run' m ; k" := (bind m (fun _ => k))
  (at level 10, m at level 100, k at level 200).

Definition raise {A} (e : exn) : M A := fun w => (Raise e, w).

(** [sys.exit(code)] *)
Definition sys_exit {A} (code : Z) : M A := fun w => (Exit code, w).

(** A pure computation that may raise. *)
Definition lift {A} (o : Outcome A) : M A := fun w => (o, w).

(** [try: m  except C as e: h e]; [SystemExit] passes through. *)
Definition try_except {A} (m : M A) (C : exn -> bool) (h : exn -> M A) : M A :=
  fun w =>
    match m w with
    | (Raise e, w') => if C e then h e w' else (Raise e, w')
    | r => r
    end.

(** A [for] loop that updates local variables [s]. *)
Fixpoint for_each {A S} (l : list A) (body : S -> A -> M S) (s : S) : M S :=
  match l with
  | [] => ret s
  | a :: l' => do s' <- body s a; for_each l' body s'
  end.

Definition log_add (e : LogEntry) : M unit :=
  fun w => (Ret tt,
    mkWorld (w_log w ++ [e]) (w_requests w) (w_api w) (w_db_connect_ok w)
            (w_db w) (w_gs_auth_ok w) (w_gs_open_ok w) (w_gs_update_ok w)
            (w_sheet w)).

Definition logger_info (msg : string) : M unit := log_add (LogInfo msg).
Definition logger_error (msg : string) (e : option exn) : M unit :=
  log_add (LogError msg e).

(* ===================================================================== *)
(** * Extraction: the date-range gate of [get_data] *)
(* ===================================================================== *)

Module Dates.
#[local] Open Scope Z_scope.

(** One item of a regular expression without alternation. *)
Inductive re_item : Type :=
| Digit                  (* \d *)
| Chr (c : ascii).

Definition item_match (i : re_item) (c : ascii) : bool :=
  match i with
  | Digit => is_digit c
  | Chr c' => Ascii.eqb c c'
  end.

(** Match the items at the start of [s]; the unread rest. *)
Fixpoint match_items (p : list re_item) (s : string) : option string :=
  match p, s with
  | [], _ => Some s
  | i :: p', String c s' =>
      if item_match i c then match_items p' s' else None
  | _ :: _, EmptyString => None
  end.

Definition newline : ascii := "010"%char.

(** [$] without MULTILINE: at the end, or just before a final newline. *)
Definition at_dollar (s : string) : bool :=
  match s with
  | EmptyString => true
  | String c EmptyString => Ascii.eqb c newline
  | _ => false
  end.

(** [re.compile(r"^\d{4}-\d{2}-\d{2}$")] *)
Definition date_pattern : list re_item :=
  [Digit; Digit; Digit; Digit; Chr "-"; Digit; Digit; Chr "-"; Digit; Digit].

(** [date_pattern.match(s)] is not [None] *)
Definition date_pattern_match (s : string) : bool :=
  match match_items date_pattern s with
  | Some rest => at_dollar rest
  | None => false
  end.

(** A [datetime] at midnight. *)
Record date : Type := mkDate { year : Z; month : Z; day : Z }.

Definition is_leap (y : Z) : bool :=
  (y mod 4 =? 0) && (negb (y mod 100 =? 0) || (y mod 400 =? 0)).

Definition days_in_month (y m : Z) : Z :=
  if m =? 2 then (if is_leap y then 29 else 28)
  else if (m =? 4) || (m =? 6) || (m =? 9) || (m =? 11) then 30
  else 31.

Definition days_before_year (y : Z) : Z :=
  let p := y - 1 in p * 365 + p / 4 - p / 100 + p / 400.

Fixpoint days_before_month_aux (y : Z) (k : nat) : Z :=
  match k with
  | O => 0
  | S k' => days_before_month_aux y k' + days_in_month y (Z.of_nat k)
  end.

(** number of days of the year before the first of month [m] *)
Definition days_before_month (y m : Z) : Z :=
  days_before_month_aux y (Z.to_nat (m - 1)).

(** [d.toordinal()]: 0001-01-01 is day 1 *)
Definition toordinal (d : date) : Z :=
  days_before_year (year d) + days_before_month (year d) (month d) + day d.

(** [a > b] on datetimes *)
Definition date_gt (a b : date) : bool :=
  (year b <? year a)
  || ((year b =? year a)
      && ((month b <? month a)
          || ((month b =? month a) && (day b <? day a)))).

(** [(a - b).days] *)
Definition days_between (a b : date) : Z := toordinal a - toordinal b.

Definition in_range (lo hi c : ascii) : bool :=
  ((N_of_ascii lo <=? N_of_ascii c) && (N_of_ascii c <=? N_of_ascii hi))%N.

(** The [%m] directive, [1[0-2]|0[1-9]|[1-9]]: value and unread rest. *)
Definition read_month (s : string) : option (Z * string) :=
  match s with
  | String a r =>
      let one := if in_range "1" "9" a then Some (digit_val a, r) else None in
      match r with
      | String c r' =>
          if Ascii.eqb a "1" && in_range "0" "2" c
          then Some (10 + digit_val c, r')
          else if Ascii.eqb a "0" && in_range "1" "9" c
          then Some (digit_val c, r')
          else one
      | EmptyString => one
      end
  | EmptyString => None
  end.

(** The [%d] directive, [3[01]|[12]\d|0[1-9]|[1-9]| [1-9]]. *)
Definition read_day (s : string) : option (Z * string) :=
  match s with
  | String a r =>
      let one := if in_range "1" "9" a then Some (digit_val a, r) else None in
      match r with
      | String c r' =>
          if Ascii.eqb a "3" && in_range "0" "1" c
          then Some (30 + digit_val c, r')
          else if in_range "1" "2" a && is_digit c
          then Some (10 * digit_val a + digit_val c, r')
          else if Ascii.eqb a "0" && in_range "1" "9" c
          then Some (digit_val c, r')
          else if in_range "1" "9" a
          then Some (digit_val a, r)
          else if Ascii.eqb a " " && in_range "1" "9" c
          then Some (digit_val c, r')
          else None
      | EmptyString => one
      end
  | EmptyString => None
  end.

(** The [%Y] directive, [\d\d\d\d]. *)
Definition read_year (s : string) : option (Z * string) :=
  match s with
  | String a (String b (String c (String d r))) =>
      if is_digit a && is_digit b && is_digit c && is_digit d
      then Some (1000 * digit_val a + 100 * digit_val b
                 + 10 * digit_val c + digit_val d, r)
      else None
  | _ => None
  end.

Definition read_dash (s : string) : option string :=
  match s with
  | String c r => if Ascii.eqb c "-" then Some r else None
  | EmptyString => None
  end.

(** [datetime.strptime(s, "%Y-%m-%d")]: the string must match the format
    with nothing left over and name a day of the calendar (years 1 to
    9999); every failure is a [ValueError]. *)
Definition strptime_Ymd (s : string) : Outcome date :=
  match read_year s with
  | None => Raise (ValueError "time data does not match format")
  | Some (y, s1) =>
  match read_dash s1 with
  | None => Raise (ValueError "time data does not match format")
  | Some s2 =>
  match read_month s2 with
  | None => Raise (ValueError "time data does not match format")
  | Some (m, s3) =>
  match read_dash s3 with
  | None => Raise (ValueError "time data does not match format")
  | Some s4 =>
  match read_day s4 with
  | None => Raise (ValueError "time data does not match format")
  | Some (d, rest) =>
      match rest with
      | String _ _ => Raise (ValueError "unconverted data remains")
      | EmptyString =>
          if y <? 1 then Raise (ValueError "year is out of range")
          else if days_in_month y m <? d
          then Raise (ValueError "day is out of range for month")
          else Ret (mkDate y m d)
      end
  end end end end end.

End Dates.
Export Dates.

Module Extractor.

(** [requests.get(url, params=prms)] followed by [resp.json()]. *)
Definition requests_get_json (prms : Request) : M (list RawRecord) :=
  fun w =>
    let w' := mkWorld (w_log w) (w_requests w ++ [prms]) (w_api w)
                (w_db_connect_ok w) (w_db w) (w_gs_auth_ok w)
                (w_gs_open_ok w) (w_gs_update_ok w) (w_sheet w) in
    match w_api w prms with
    | Some data => (Ret data, w')
    | None => (Raise RequestException, w')
    end.

Definition get_data (start_day finish_day : string) : M (list RawRecord) :=
  run logger_info "Extracting data from the API for the interval";
  try_except
    (if negb (date_pattern_match start_day)
        || negb (date_pattern_match finish_day)
     then raise (ValueError
            "Invalid date format for 'start_day' or 'finish_day', use 'YYYY-MM-DD'")
     else
       do start_date <- lift (strptime_Ymd start_day);
       do finish_date <- lift (strptime_Ymd finish_day);
       if date_gt start_date finish_date
       then raise (ValueError "'start_day' cannot be greater than 'finish_day'.")
       else if days_between finish_date start_date >? 6
       then raise (ValueError
              "The difference between 'start_day' and 'finish_day' cannot be more than 6 days.")
       else
         let prms := mkRequest "Skillfactory" "M2MGWS"
                       (start_day ++ " 00:00:00.0")
                       (finish_day ++ " 23:59:59.999999") in
         do data <- requests_get_json prms;
         run logger_info "Data extracted successfully from API.";
         ret data)
    isinstance_Exception
    (fun er =>
       run logger_error "Failed to retrieve data from API" (Some er);
       sys_exit 1).

End Extractor.
Export Extractor.

(* ===================================================================== *)
(** * Validation: [validate_data] *)
(* ===================================================================== *)

Module Validator.

(** [d.get(k)]: the value, or [None] when the key is absent. *)
Definition dict_get (d : gmap string pyobj) (k : string) : pyobj :=
  default PNone (d !! k).

(** [v.values()]: only a dict has the attribute. *)
Definition values (v : pyobj) : Outcome (list pyobj) :=
  match v with
  | PDict d => Ret (map snd (map_to_list d))
  | _ => Raise AttributeError
  end.

(** [v.get(k)] on a decoded value that is a dict. *)
Definition dict_get_obj (v : pyobj) (k : string) : pyobj :=
  match v with
  | PDict d => dict_get d k
  | _ => PNone
  end.

(** A value known to be [None] or a [str]. *)
Definition opt_str (v : pyobj) : option string :=
  match v with PStr s => Some s | _ => None end.

Definition required_fields : list string :=
  ["lti_user_id"; "passback_params"; "is_correct"; "attempt_type";
   "created_at"].

(** [for field in required_fields: if field not in row: raise ...] *)
Fixpoint check_required (fields : list string) (row : RawRecord)
  : Outcome unit :=
  match fields with
  | [] => Ret tt
  | field :: rest =>
      match row !! field with
      | None => Raise (ValueError ("Missing '" ++ field ++ "' field"))
      | Some _ => check_required rest row
      end
  end.

Definition single_quote : ascii := "039"%char.
Definition double_quote : ascii := "034"%char.

Fixpoint enumerate {A} (l : list A) (start : nat) : list (nat * A) :=
  match l with
  | [] => []
  | a :: l' => (start, a) :: enumerate l' (S start)
  end.

Section WithDecoder.

(** [json.loads]: the decoded value, or the exception it raises
    ([JSONDecodeError] on malformed text). *)
Variable json_loads : string -> exn + pyobj.

Definition decode (s : string) : Outcome pyobj :=
  match json_loads s with
  | inl e => Raise e
  | inr v => Ret v
  end.

(** The [passback_params] block: the three extracted sub-fields. *)
Definition passback_fields (passback_params : pyobj)
  : Outcome (option string * option string * option string) :=
  if negb (is_none passback_params) then
    match passback_params with
    | PStr s =>
        obind (decode (replace single_quote double_quote s))
          (fun passback_params_json =>
        obind (values passback_params_json) (fun vals =>
          if existsb (fun value => negb (is_none value) && negb (is_str value))
                     vals
          then Raise (ValueError
                 "All values in 'passback_params' must be strings")
          else
            Ret (opt_str (dict_get_obj passback_params_json "oauth_consumer_key"),
                 opt_str (dict_get_obj passback_params_json "lis_result_sourcedid"),
                 opt_str (dict_get_obj passback_params_json
                            "lis_outcome_service_url"))))
    | _ => Raise (ValueError "'passback_params' must be a string or None")
    end
  else Ret (None, None, None).

(** The body of the [try] for one record: the canonical record, or the
    exception raised. *)
Definition validate_row (row : RawRecord) : Outcome Canonical :=
  obind (check_required required_fields row) (fun _ =>
  let lti_user_id := dict_get row "lti_user_id" in
  if negb (is_none lti_user_id) && negb (is_str lti_user_id)
  then Raise (ValueError "'lti_user_id' must be a string or None")
  else
  let is_correct := dict_get row "is_correct" in
  if negb (in_0_1_None is_correct)
  then Raise (ValueError "'is_correct' must be 0, 1, or None")
  else
  obind (passback_fields (dict_get row "passback_params"))
    (fun '(oauth_consumer_key, lis_result_sourcedid,
           lis_outcome_service_url) =>
  match dict_get row "attempt_type", dict_get row "created_at" with
  | PStr attempt_type, PStr created_at =>
      Ret (mkCanonical (opt_str lti_user_id) oauth_consumer_key
             lis_result_sourcedid lis_outcome_service_url is_correct
             attempt_type created_at)
  | _, _ => Raise (ValueError
              "'attempt_type' and 'created_at' must be a string")
  end)).

(** The body of [for idx, row in enumerate(data, start=1)]: a record that
    raises a [ValueError] is logged and left out. *)
Definition record_step (validated_data : list Canonical)
  (item : nat * RawRecord) : M (list Canonical) :=
  let '(idx, row) := item in
  try_except
    (do c <- lift (validate_row row);
     ret (validated_data ++ [c])%list)
    isinstance_ValueError
    (fun er =>
       run log_add (LogRecordError idx er);
       ret validated_data).

Definition validate_data (data : list RawRecord) : M (list Canonical) :=
  run (match data with
       | _ :: _ => logger_info "Starting data validation..."
       | [] => sys_exit 1
       end);
  do validated_data <- for_each (enumerate data 1) record_step [];
  if Nat.eqb (length validated_data) (length data)
  then
    run logger_info "Data validation completed successfully.";
    ret validated_data
  else
    run logger_error
          "Data validation failed. Please check the logs for details." None;
    sys_exit 1.

End WithDecoder.

End Validator.
Export Validator.

(* ===================================================================== *)
(** * A decoder for a fragment of JSON *)
(* ===================================================================== *)

(** The validator is stated over any decoder.  To run it on concrete
    records, this module decodes the fragment of JSON made of [null],
    [true], [false], integers, strings without escapes, arrays and objects,
    following the scanner of Python's [json] (white space, separators,
    no trailing commas, last duplicate key wins).  Text outside the
    fragment (escapes, fractions, exponents, NaN) is not decoded here and
    is not used below. *)
Module JsonFragment.

Definition is_ws (c : ascii) : bool :=
  Ascii.eqb c " " || Ascii.eqb c "009" || Ascii.eqb c "010"
  || Ascii.eqb c "013".

Fixpoint skip_ws (s : string) : string :=
  match s with
  | String c r => if is_ws c then skip_ws r else s
  | EmptyString => s
  end.

(** After the opening quote: the characters up to the closing quote. *)
Fixpoint read_chars (s : string) : option (string * string) :=
  match s with
  | EmptyString => None
  | String c r =>
      if Ascii.eqb c double_quote then Some (EmptyString, r)
      else if Ascii.eqb c "092" then None
      else if (N_of_ascii c <? 32)%N then None
      else match read_chars r with
           | Some (x, r') => Some (String c x, r')
           | None => None
           end
  end.

Fixpoint read_digits (s : string) (acc : Z) : Z * string :=
  match s with
  | String c r =>
      if is_digit c then read_digits r (10 * acc + digit_val c) else (acc, s)
  | EmptyString => (acc, s)
  end.

(** [0|[1-9][0-9]*] *)
Definition read_nat (s : string) : option (Z * string) :=
  match s with
  | String "0" r => Some (0, r)
  | String c r => if is_digit c then Some (read_digits s 0) else None
  | EmptyString => None
  end.

Definition starts_fraction (s : string) : bool :=
  match s with
  | String c _ => Ascii.eqb c "." || Ascii.eqb c "e" || Ascii.eqb c "E"
  | EmptyString => false
  end.

Definition read_int (s : string) : option (Z * string) :=
  let '(sign, body) :=
    match s with
    | String "-" r => (-1, r)
    | _ => (1, s)
    end in
  match read_nat body with
  | Some (n, r) => if starts_fraction r then None else Some (sign * n, r)
  | None => None
  end.

Fixpoint parse_value (fuel : nat) (s : string) : option (pyobj * string) :=
  match fuel with
  | O => None
  | S fuel' =>
      match s with
      | String "n" (String "u" (String "l" (String "l" r))) => Some (PNone, r)
      | String "t" (String "r" (String "u" (String "e" r))) =>
          Some (PBool true, r)
      | String "f" (String "a" (String "l" (String "s" (String "e" r)))) =>
          Some (PBool false, r)
      | String "[" r =>
          match skip_ws r with
          | String "]" r' => Some (PList [], r')
          | r' => parse_elems fuel' r' []
          end
      | String "{" r =>
          match skip_ws r with
          | String "}" r' => Some (PDict ∅, r')
          | r' => parse_members fuel' r' ∅
          end
      | String c r =>
          if Ascii.eqb c double_quote then
            match read_chars r with
            | Some (x, r') => Some (PStr x, r')
            | None => None
            end
          else
            match read_int s with
            | Some (z, r') => Some (PInt z, r')
            | None => None
            end
      | EmptyString => None
      end
  end
with parse_elems (fuel : nat) (s : string) (acc : list pyobj)
  : option (pyobj * string) :=
  match fuel with
  | O => None
  | S fuel' =>
      match parse_value fuel' s with
      | None => None
      | Some (v, r) =>
          match skip_ws r with
          | String "]" r' => Some (PList (acc ++ [v])%list, r')
          | String "," r' => parse_elems fuel' (skip_ws r') (acc ++ [v])%list
          | _ => None
          end
      end
  end
with parse_members (fuel : nat) (s : string) (acc : gmap string pyobj)
  : option (pyobj * string) :=
  match fuel with
  | O => None
  | S fuel' =>
      match s with
      | String c r =>
          if Ascii.eqb c double_quote then
            match read_chars r with
            | None => None
            | Some (k, r1) =>
                match skip_ws r1 with
                | String ":" r2 =>
                    match parse_value fuel' (skip_ws r2) with
                    | None => None
                    | Some (v, r3) =>
                        match skip_ws r3 with
                        | String "}" r4 => Some (PDict (<[k := v]> acc), r4)
                        | String "," r4 =>
                            parse_members fuel' (skip_ws r4) (<[k := v]> acc)
                        | _ => None
                        end
                    end
                | _ => None
                end
            end
          else None
      | EmptyString => None
      end
  end.

Definition json_loads (s : string) : exn + pyobj :=
  match parse_value (2 * String.length s + 2) (skip_ws s) with
  | Some (v, r) =>
      match skip_ws r with
      | EmptyString => inr v
      | String _ _ => inl JSONDecodeError
      end
  | None => inl JSONDecodeError
  end.

End JsonFragment.

(* ===================================================================== *)
(** * Loading: the [Database] class *)
(* ===================================================================== *)

Module Sql.

(** SQL truth values: [None] is NULL (unknown). *)
Definition sql_eq (a b : option string) : option bool :=
  match a, b with
  | Some x, Some y => Some (String.eqb x y)
  | _, _ => None
  end.

Definition sql_is_null (a : option string) : option bool :=
  match a with
  | None => Some true
  | Some _ => Some false
  end.

Definition sql_or (p q : option bool) : option bool :=
  match p, q with
  | Some true, _ | _, Some true => Some true
  | Some false, Some false => Some false
  | _, _ => None
  end.

Definition sql_and (p q : option bool) : option bool :=
  match p, q with
  | Some false, _ | _, Some false => Some false
  | Some true, Some true => Some true
  | _, _ => None
  end.

(** A row is selected when the WHERE clause is true, not when it is NULL. *)
Definition selected (p : option bool) : bool :=
  match p with
  | Some true => true
  | _ => false
  end.

(** [WHERE (user_id = %s or user_id is Null) AND created_at = %s] *)
Definition dedup_where (p_user_id p_created_at : option string)
  (r : StoredRow) : option bool :=
  sql_and (sql_or (sql_eq (st_user_id r) p_user_id)
                  (sql_is_null (st_user_id r)))
          (sql_eq (st_created_at r) p_created_at).

Definition set_db (d : DbState) (w : World) : World :=
  mkWorld (w_log w) (w_requests w) (w_api w) (w_db_connect_ok w) d
          (w_gs_auth_ok w) (w_gs_open_ok w) (w_gs_update_ok w) (w_sheet w).

Definition fail_txn (d : DbState) (rest : list bool) : DbState :=
  mkDb (committed d) (session d) true rest.

(** ** The parameters of a statement *)

Definition nul : ascii := "000"%char.

Fixpoint has_nul (s : string) : bool :=
  match s with
  | EmptyString => false
  | String c s' => Ascii.eqb c nul || has_nul s'
  end.

(** A nullable text value as a parameter: [None] is sent as NULL. *)
Definition param (o : option string) : pyobj :=
  match o with
  | Some s => PStr s
  | None => PNone
  end.

(** What psycopg2 makes of a parameter before anything is sent to the
    server: a [str] that holds NUL raises [ValueError], a [dict] has no
    adapter
    ([psycopg2.ProgrammingError]), the items of a list are adapted in
    order; [None] when the parameter can be sent. *)
Definition nul_error : exn :=
  ValueError "A string literal cannot contain NUL (0x00) characters.".

Fixpoint adapt (v : pyobj) : option exn :=
  match v with
  | PStr s => if has_nul s then Some nul_error else None
  | PList l =>
      (fix adapt_items (l : list pyobj) : option exn :=
         match l with
         | [] => None
         | x :: l' =>
             match adapt x with
             | Some e => Some e
             | None => adapt_items l'
             end
         end) l
  | PDict _ => Some Psycopg2Error
  | _ => None
  end.

(** The parameters of one statement, adapted from left to right. *)
Definition adapt_params (params : list pyobj) : option exn :=
  adapt (PList params).

(** [cur.execute(query, params)] with its fetch: [stmt] is the effect of
    the statement on the tables the session sees, [None] when the statement
    is in error.  One entry of the fault schedule is consumed.  A statement
    that fails raises the exception of the adaptation of its parameters
    when there is one: nothing has been sent then, and the transaction is
    as it was; otherwise it raises [psycopg2.Error] and the transaction is
    aborted.  In a run of the program a statement with a parameter that
    cannot be adapted is one that fails. *)
Definition cur_execute {A} (params : list pyobj)
  (stmt : gmap string (list StoredRow)
          -> option (A * gmap string (list StoredRow))) : M A :=
  fun w =>
    let d := w_db w in
    let '(fault, rest) :=
      match faults d with
      | b :: rest => (b, rest)
      | [] => (false, [])
      end in
    if aborted d || fault
    then
      match adapt_params params with
      | Some e =>
          (Raise e,
           set_db (mkDb (committed d) (session d) (aborted d) rest) w)
      | None => (Raise Psycopg2Error, set_db (fail_txn d rest) w)
      end
    else
      match stmt (session d) with
      | Some (a, tables) =>
          (Ret a, set_db (mkDb (committed d) tables false rest) w)
      | None => (Raise Psycopg2Error, set_db (fail_txn d rest) w)
      end.

(** [con.commit()]: an aborted transaction is rolled back. *)
Definition con_commit : M unit :=
  fun w =>
    let d := w_db w in
    let '(fault, rest) :=
      match faults d with
      | b :: rest => (b, rest)
      | [] => (false, [])
      end in
    if fault then (Raise Psycopg2Error, set_db (fail_txn d rest) w)
    else if aborted d
    then (Ret tt, set_db (mkDb (committed d) (committed d) false rest) w)
    else (Ret tt, set_db (mkDb (session d) (session d) false rest) w).

Definition starts_with_pp (name : string) : bool :=
  match name with
  | String "p" (String "p" _) => true
  | _ => false
  end.

(** [SELECT table_name ... WHERE ... table_name LIKE 'pp%'] *)
Definition select_pp_tables (tables : gmap string (list StoredRow))
  : option (list string * gmap string (list StoredRow)) :=
  Some (List.filter starts_with_pp (map fst (map_to_list tables)), tables).

(** ** Table names *)

Definition fold_char (c : ascii) : ascii :=
  let n := N_of_ascii c in
  if ((65 <=? n) && (n <=? 90))%N then ascii_of_N (n + 32) else c.

Fixpoint fold_letters (s : string) : string :=
  match s with
  | EmptyString => EmptyString
  | String c s' => String (fold_char c) (fold_letters s')
  end.

(** The table that a statement names when [{table_name}] is written into
    its text, as the f-strings of the module do: the name is not quoted, so
    the server folds its letters to lower case and keeps 63 characters of
    it.  (A name that is not an identifier makes another statement or
    none; the properties of the store are stated for identifiers.) *)
Definition fold_name (table_name : string) : string :=
  substring 0 63 (fold_letters table_name).

(** [SELECT EXISTS (SELECT 1 ... WHERE ... table_name = %s)]: the name is a
    parameter here and is compared as it is given. *)
Definition select_table_exists (table_name : string)
  (tables : gmap string (list StoredRow))
  : option (bool * gmap string (list StoredRow)) :=
  Some (match tables !! table_name with Some _ => true | None => false end,
        tables).

(** [CREATE TABLE {table_name} (...)] *)
Definition create_table_query (table_name : string)
  (tables : gmap string (list StoredRow))
  : option (unit * gmap string (list StoredRow)) :=
  match tables !! fold_name table_name with
  | Some _ => None
  | None => Some (tt, <[fold_name table_name := []]> tables)
  end.

Definition count_rows (p_user_id p_created_at : option string)
  (rows : list StoredRow) : Z :=
  Z.of_nat (length
    (List.filter (fun r => selected (dedup_where p_user_id p_created_at r))
       rows)).

(** The dedup query: the count of the rows of [{table_name}] selected by
    the WHERE clause. *)
Definition select_count (table_name : string)
  (p_user_id p_created_at : option string)
  (tables : gmap string (list StoredRow))
  : option (Z * gmap string (list StoredRow)) :=
  match tables !! fold_name table_name with
  | Some rows => Some (count_rows p_user_id p_created_at rows, tables)
  | None => None
  end.

(** ** The columns *)

(** What a [VARCHAR(255)] column keeps of a value that it takes: the first
    255 characters.  (It takes a longer value only when the excess is
    spaces, and cuts it without an error.) *)
Definition varchar_255 (o : option string) : option string :=
  match o with
  | Some s => Some (substring 0 255 s)
  | None => None
  end.

(** The integer nearest to [m * 2 ^ e], halves away from zero. *)
Definition round_half_away (m e : Z) : Z :=
  if (0 <=? e)%Z then (m * 2 ^ e)%Z
  else
    let q := (2 ^ (- e))%Z in
    if (q <=? 2 * (m mod q))%Z then (m / q + 1)%Z else (m / q)%Z.

Definition is_space (c : ascii) : bool :=
  let n := N_of_ascii c in ((n =? 32) || ((9 <=? n) && (n <=? 13)))%N.

Fixpoint skip_spaces (s : string) : string :=
  match s with
  | String c r => if is_space c then skip_spaces r else s
  | EmptyString => s
  end.

Fixpoint decimal (s : string) (acc : Z) : Z * string :=
  match s with
  | String c r =>
      if is_digit c then decimal r (10 * acc + digit_val c)%Z else (acc, s)
  | EmptyString => (acc, s)
  end.

(** The integer that a text literal writes in decimal: spaces, a sign,
    digits, spaces. *)
Definition integer_literal (s : string) : option Z :=
  let s1 := skip_spaces s in
  let '(negative, s2) :=
    match s1 with
    | String "-" r => (true, r)
    | String "+" r => (false, r)
    | _ => (false, s1)
    end in
  match s2 with
  | String c _ =>
      if is_digit c
      then
        let '(z, s3) := decimal s2 0 in
        match skip_spaces s3 with
        | EmptyString => Some (if negative then (- z)%Z else z)
        | _ => None
        end
      else None
  | EmptyString => None
  end.

(** What the [INTEGER] column keeps of a value that it takes: NULL and an
    int as they are, a float (sent as a numeric literal) rounded to the
    nearest integer, a [str] as the integer that it writes.  (It takes no
    bool, list or dict, no float that is not finite and nothing outside 32
    bits.) *)
Definition integer_column (v : pyobj) : pyobj :=
  match v with
  | PFloat f =>
      match Prim2SF f with
      | S754_zero _ => PInt 0
      | S754_finite sign m e =>
          let z := round_half_away (Zpos m) e in
          PInt (if sign then (- z)%Z else z)
      | _ => v
      end
  | PStr s =>
      match integer_literal s with
      | Some z => PInt z
      | None => v
      end
  | _ => v
  end.

(** What the columns keep of the values bound to the placeholders. *)
Definition column_values (r : StoredRow) : StoredRow :=
  mkStoredRow (varchar_255 (st_user_id r))
    (varchar_255 (st_oauth_consumer_key r))
    (varchar_255 (st_lis_result_sourcedid r))
    (varchar_255 (st_lis_outcome_service_url r))
    (integer_column (st_is_correct r))
    (varchar_255 (st_attempt_type r))
    (varchar_255 (st_created_at r)).

(** The parameters of the INSERT, in the order of the placeholders. *)
Definition insert_params (r : StoredRow) : list pyobj :=
  [param (st_user_id r); param (st_oauth_consumer_key r);
   param (st_lis_result_sourcedid r); param (st_lis_outcome_service_url r);
   st_is_correct r; param (st_attempt_type r); param (st_created_at r)].

(** [INSERT INTO {table_name} (...) VALUES (...)]: the row that the
    columns keep is added.  A value that a column refuses (a bool for
    [is_correct], a text longer than 255 characters whose excess is not
    spaces) puts the statement in error: that statement is one that the
    schedule fails. *)
Definition insert_into (table_name : string) (r : StoredRow)
  (tables : gmap string (list StoredRow))
  : option (unit * gmap string (list StoredRow)) :=
  match tables !! fold_name table_name with
  | Some rows =>
      Some (tt, <[fold_name table_name := (rows ++ [column_values r])%list]>
                  tables)
  | None => None
  end.

End Sql.
Export Sql.

Module Database.

(** [Database(host, port, db, user, pss)] *)
Definition init : M unit :=
  try_except
    (fun w =>
       if w_db_connect_ok w
       then
         let d := w_db w in
         logger_info "Connected to database."
           (set_db (mkDb (committed d) (committed d) false (faults d)) w)
       else (Raise Psycopg2Error, w))
    isinstance_Exception
    (fun e =>
       run logger_error "Error connecting to database" (Some e);
       sys_exit 1).

Definition get_all_tables : M (option (list string)) :=
  try_except
    (do tables <- cur_execute [] select_pp_tables;
     run log_add (LogCount "The database contains tables named python_project"
                    (Z.of_nat (length tables)));
     ret (Some tables))
    isinstance_psycopg2_Error
    (fun e =>
       run logger_error "Error selecting tables from the database" (Some e);
       ret None).

Definition create_table (table_name : string) : M unit :=
  run logger_info "Creating table stage...";
  try_except
    (do table_exists <- cur_execute [PStr table_name]
                          (select_table_exists table_name);
     if negb table_exists
     then
       run cur_execute [] (create_table_query table_name);
       run con_commit;
       logger_info "Table created successfully!"
     else logger_info "Table already exists.")
    isinstance_psycopg2_Error
    (fun er => logger_error "Error creating table" (Some er)).

(** The values bound to the INSERT placeholders. *)
Definition row_values (row : Canonical) : StoredRow :=
  mkStoredRow (user_id row) (oauth_consumer_key row)
    (lis_result_sourcedid row) (lis_outcome_service_url row)
    (is_correct row) (Some (attempt_type row)) (Some (created_at row)).

(** The body of [for idx, row in enumerate(vdata, start=1)]. *)
Definition load_step (table_name : string) (skipped_count : Z)
  (item : nat * Canonical) : M Z :=
  let '(idx, row) := item in
  do count <- cur_execute [param (user_id row); PStr (created_at row)]
                (select_count table_name (user_id row)
                   (Some (created_at row)));
  let skipped_count := (skipped_count + count)%Z in
  run (if (count =? 0)%Z
       then cur_execute (insert_params (row_values row))
              (insert_into table_name (row_values row))
       else ret tt);
  ret skipped_count.

Definition load_data_to_db (table_name : string) (vdata : list Canonical)
  : M unit :=
  run logger_info "Loading data to the db table...";
  try_except
    (do skipped_count <-
       for_each (enumerate vdata 1) (load_step table_name) 0%Z;
     run log_add (LogCount
                    "Checking previously loaded data found and skipped lines."
                    skipped_count);
     run con_commit;
     logger_info "Data loaded to the database successfully!")
    isinstance_psycopg2_Error
    (fun er => logger_error "Error loading data to the database" (Some er)).

End Database.

(* ===================================================================== *)
(** * Python arithmetic on [int] and [float] used by the aggregator *)
(* ===================================================================== *)

Module PyArith.
#[local] Open Scope Z_scope.

Definition SF_of_Z (z : Z) : spec_float :=
  match z with
  | Z0 => S754_zero false
  | Zpos p => S754_finite false p 0
  | Zneg p => S754_finite true p 0
  end.

(** [a / b] on ints with [b <> 0]: the binary64 value nearest to the exact
    quotient (ties to even). *)
Definition int_truediv (a b : Z) : float :=
  SF2Prim (SFdiv prec emax (SF_of_Z a) (SF_of_Z b)).

(** [a / b] on ints *)
Definition truediv (a b : Z) : Outcome float :=
  if b =? 0 then Raise ZeroDivisionError else Ret (int_truediv a b).

(** Nearest integer to [p / q] for [q > 0], ties to even. *)
Definition round_half_even (p q : Z) : Z :=
  let n := p / q in
  let r := p mod q in
  match 2 * r ?= q with
  | Lt => n
  | Gt => n + 1
  | Eq => if Z.even n then n else n + 1
  end.

(** [round(x, ndigits)] on a float, [ndigits >= 0]: the exact value of [x]
    is rounded to [ndigits] decimals (ties to even) and the decimal result
    converted back to the nearest binary64 value; zeros, infinities and NaN
    round to themselves. *)
Definition round_float (x : float) (ndigits : Z) : float :=
  match Prim2SF x with
  | S754_finite s m e =>
      let scale := 10 ^ ndigits in
      let n :=
        if 0 <=? e then Zpos m * 2 ^ e * scale
        else round_half_even (Zpos m * scale) (2 ^ (- e)) in
      match n with
      | Zpos p =>
          SF2Prim (SFdiv prec emax (S754_finite s p 0) (SF_of_Z scale))
      | _ => SF2Prim (S754_zero s)
      end
  | _ => x
  end.

(** [round(v, ndigits)] on an int or a float, [ndigits >= 0]: an int is
    returned unchanged. *)
Definition round_num (v : num) (ndigits : Z) : num :=
  match v with
  | NInt z => NInt z
  | NFloat f => NFloat (round_float f ndigits)
  end.

Definition sum (l : list Z) : Z := fold_left Z.add l 0.

(** [statistics.mean] on a list of ints: an int when the mean is integral,
    else the float nearest to it. *)
Definition mean (l : list Z) : Outcome num :=
  match l with
  | [] => Raise StatisticsError
  | _ :: _ =>
      let total := sum l in
      let n := Z.of_nat (length l) in
      if total mod n =? 0 then Ret (NInt (total / n))
      else Ret (NFloat (int_truediv total n))
  end.

(** [a == b] on numbers whose int side is below 2^53. *)
Definition num_eqb (a b : num) : bool :=
  match a, b with
  | NInt x, NInt y => x =? y
  | NFloat x, NFloat y => PrimFloat.eqb x y
  | NInt x, NFloat y | NFloat y, NInt x =>
      PrimFloat.eqb (int_truediv x 1) y
  end.

End PyArith.
Export PyArith.

(* ===================================================================== *)
(** * Aggregation: [calc_for_gsheets] *)
(* ===================================================================== *)

Module Aggregator.
#[local] Open Scope Z_scope.

(** A [dict] with [str] keys whose iteration order matters: the items in
    insertion order, one per key. *)
Definition odict (V : Type) : Type := list (string * V).

(** [d.get(k)] *)
Fixpoint od_get {V} (d : odict V) (k : string) : option V :=
  match d with
  | [] => None
  | (k', v) :: d' => if String.eqb k' k then Some v else od_get d' k
  end.

(** [d[k] = v]: an existing key keeps its place, a new key goes last. *)
Fixpoint od_set {V} (d : odict V) (k : string) (v : V) : odict V :=
  match d with
  | [] => [(k, v)]
  | (k', v') :: d' =>
      if String.eqb k' k then (k', v) :: d' else (k', v') :: od_set d' k v
  end.

Definition od_keys {V} (d : odict V) : list string := map fst d.
Definition od_values {V} (d : odict V) : list V := map snd d.

(** The scan of [max(iterable, key=f)] after the first element: a later
    element replaces the best one only when its key is strictly greater. *)
Fixpoint max_scan {A} (f : A -> Z) (best : A) (l : list A) : A :=
  match l with
  | [] => best
  | a :: l' => max_scan f (if f best <? f a then a else best) l'
  end.

(** [max(time_d, key=time_d.get)] *)
Definition max_key (time_d : odict Z) : Outcome string :=
  match od_keys time_d with
  | [] => Raise (ValueError "max() arg is an empty sequence")
  | k :: ks => Ret (max_scan (fun h => default 0 (od_get time_d h)) k ks)
  end.

(** [time.split(" ")[1].split(":")[0]] *)
Definition hour_of (time : string) : Outcome string :=
  obind (getitem (split " " time) 1) (fun clock =>
  getitem (split ":" clock) 0).

(** [if hour not in time_d: time_d[hour] = 1  else: time_d[hour] += 1] *)
Definition count_hour (time_d : odict Z) (hour : string) : odict Z :=
  match od_get time_d hour with
  | None => od_set time_d hour 1
  | Some n => od_set time_d hour (n + 1)
  end.

(** The variables updated by the loop over [data]. *)
Record Acc : Type := mkAcc {
  acc_all_attempts : Z;
  acc_run_attempts : Z;
  acc_submits : Z;
  acc_successfull_submits : Z;
  users_acts : odict (list (string * pyobj));
  time_d : odict Z;
}.

Definition acc0 : Acc := mkAcc 0 0 0 0 [] [].

(** The body of [for row in data]. *)
Definition step (a : Acc) (row : Canonical) : Outcome Acc :=
  match user_id row with
  | Some user =>
      let all' := acc_all_attempts a + 1 in
      let run' := acc_run_attempts a + (if is_none (is_correct row) then 1 else 0) in
      let sub' := acc_submits a + (if negb (is_none (is_correct row)) then 1 else 0) in
      let suc' := acc_successfull_submits a
                  + (if eq_int (is_correct row) 1 then 1 else 0) in
      let acts' :=
        od_set (users_acts a) user
          (default [] (od_get (users_acts a) user)
           ++ [(created_at row, is_correct row)])%list in
      obind (hour_of (created_at row)) (fun hour =>
      Ret (mkAcc all' run' sub' suc' acts' (count_hour (time_d a) hour)))
  | None => Ret a
  end.

Fixpoint loop (data : list Canonical) (a : Acc) : Outcome Acc :=
  match data with
  | [] => Ret a
  | row :: data' => obind (step a row) (loop data')
  end.

Definition count_acts (p : pyobj -> bool) (acts : list (string * pyobj)) : Z :=
  Z.of_nat (length (List.filter (fun act => p (snd act)) acts)).

(** The value of [users_summary] for one user. *)
Definition summary (acts : list (string * pyobj)) : Z * Z * Z * Z :=
  (Z.of_nat (length acts),
   count_acts is_none acts,
   count_acts (fun v => negb (is_none v)) acts,
   count_acts (fun v => eq_int v 1) acts).

(** The body of the [try] of [calc_for_gsheets]. *)
Definition calc_body (data : list Canonical) : Outcome Report :=
  obind (loop data acc0) (fun a =>
  obind (truediv (acc_successfull_submits a) (acc_submits a)) (fun ratio =>
  let percent := round_float (PrimFloat.mul ratio 100%float) 2 in
  let unique := Z.of_nat (length (users_acts a)) in
  obind (max_key (time_d a)) (fun max_hour =>
  let users_summary := map summary (od_values (users_acts a)) in
  obind (mean (map (fun v => fst (fst (fst v))) users_summary))
    (fun avg_atts_per_user =>
  obind (mean (map (fun v => snd (fst (fst v))) users_summary))
    (fun avg_runs_per_user =>
  obind (mean (map (fun v => snd (fst v)) users_summary))
    (fun avg_submits_per_user =>
  obind (mean (map (fun v => snd v) users_summary))
    (fun avg_corr_subts_per_user =>
  Ret (mkReport (acc_all_attempts a) (acc_run_attempts a) (acc_submits a)
         (acc_successfull_submits a) percent unique max_hour
         (round_num avg_atts_per_user 1)
         (round_num avg_runs_per_user 1)
         (round_num avg_submits_per_user 1)
         (round_num avg_corr_subts_per_user 1))))))))).

(** [calc_for_gsheets]: any exception is logged and [None] is returned. *)
Definition calc_for_gsheets (data : list Canonical) : M (option Report) :=
  try_except
    (do gs_result <- lift (calc_body data);
     run logger_info "Data successfull aggregated for Google Sheets file.";
     ret (Some gs_result))
    isinstance_Exception
    (fun er =>
       run logger_error "Error calc/aggregate data for Google Sheets" (Some er);
       ret None).

End Aggregator.
Export Aggregator.

(* ===================================================================== *)
(** * Publication and the script *)
(* ===================================================================== *)

Module Sheets.

(** [auth_goo_shee]: the authorised client, or [None] after a failure
    (which is printed, not raised). *)
Definition auth_goo_shee : M (option unit) :=
  fun w =>
    if w_gs_auth_ok w
    then (do _ <- logger_info "Successfull authenticate with Google Sheets.";
          ret (Some tt)) w
    else (Ret None, w).

(** [GoogleSheets(gspread_auth_client, sheet_file)]: [open] is called on
    the client outside any [try]. *)
Definition init (gspread_auth_client : option unit) (sheet_file : string)
  : M unit :=
  match gspread_auth_client with
  | None => raise AttributeError
  | Some _ =>
      fun w => if w_gs_open_ok w then (Ret tt, w) else (Raise GSpreadError, w)
  end.

(** [sheet_fu.update(range_name=..., values=[[v]])] *)
Definition update (col : string) (row : nat) (v : Cell) : M unit :=
  fun w =>
    if w_gs_update_ok w
    then (Ret tt,
          mkWorld (w_log w) (w_requests w) (w_api w) (w_db_connect_ok w)
            (w_db w) (w_gs_auth_ok w) (w_gs_open_ok w) (w_gs_update_ok w)
            (w_sheet w ++ [(col, row, v)]))
    else (Raise GSpreadError, w).

(** [aggregated_data.items()], in insertion order; [None] has no items. *)
Definition items (aggregated_data : option Report)
  : Outcome (list (string * Cell)) :=
  match aggregated_data with
  | None => Raise AttributeError
  | Some r =>
      Ret [("all attempts", CellNumber (NInt (all_attempts r)));
           ("run_attempts", CellNumber (NInt (run_attempts r)));
           ("submits", CellNumber (NInt (submits r)));
           ("successfull submits", CellNumber (NInt (successfull_submits r)));
           ("percent of successfull submits",
            CellNumber (NFloat (percent_of_successfull_submits r)));
           ("unique users", CellNumber (NInt (unique_users r)));
           ("max activity hour", CellText (max_activity_hour r));
           ("avg attempts per user", CellNumber (avg_attempts_per_user r));
           ("avg run_attempts per user",
            CellNumber (avg_run_attempts_per_user r));
           ("avg submits per user", CellNumber (avg_submits_per_user r));
           ("avg successfull submits per user",
            CellNumber (avg_successfull_submits_per_user r))]
  end.

Definition load_aggregated_data_to_sheets (start_date end_date : string)
  (sheet_name : string) (aggregated_data : option Report) : M unit :=
  try_except
    (run update "A" 1
           (CellText ("Aggregated Data for dates: " ++ start_date ++ " - "
                      ++ end_date));
     do kvs <- lift (items aggregated_data);
     do _ <- for_each kvs
               (fun (row : nat) '(key, value) =>
                  run update "A" row (CellText key);
                  run update "B" row value;
                  ret (S row))
               2%nat;
     logger_info "Aggregated data successfully loaded to Google Sheets file.")
    isinstance_Exception
    (fun er => logger_error "load_aggregated_data_to_sheets" (Some er)).

End Sheets.

Module Script.

Section WithDecoder.
Variable json_loads : string -> exn + pyobj.

Definition start_date : string := "2024-05-01".
Definition end_date : string := "2024-05-01".

(** The script up to the publication: extract, validate, aggregate,
    publish.  The validated batch is what the store stage consumes. *)
Definition etl_stage : M (list Canonical) :=
  do api_data1 <- get_data start_date end_date;
  do valid_data1 <- validate_data json_loads api_data1;
  do gs_data <- calc_for_gsheets valid_data1;
  do gs_auth <- Sheets.auth_goo_shee;
  run Sheets.init gs_auth "simulative_basic_py_project";
  run Sheets.load_aggregated_data_to_sheets start_date end_date "Sheet1"
        gs_data;
  ret valid_data1.

(** The store stage: connect, list tables, create the table, load. *)
Definition db_stage (valid_data1 : list Canonical) : M unit :=
  run Database.init;
  do s <- Database.get_all_tables;
  run Database.create_table "ppf_2024_may";
  Database.load_data_to_db "ppf_2024_may" valid_data1.

(** The handler around the whole script: any exception is logged and the
    process exits with status 1; [SystemExit] passes through. *)
Definition top_level {A} (body : M A) : M A :=
  try_except body isinstance_Exception
    (fun er =>
       run logger_error "An error occurred" (Some er);
       sys_exit 1).

(** The [if __name__ == "__main__"] block. *)
Definition main : M unit :=
  top_level (do valid_data1 <- etl_stage; db_stage valid_data1).

End WithDecoder.

(** The exit status of the process: 0 when the script runs to its end, the
    argument of [sys.exit] otherwise; an exception that nothing catches
    ends the interpreter with status 1. *)
Definition exit_status {A} (o : Outcome A) : Z :=
  match o with
  | Ret _ => 0
  | Exit code => code
  | Raise _ => 1
  end.

End Script.

(* ===================================================================== *)
(** * Notions used to state the properties *)
(* ===================================================================== *)

Module Notions.

Section WithDecoder.
Variable json_loads : string -> exn + pyobj.

(** The canonical records of the rows that pass every check, in order. *)
Definition accepted (data : list RawRecord) : list Canonical :=
  flat_map (fun row =>
              match validate_row json_loads row with
              | Ret c => [c]
              | _ => []
              end) data.

(** The record passes every per-record check. *)
Definition passes (row : RawRecord) : Prop :=
  exists c, validate_row json_loads row = Ret c.

(** The record is rejected: a check raises a [ValueError], which
    [validate_data] logs. *)
Definition rejected (row : RawRecord) : Prop :=
  exists e, validate_row json_loads row = Raise e
            /\ isinstance_ValueError e = true.

(** Validating the record raises an exception that [validate_data] does
    not handle. *)
Definition escapes (row : RawRecord) : Prop :=
  exists e, validate_row json_loads row = Raise e
            /\ isinstance_ValueError e = false.

End WithDecoder.

(** A record with every field valid and no [passback_params]. *)
Definition row_valid : RawRecord :=
  list_to_map
    [("lti_user_id", PStr "u1"); ("passback_params", PNone);
     ("is_correct", PInt 1); ("attempt_type", PStr "run");
     ("created_at", PStr "2024-05-01 10:00:00")].

(** The same record with [is_correct = 2]. *)
Definition row_is_correct_2 : RawRecord :=
  <["is_correct" := PInt 2]> row_valid.

(** A valid record whose [passback_params] decodes to a list. *)
Definition row_params_list : RawRecord :=
  <["passback_params" := PStr "[]"]> row_valid.

(** A valid record whose [passback_params] is a quoted mapping. *)
Definition row_params_mapping : RawRecord :=
  <["passback_params" :=
      PStr "{'oauth_consumer_key': 'key', 'lis_result_sourcedid': null}"]>
    row_valid.

(** A world in which every collaborator answers and nothing is stored. *)
Definition quiet_world (batch : list RawRecord) : World :=
  mkWorld [] [] (fun _ => Some batch) true (mkDb ∅ ∅ false []) true true
    true [].

(** [s] has the form YYYY-MM-DD: four digits, a dash, two digits, a dash,
    two digits, and nothing else. *)
Definition YYYY_MM_DD (s : string) : Prop :=
  exists y1 y2 y3 y4 m1 m2 d1 d2 : ascii,
    s = String y1 (String y2 (String y3 (String y4 (String "-"
          (String m1 (String m2 (String "-"
             (String d1 (String d2 EmptyString)))))))))
    /\ forallb is_digit [y1; y2; y3; y4; m1; m2; d1; d2] = true.

(** The request issued for an accepted range. *)
Definition statistics_request (start_day finish_day : string) : Request :=
  mkRequest "Skillfactory" "M2MGWS" (start_day ++ " 00:00:00.0")
    (finish_day ++ " 23:59:59.999999").

(** The checks of [get_data] that precede the request. *)
Definition gate (start_day finish_day : string) : Outcome unit :=
  if negb (date_pattern_match start_day)
     || negb (date_pattern_match finish_day)
  then Raise (ValueError
         "Invalid date format for 'start_day' or 'finish_day', use 'YYYY-MM-DD'")
  else
    obind (strptime_Ymd start_day) (fun start_date =>
    obind (strptime_Ymd finish_day) (fun finish_date =>
    if date_gt start_date finish_date
    then Raise (ValueError "'start_day' cannot be greater than 'finish_day'.")
    else if (days_between finish_date start_date >? 6)%Z
    then Raise (ValueError
           "The difference between 'start_day' and 'finish_day' cannot be more than 6 days.")
    else Ret tt)).

(** A day of the calendar, as [datetime] accepts it. *)
Definition valid_date (d : date) : Prop :=
  1 <= year d /\ 1 <= month d <= 12
  /\ 1 <= day d <= days_in_month (year d) (month d).

(** No request was issued between two worlds. *)
Definition no_request (w w' : World) : Prop := w_requests w' = w_requests w.

(** The connection is usable and no statement ahead is going to fail. *)
Definition fault_free (d : DbState) : bool :=
  negb (aborted d) && forallb negb (faults d).

(** The dedup query finds at least one row for the record. *)
Definition matched (rows : list StoredRow) (row : Canonical) : Prop :=
  (0 < count_rows (user_id row) (Some (created_at row)) rows)%Z.

(** What the loop of [load_data_to_db] makes of the rows of the table when
    no statement fails. *)
Fixpoint load_rows (vdata : list Canonical) (rows : list StoredRow)
  : list StoredRow :=
  match vdata with
  | [] => rows
  | row :: vdata' =>
      load_rows vdata'
        (if (count_rows (user_id row) (Some (created_at row)) rows =? 0)%Z
         then (rows ++ [column_values (Database.row_values row)])%list
         else rows)
  end.

(** The stored row makes the incoming record a duplicate, as the WHERE
    clause decides it: same [created_at], and the stored [user_id] is NULL
    or is the non-null [user_id] of the record. *)
Definition same_event (row : Canonical) (r : StoredRow) : Prop :=
  st_created_at r = Some (created_at row)
  /\ (st_user_id r = None
      \/ exists u, user_id row = Some u /\ st_user_id r = Some u).

(** The identity as the specification words it: same [created_at], and
    the same non-null [user_id] on both sides or a null [user_id] on either
    side. *)
Definition same_event_either_null (row : Canonical) (r : StoredRow) : Prop :=
  st_created_at r = Some (created_at row)
  /\ (st_user_id r = None \/ user_id row = None
      \/ exists u, user_id row = Some u /\ st_user_id r = Some u).

(** A stored attempt of user u1 and an incoming record without user, at
    the same instant. *)
Definition stored_u1 : StoredRow :=
  mkStoredRow (Some "u1") None None None (PInt 1) (Some "run")
    (Some "2024-05-01 10:00:00").

Definition record_no_user : Canonical :=
  mkCanonical None None None None (PInt 1) "run" "2024-05-01 10:00:00".

(** A connected, fault-free store holding one table. *)
Definition world_with_table (name : string) (rows : list StoredRow) : World :=
  mkWorld [] [] (fun _ => None) true
    (mkDb {[ name := rows ]} {[ name := rows ]} false []) true true true [].


(** The canonical form of [row_valid]. *)
Definition canonical_valid : Canonical :=
  mkCanonical (Some "u1") None None None (PInt 1) "run"
    "2024-05-01 10:00:00".

(** The scenario of three attempts of user u1. *)
Definition three_attempts : list Canonical :=
  [mkCanonical (Some "u1") None None None PNone "run" "2024-05-01 10:00:00";
   mkCanonical (Some "u1") None None None (PInt 1) "submit"
     "2024-05-01 10:30:00";
   mkCanonical (Some "u1") None None None (PInt 0) "submit"
     "2024-05-01 11:00:00"].

(** The records that count: those of an identified user. *)
Definition included (data : list Canonical) : list Canonical :=
  List.filter
    (fun row => match user_id row with Some _ => true | None => false end)
    data.

Fixpoint contains (c : ascii) (s : string) : bool :=
  match s with
  | EmptyString => false
  | String x s' => Ascii.eqb x c || contains c s'
  end.

(** [h] is the hour token of [time]: the text that follows the first space
    and runs up to the next colon, the next space or the end; in
    "YYYY-MM-DD HH:MM:SS" it is HH. *)
Definition hour_token (time h : string) : Prop :=
  exists date rest,
    time = date ++ String " " (h ++ rest)
    /\ contains " " date = false
    /\ contains " " h = false /\ contains ":" h = false
    /\ (rest = EmptyString
        \/ exists c rest', rest = String c rest' /\ (c = ":" \/ c = " ")%char).

(** The tally of an hour in the sequence of hour tokens. *)
Definition tally (hours : list string) (h : string) : nat :=
  count_occ string_dec hours h.

(** Where an hour is first encountered (the length when it never is). *)
Fixpoint first_index (h : string) (hours : list string) : nat :=
  match hours with
  | [] => O
  | x :: hours' => if String.eqb x h then O else S (first_index h hours')
  end.

(** [h] is the peak hour of the sequence: it occurs, no hour has a greater
    tally, and among the hours with the same tally it is the one
    encountered first. *)
Definition peak_hour (hours : list string) (h : string) : Prop :=
  In h hours
  /\ (forall h', (tally hours h' <= tally hours h)%nat)
  /\ (forall h', tally hours h' = tally hours h ->
                 (first_index h hours <= first_index h' hours)%nat).

(** [time_d] after the hours [hours] have been counted: each hour is
    mapped to its tally, and the keys come in the order in which the hours
    were first encountered. *)
Definition counts (hours : list string) (d : odict Z) : Prop :=
  (forall h, od_get d h =
             if Nat.eqb (tally hours h) 0 then None
             else Some (Z.of_nat (tally hours h)))
  /\ (forall l1 k l2, od_keys d = (l1 ++ k :: l2)%list ->
        forall x, In x l1 ->
                  (first_index x hours < first_index k hours)%nat).

(** Once a submit has been counted, there is a user and an hour. *)
Definition populated (a : Acc) : Prop :=
  (0 <= acc_submits a)%Z
  /\ (acc_submits a <> 0%Z -> users_acts a <> [] /\ time_d a <> []).

End Notions.
Export Notions.

(* ===================================================================== *)
(** * The log directory: the rotation run when the module is loaded *)
(* ===================================================================== *)

Module LogFiles.

(** The entries of [log_dir] in the order [os.listdir] returns them: the
    name, and whether the entry is a file ([os.remove] raises on anything
    else). *)
Definition Dir : Type := list (string * bool).

(** [l[:-k]] *)
Definition all_but_last {A} (k : nat) (l : list A) : list A :=
  firstn (length l - k) l.

(** [os.remove(os.path.join(log_dir, log))]: the directory without the
    entry, or [None] when the call raises. *)
Fixpoint os_remove (log : string) (dir : Dir) : option Dir :=
  match dir with
  | [] => None
  | (name, is_file) :: dir' =>
      if String.eqb name log
      then (if is_file then Some dir' else None)
      else match os_remove log dir' with
           | Some d => Some ((name, is_file) :: d)
           | None => None
           end
  end.

(** How the block ends: normally, with the directory and the line logged,
    or with the exception of [os.remove] leaving the module. *)
Inductive Rotation : Type :=
| Rotated (dir : Dir) (deleted_logs : list string) (line : LogEntry)
| RemoveRaised (dir : Dir) (log : string).

(** [for log in log_files[:-4]: os.remove(...); deleted_logs.append(log)] *)
Fixpoint remove_each (logs : list string) (dir : Dir)
  (deleted_logs : list string) : Dir * list string * option string :=
  match logs with
  | [] => (dir, deleted_logs, None)
  | log :: logs' =>
      match os_remove log dir with
      | Some dir' => remove_each logs' dir' (deleted_logs ++ [log])%list
      | None => (dir, deleted_logs, Some log)
      end
  end.

(** The block "delete the oldest log-files if there are more than 4". *)
Definition rotate (dir : Dir) : Rotation :=
  let log_files := map fst dir in
  let cnt_logs := length log_files in
  let '(dir', deleted_logs, failure) :=
    if Nat.ltb 4 cnt_logs
    then remove_each (all_but_last 4 log_files) dir []
    else (dir, [], None) in
  match failure with
  | Some log => RemoveRaised dir' log
  | None =>
      Rotated dir' deleted_logs
        (match deleted_logs with
         | _ :: _ => LogInfo "Deleted old log files"
         | [] => LogInfo "No log files were deleted."
         end)
  end.

End LogFiles.

(* ===================================================================== *)
(** * Notions used to state the further properties *)
(* ===================================================================== *)

Module MoreNotions.

(** Every part of the world but the log is the same. *)
Definition same_but_log (w w' : World) : Prop :=
  w_requests w' = w_requests w /\ w_api w' = w_api w
  /\ w_db_connect_ok w' = w_db_connect_ok w /\ w_db w' = w_db w
  /\ w_gs_auth_ok w' = w_gs_auth_ok w /\ w_gs_open_ok w' = w_gs_open_ok w
  /\ w_gs_update_ok w' = w_gs_update_ok w /\ w_sheet w' = w_sheet w.

(** The first required field that the record lacks. *)
Definition first_missing (row : RawRecord) : option string :=
  List.find (fun field => match row !! field with
                          | None => true
                          | Some _ => false
                          end) required_fields.

(** [c] with another [is_correct]. *)
Definition with_is_correct (c : Canonical) (v : pyobj) : Canonical :=
  mkCanonical (user_id c) (oauth_consumer_key c) (lis_result_sourcedid c)
    (lis_outcome_service_url c) v (attempt_type c) (created_at c).

Section WithDecoder.
Variable json_loads : string -> exn + pyobj.

(** The lines logged for the rejected records of a batch, the first record
    having index [start]. *)
Fixpoint record_errors (data : list RawRecord) (start : nat)
  : list LogEntry :=
  match data with
  | [] => []
  | row :: data' =>
      (match validate_row json_loads row with
       | Raise e =>
           if isinstance_ValueError e then [LogRecordError start e] else []
       | _ => []
       end ++ record_errors data' (S start))%list
  end.

(** The line that closes the validation of a batch. *)
Definition closing_line (data : list RawRecord) : LogEntry :=
  if Nat.eqb (length (accepted json_loads data)) (length data)
  then LogInfo "Data validation completed successfully."
  else LogError "Data validation failed. Please check the logs for details."
         None.

End WithDecoder.

End MoreNotions.
Export MoreNotions.

(** ** The accepted ranges of the date gate *)

Module GateNotions.
#[local] Open Scope Z_scope.

(** The number that a string of decimal digits writes. *)
Fixpoint numeral_from (acc : Z) (s : string) : Z :=
  match s with
  | EmptyString => acc
  | String c r => numeral_from (10 * acc + digit_val c) r
  end.

Definition numeral (s : string) : Z := numeral_from 0 s.

(** The year, month and day that a string of the form YYYY-MM-DD writes. *)
Definition date_of (s : string) : date :=
  mkDate (numeral (substring 0 4 s)) (numeral (substring 5 2 s))
    (numeral (substring 8 2 s)).

(** A range that [get_data] requests: both bounds have the form
    YYYY-MM-DD and name days of the calendar, in order and at most six days
    apart. *)
Definition range_ok (start_day finish_day : string) : Prop :=
  YYYY_MM_DD start_day /\ YYYY_MM_DD finish_day
  /\ valid_date (date_of start_day) /\ valid_date (date_of finish_day)
  /\ toordinal (date_of start_day) <= toordinal (date_of finish_day)
     <= toordinal (date_of start_day) + 6.

End GateNotions.
Export GateNotions.

(** ** Notions for the loader *)

Module LoaderNotions.

(** What the loop of [load_data_to_db] adds up in [skipped_count] when no
    statement fails: for each record, the number of rows that the dedup
    query finds at that time. *)
Fixpoint skipped_total (vdata : list Canonical) (rows : list StoredRow) : Z :=
  match vdata with
  | [] => 0
  | row :: vdata' =>
      (count_rows (user_id row) (Some (created_at row)) rows
       + skipped_total vdata' (load_rows [row] rows))%Z
  end.

(** Two stored rows that both make [record_no_user] a duplicate. *)
Definition two_rows_no_user : list StoredRow :=
  [Database.row_values record_no_user; Database.row_values record_no_user].

End LoaderNotions.
Export LoaderNotions.

(** ** Notions for the report *)

Module ReportNotions.
#[local] Open Scope Z_scope.

(** The number of the records with a user whose [is_correct] satisfies
    [p]. *)
Definition rows_where (p : pyobj -> bool) (data : list Canonical) : Z :=
  Z.of_nat (length (List.filter (fun row => p (is_correct row))
                      (included data))).

(** A total divided among the users, as the report shows it: the whole
    number when the division is exact, else the quotient rounded to one
    decimal. *)
Definition per_user (total users : Z) : num :=
  if total mod users =? 0 then NInt (total / users)
  else NFloat (round_float (int_truediv total users) 1).

(** The sum over the users of a measure of their attempts. *)
Fixpoint total (m : list (string * pyobj) -> Z)
  (d : odict (list (string * pyobj))) : Z :=
  match d with
  | [] => 0
  | (_, acts) :: d' => m acts + total m d'
  end.

(** A record with a user and a grade. *)
Definition graded (row : Canonical) : Prop :=
  user_id row <> None /\ is_none (is_correct row) = false.

(** The figures that the loop keeps, after the records [data]. *)
Definition figures (data : list Canonical) (a : Acc) : Prop :=
  acc_all_attempts a = Z.of_nat (length (included data))
  /\ acc_run_attempts a = rows_where is_none data
  /\ acc_submits a = rows_where (fun v => negb (is_none v)) data
  /\ acc_successfull_submits a = rows_where (fun v => eq_int v 1) data
  /\ total (fun acts => Z.of_nat (length acts)) (users_acts a)
     = acc_all_attempts a
  /\ total (count_acts is_none) (users_acts a) = acc_run_attempts a
  /\ total (count_acts (fun v => negb (is_none v))) (users_acts a)
     = acc_submits a
  /\ total (count_acts (fun v => eq_int v 1)) (users_acts a)
     = acc_successfull_submits a
  /\ NoDup (od_keys (users_acts a))
  /\ (forall u, In u (od_keys (users_acts a)) <->
                exists row, In row data /\ user_id row = Some u)
  /\ Forall (fun row => exists h, hour_token (created_at row) h)
       (included data)
  /\ Forall (fun kv => snd kv <> []) (users_acts a).

(** The report of [three_attempts]. *)
Definition report_three_attempts : Report :=
  mkReport 3 1 2 1 50%float 1 "10" (NInt 3) (NInt 1) (NInt 2) (NInt 1).

(** One run attempt of user u1, without grade. *)
Definition record_ungraded : Canonical :=
  mkCanonical (Some "u1") None None None PNone "run" "2024-05-01 10:00:00".

End ReportNotions.
Export ReportNotions.

(** ** Notions for the sheet *)

Module SheetNotions.

(** The cells written for the items of a report, the first item on row
    [row]: the key in column A and the value in column B. *)
Fixpoint sheet_rows (kvs : list (string * Cell)) (row : nat)
  : list (string * nat * Cell) :=
  match kvs with
  | [] => []
  | (key, value) :: kvs' =>
      ("A", row, CellText key) :: ("B", row, value) :: sheet_rows kvs' (S row)
  end.

(** The title written to A1. *)
Definition sheet_title (start_date end_date : string) : string * nat * Cell :=
  ("A", 1%nat,
   CellText ("Aggregated Data for dates: " ++ start_date ++ " - " ++ end_date)).

(** [w] with the cells [cells] written after those it holds. *)
Definition with_cells (cells : list (string * nat * Cell)) (w : World)
  : World :=
  mkWorld (w_log w) (w_requests w) (w_api w) (w_db_connect_ok w) (w_db w)
    (w_gs_auth_ok w) (w_gs_open_ok w) (w_gs_update_ok w)
    (w_sheet w ++ cells).

End SheetNotions.
Export SheetNotions.

(** ** Notions for the script *)

Module ScriptNotions.

(** Everything but the log and the list of requests is the same: the
    collaborators, the store and the sheet. *)
Definition same_but_trace (w w' : World) : Prop :=
  w_api w' = w_api w
  /\ w_db_connect_ok w' = w_db_connect_ok w /\ w_db w' = w_db w
  /\ w_gs_auth_ok w' = w_gs_auth_ok w /\ w_gs_open_ok w' = w_gs_open_ok w
  /\ w_gs_update_ok w' = w_gs_update_ok w /\ w_sheet w' = w_sheet w.

(** A computation that leaves the sheet and the list of requests as they
    are. *)
Definition keeps {A} (m : M A) : Prop :=
  forall w, w_sheet (snd (m w)) = w_sheet w
            /\ w_requests (snd (m w)) = w_requests w.

(** The request of the script. *)
Definition script_request : Request :=
  statistics_request Script.start_date Script.end_date.

End ScriptNotions.
Export ScriptNotions.

Module StageNotions.

(** A run in which the API returns one valid record and Google refuses the
    client. *)
Definition world_auth_refused : World :=
  mkWorld [] [] (fun _ => Some [row_valid]) true (mkDb ∅ ∅ false []) false
    true true [].

End StageNotions.
Export StageNotions.

(** ** Notions for the parameters and the columns of the store *)

Module StoreNotions.

(** The value holds a NUL character in one of its strings. *)
Fixpoint holds_nul (v : pyobj) : bool :=
  match v with
  | PStr s => has_nul s
  | PList l =>
      (fix any (l : list pyobj) : bool :=
         match l with
         | [] => false
         | x :: l' => holds_nul x || any l'
         end) l
  | _ => false
  end.

(** The name is written as an identifier: a letter or an underscore, then
    letters, digits, underscores and dollar signs. *)
Definition is_letter (c : ascii) : bool :=
  let n := N_of_ascii c in
  (((65 <=? n) && (n <=? 90)) || ((97 <=? n) && (n <=? 122)) || (n =? 95))%N.

Fixpoint all_chars (p : ascii -> bool) (s : string) : bool :=
  match s with
  | EmptyString => true
  | String c s' => p c && all_chars p s'
  end.

Definition identifier (name : string) : bool :=
  match name with
  | String c r =>
      is_letter c
      && all_chars (fun c => is_letter c || is_digit c || Ascii.eqb c "$") r
  | EmptyString => false
  end.

(** No value of the record holds a NUL character. *)
Definition no_nul (row : Canonical) : Prop :=
  Forall (fun v => holds_nul v = false)
    (insert_params (Database.row_values row)).

(** psycopg2 can send every value of the record. *)
Definition sendable (row : Canonical) : Prop :=
  adapt_params (insert_params (Database.row_values row)) = None.

(** The columns that the dedup query reads keep the values of the record
    whole: [created_at] and [user_id] have at most 255 characters. *)
Definition fits (row : Canonical) : Prop :=
  (String.length (created_at row) <= 255)%nat
  /\ (forall u, user_id row = Some u -> (String.length u <= 255)%nat).

(** The record has more than 255 characters in [created_at], and spaces
    only after the first 255: the column takes the value and cuts it. *)
Definition overlong (row : Canonical) : Prop :=
  (255 < String.length (created_at row))%nat
  /\ Forall (fun c => c = " "%char)
       (skipn 255 (list_ascii_of_string (created_at row))).

(** The rows hold in [created_at] what the column can hold. *)
Definition within_columns (rows : list StoredRow) : Prop :=
  Forall (fun r => forall t, st_created_at r = Some t ->
                             (String.length t <= 255)%nat) rows.

(** The row that the table keeps of a record. *)
Definition stored (row : Canonical) : StoredRow :=
  column_values (Database.row_values row).

(** A timestamp of 255 characters followed by a space, and a record of
    user u1 with it. *)
Definition long_created_at : string :=
  "2024-05-01 10:00:00" ++ string_of_list_ascii (repeat "x"%char 236)
  ++ " ".

Definition record_overlong : Canonical :=
  mkCanonical (Some "u1") None None None (PInt 1) "run" long_created_at.


(** The valid record of the API with a NUL character in [lti_user_id]. *)
Definition row_nul : RawRecord :=
  <["lti_user_id" := PStr (String "u" (String nul EmptyString))]> row_valid.

(** A run in which the API returns that record and the first query of
    the loading stage fails. *)
Definition world_nul_fails : World :=
  mkWorld [] [] (fun _ => Some [row_nul]) true
    (mkDb ∅ ∅ false [false; false; false; false; true]) true true true [].

End StoreNotions.
Export StoreNotions.

(* ===================================================================== *)
(** * Equations of the monad *)
(* ===================================================================== *)

Lemma for_each_nil {A S} (body : S -> A -> M S) s w :
  for_each [] body s w = (Ret s, w).
Proof. reflexivity. Qed.

Lemma for_each_cons {A S} (a : A) l (body : S -> A -> M S) s w :
  for_each (a :: l) body s w =
  match body s a w with
  | (Ret s', w') => for_each l body s' w'
  | (Raise e, w') => (Raise e, w')
  | (Exit c, w') => (Exit c, w')
  end.
Proof. reflexivity. Qed.

Lemma bind_eq {A B} (m : M A) (k : A -> M B) w :
  bind m k w =
  match m w with
  | (Ret a, w') => k a w'
  | (Raise e, w') => (Raise e, w')
  | (Exit c, w') => (Exit c, w')
  end.
Proof. reflexivity. Qed.

Lemma try_except_eq {A} (m : M A) C h w :
  try_except m C h w =
  match m w with
  | (Raise e, w') => if C e then h e w' else (Raise e, w')
  | r => r
  end.
Proof. reflexivity. Qed.

(* ===================================================================== *)
(** * Properties of the validator *)
(* ===================================================================== *)

Section ValidatorFacts.
Variable json_loads : string -> exn + pyobj.

Lemma check_required_no_exit fields row c :
  check_required fields row <> Exit c.
Proof.
  induction fields as [|f fs IH]; simpl; [discriminate|].
  destruct (row !! f); [exact IH | discriminate].
Qed.

Lemma passback_fields_no_exit v c :
  passback_fields json_loads v <> Exit c.
Proof.
  unfold passback_fields, decode.
  destruct v; simpl; try discriminate.
  destruct (json_loads _) as [e|j]; simpl; [discriminate|].
  destruct j; simpl; try discriminate.
  destruct (existsb _ _); discriminate.
Qed.

Lemma validate_row_no_exit row c :
  validate_row json_loads row <> Exit c.
Proof.
  unfold validate_row.
  destruct (check_required required_fields row) as [[]|e|c'] eqn:Hreq; simpl.
  - destruct (_ && _); [discriminate|].
    destruct (negb _); [discriminate|].
    destruct (passback_fields json_loads _) as [[[k1 k2] k3]|e|c'] eqn:Hp;
      simpl; try discriminate.
    + destruct (dict_get row "attempt_type"); try discriminate.
      destruct (dict_get row "created_at"); discriminate.
    + exfalso. by eapply passback_fields_no_exit.
  - discriminate.
  - exfalso. by eapply check_required_no_exit.
Qed.

(** What one turn of the loop does, by the outcome of the record. *)
Lemma record_step_eq acc idx row w :
  record_step json_loads acc (idx, row) w =
  match validate_row json_loads row with
  | Ret c => (Ret (acc ++ [c])%list, w)
  | Raise e =>
      if isinstance_ValueError e
      then (Ret acc, snd (log_add (LogRecordError idx e) w))
      else (Raise e, w)
  | Exit c => (Exit c, w)
  end.
Proof.
  unfold record_step, try_except, bind, lift, ret.
  destruct (validate_row json_loads row) as [c|e|c]; reflexivity.
Qed.

Lemma accepted_cons row data :
  accepted json_loads (row :: data) =
  (match validate_row json_loads row with Ret c => [c] | _ => [] end
   ++ accepted json_loads data)%list.
Proof. reflexivity. Qed.

Lemma accepted_length data :
  (length (accepted json_loads data) <= length data)%nat.
Proof.
  induction data as [|row data IH]; [reflexivity|].
  rewrite accepted_cons, length_app. simpl length at 2.
  destruct (validate_row json_loads row); simpl; lia.
Qed.

Lemma accepted_all data :
  length (accepted json_loads data) = length data ->
  Forall2 (fun row c => validate_row json_loads row = Ret c) data
    (accepted json_loads data).
Proof.
  induction data as [|row data IH]; intros Hlen; [constructor|].
  rewrite accepted_cons in *. rewrite length_app in Hlen.
  pose proof (accepted_length data) as Hle.
  destruct (validate_row json_loads row) as [c|e|c] eqn:Hrow;
    simpl in Hlen; try lia.
  simpl. constructor; [exact Hrow | apply IH; lia].
Qed.

Lemma accepted_Forall2 data l :
  Forall2 (fun row c => validate_row json_loads row = Ret c) data l ->
  accepted json_loads data = l.
Proof.
  induction 1 as [|row c data l Hrow _ IH]; [reflexivity|].
  rewrite accepted_cons, Hrow, IH. reflexivity.
Qed.

(** The loop over the batch: it either returns the accepted records, no
    record having raised anything but a [ValueError], or it stops at the
    first record that raises another exception. *)
Lemma validate_loop data : forall start acc w,
  match fst (for_each (enumerate data start) (record_step json_loads) acc w)
  with
  | Ret acc' =>
      acc' = (acc ++ accepted json_loads data)%list
      /\ Forall (fun row => ~ escapes json_loads row) data
  | Raise e =>
      isinstance_ValueError e = false
      /\ Exists (fun row => validate_row json_loads row = Raise e) data
  | Exit _ => False
  end.
Proof.
  induction data as [|row data IH]; intros start acc w.
  - simpl. split; [by rewrite app_nil_r | constructor].
  - simpl enumerate. rewrite for_each_cons, record_step_eq, accepted_cons.
    destruct (validate_row json_loads row) as [c|e|c] eqn:Hrow.
    + specialize (IH (S start) (acc ++ [c])%list w).
      destruct (fst (for_each _ _ _ _)) as [acc'|e'|c'] eqn:Hloop;
        destruct (for_each _ _ _ _) as [o w']; simpl in Hloop; subst o;
        simpl.
      * destruct IH as [-> Hno]. split; [by rewrite <- app_assoc|].
        constructor; [|exact Hno]. intros (e & He & _). congruence.
      * destruct IH as [He' Hex]. split; [exact He' | by right].
      * exact IH.
    + destruct (isinstance_ValueError e) eqn:Hcls.
      * specialize (IH (S start) acc (snd (log_add (LogRecordError start e) w))).
        destruct (fst (for_each _ _ _ _)) as [acc'|e'|c'] eqn:Hloop;
          destruct (for_each _ _ _ _) as [o w']; simpl in Hloop; subst o;
          simpl.
        -- destruct IH as [-> Hno]. split; [reflexivity|].
           constructor; [|exact Hno]. intros (e0 & He0 & Hcls0). congruence.
        -- destruct IH as [He' Hex]. split; [exact He' | by right].
        -- exact IH.
      * simpl. split; [exact Hcls | by left].
    + exfalso. by eapply validate_row_no_exit.
Qed.

(** [validate_data] on a non-empty batch, in terms of its loop. *)
Lemma validate_data_eq data w :
  data <> [] ->
  validate_data json_loads data w =
  match for_each (enumerate data 1) (record_step json_loads) []
          (snd (logger_info "Starting data validation..." w)) with
  | (Ret v, w') =>
      if Nat.eqb (length v) (length data)
      then (Ret v,
            snd (logger_info "Data validation completed successfully." w'))
      else (Exit 1,
            snd (logger_error
                   "Data validation failed. Please check the logs for details."
                   None w'))
  | (Raise e, w') => (Raise e, w')
  | (Exit c, w') => (Exit c, w')
  end.
Proof.
  intros Hne. destruct data as [|row data]; [congruence|].
  unfold validate_data. rewrite bind_eq. cbn [logger_info log_add snd].
  rewrite bind_eq.
  destruct (for_each _ _ _ _) as [[v|e|c] w']; try reflexivity.
  destruct (Nat.eqb _ _); reflexivity.
Qed.

Lemma not_passes_shorter data :
  Exists (fun row => ~ passes json_loads row) data ->
  length (accepted json_loads data) <> length data.
Proof.
  intros Hex Hlen. apply accepted_all in Hlen.
  apply Exists_exists in Hex as (row & Hin & Hnot).
  apply Hnot. clear Hnot.
  induction Hlen as [|r c data l Hr _ IH]; [by inversion Hin|].
  apply elem_of_cons in Hin as [->|Hin]; [by exists c | by apply IH].
Qed.

(** A record whose [is_correct] is 2 does not pass, whatever else it
    holds. *)
Lemma is_correct_2_not_passes row :
  row !! "is_correct" = Some (PInt 2) -> ~ passes json_loads row.
Proof.
  intros H2 (c & Hc). unfold validate_row in Hc.
  destruct (check_required required_fields row); simpl in Hc;
    try discriminate.
  destruct (_ && _); [discriminate|].
  unfold dict_get in Hc at 1. rewrite H2 in Hc. simpl in Hc. discriminate.
Qed.

(** C10: called with an empty batch, [validate_data] ends the process with
    status 1 before it logs or examines anything; the empty batch is never
    a successful validation returning an empty sequence. *)
Theorem validate_empty_batch_exits (w : World) :
  validate_data json_loads [] w = (Exit 1, w).
Proof. reflexivity. Qed.

(** C1: on a non-empty batch [validate_data] returns a list exactly when
    every record passes every check, and the list is then the full sequence
    of canonical records; as soon as one record does not pass, no list is
    returned and the run stops with exit status 1: by the [sys.exit(1)] of
    [validate_data] when the failing records raised [ValueError], by the
    handler of the script otherwise.  A record with [is_correct = 2] is
    such a record. *)
Theorem validate_all_or_nothing (data : list RawRecord) (w : World) :
  data <> [] ->
  (forall l,
     fst (validate_data json_loads data w) = Ret l <->
     Forall2 (fun row c => validate_row json_loads row = Ret c) data l)
  /\ (Exists (fun row => ~ passes json_loads row) data ->
      (forall l, fst (validate_data json_loads data w) <> Ret l)
      /\ fst (Script.top_level (validate_data json_loads data) w) = Exit 1)
  /\ (Exists (rejected json_loads) data ->
      Forall (fun row => ~ escapes json_loads row) data ->
      fst (validate_data json_loads data w) = Exit 1)
  /\ (Exists (fun row => row !! "is_correct" = Some (PInt 2)) data ->
      fst (Script.top_level (validate_data json_loads data) w) = Exit 1).
Proof.
  intros Hne.
  pose proof (validate_loop data 1 []
                (snd (logger_info "Starting data validation..." w))) as Hloop.
  assert (Hfail :
    Exists (fun row => ~ passes json_loads row) data ->
    (forall l, fst (validate_data json_loads data w) <> Ret l)
    /\ fst (Script.top_level (validate_data json_loads data) w) = Exit 1).
  { intros Hex. apply not_passes_shorter in Hex.
    unfold Script.top_level. rewrite try_except_eq, validate_data_eq by done.
    destruct (for_each _ _ _ _) as [[v|e|c] w']; simpl in Hloop.
    - destruct Hloop as [-> _]. simpl in *.
      apply Nat.eqb_neq in Hex. rewrite Hex. by split.
    - by split.
    - contradiction. }
  split; [|split; [exact Hfail|split]].
  - intros l. rewrite validate_data_eq by done.
    destruct (for_each _ _ _ _) as [[v|e|c] w']; simpl in Hloop.
    + destruct Hloop as [-> _]. simpl accepted.
      destruct (Nat.eqb _ _) eqn:Hlen; simpl.
      * apply Nat.eqb_eq, accepted_all in Hlen. split.
        -- by intros [= <-].
        -- intros HF. f_equal. by apply accepted_Forall2.
      * split; [discriminate|]. intros HF.
        apply Nat.eqb_neq in Hlen. exfalso. apply Hlen.
        rewrite (accepted_Forall2 _ _ HF). symmetry.
        by eapply Forall2_length.
    + simpl. split; [discriminate|]. intros HF. exfalso.
      destruct Hloop as [_ Hex]. apply Exists_exists in Hex as (row & Hin & Hrow).
      apply list_elem_of_lookup in Hin as [i Hi].
      destruct (Forall2_lookup_l _ _ _ i row HF Hi) as (c & _ & Hc).
      congruence.
    + contradiction.
  - intros Hrej Hnoesc.
    rewrite validate_data_eq by done.
    assert (Hshort : length (accepted json_loads data) <> length data).
    { apply not_passes_shorter. eapply Exists_impl; [exact Hrej|].
      intros row (e & He & _) (c & Hc). congruence. }
    destruct (for_each _ _ _ _) as [[v|e|c] w']; simpl in Hloop.
    + destruct Hloop as [-> _]. simpl in *.
      apply Nat.eqb_neq in Hshort. by rewrite Hshort.
    + exfalso. destruct Hloop as [He Hex].
      apply Exists_exists in Hex as (row & Hin & Hrow).
      rewrite Forall_forall in Hnoesc. apply (Hnoesc row Hin). by exists e.
    + contradiction.
  - intros H2. apply Hfail. eapply Exists_impl; [exact H2|].
    intros row Hrow. by apply is_correct_2_not_passes.
Qed.

Lemma check_required_cases fields row :
  check_required fields row = Ret tt
  \/ exists msg, check_required fields row = Raise (ValueError msg).
Proof.
  induction fields as [|f fs IH]; simpl; [by left|].
  destruct (row !! f); [exact IH | right; eauto].
Qed.

(** Whatever [passback_params] holds, the checks that come before it
    either pass or reject the record. *)
Lemma validate_row_until_params row :
  rejected json_loads row
  \/ validate_row json_loads row =
     obind (passback_fields json_loads (dict_get row "passback_params"))
       (fun '(oauth_consumer_key, lis_result_sourcedid,
              lis_outcome_service_url) =>
        match dict_get row "attempt_type", dict_get row "created_at" with
        | PStr attempt_type, PStr created_at =>
            Ret (mkCanonical (opt_str (dict_get row "lti_user_id"))
                   oauth_consumer_key lis_result_sourcedid
                   lis_outcome_service_url (dict_get row "is_correct")
                   attempt_type created_at)
        | _, _ => Raise (ValueError
                    "'attempt_type' and 'created_at' must be a string")
        end).
Proof.
  unfold rejected, validate_row.
  destruct (check_required_cases required_fields row) as [->|[msg ->]];
    simpl; [|left; eauto].
  destruct (_ && _); [left; eauto|].
  destruct (negb _); [left; eauto|].
  by right.
Qed.

(** The part of the parse-failure policy that holds: text that the decoder
    refuses with a [JSONDecodeError] makes the record a rejection. *)
Lemma params_decode_error_rejected row s e :
  row !! "passback_params" = Some (PStr s) ->
  json_loads (replace single_quote double_quote s) = inl e ->
  isinstance_ValueError e = true ->
  rejected json_loads row.
Proof.
  intros Hp Hdec Hcls.
  destruct (validate_row_until_params row) as [Hrej|Heq]; [exact Hrej|].
  exists e. split; [|exact Hcls]. rewrite Heq.
  unfold dict_get at 1. rewrite Hp. simpl.
  unfold passback_fields, decode. simpl. by rewrite Hdec.
Qed.

(** A decoded mapping holding a value that is neither a string nor null
    makes the record a rejection. *)
Lemma params_bad_value_rejected row s d k v :
  row !! "passback_params" = Some (PStr s) ->
  json_loads (replace single_quote double_quote s) = inr (PDict d) ->
  d !! k = Some v -> is_none v = false -> is_str v = false ->
  rejected json_loads row.
Proof.
  intros Hp Hdec Hk Hn Hs.
  destruct (validate_row_until_params row) as [Hrej|Heq]; [exact Hrej|].
  exists (ValueError "All values in 'passback_params' must be strings").
  split; [|reflexivity]. rewrite Heq.
  unfold dict_get at 1. rewrite Hp. simpl.
  unfold passback_fields, decode. simpl. rewrite Hdec. simpl.
  assert (Hex : existsb (fun value => negb (is_none value) && negb (is_str value))
                  (map snd (map_to_list d)) = true).
  { apply existsb_exists. exists v. split; [|by rewrite Hn, Hs].
    apply in_map_iff. exists (k, v). split; [reflexivity|].
    apply list_elem_of_In, elem_of_map_to_list, Hk. }
  by rewrite Hex.
Qed.

(** The part that does not hold: when the text decodes to a value that is
    not a mapping, the record is neither accepted nor rejected;
    [AttributeError] is raised and is not a [ValueError]. *)
Lemma params_not_mapping_raises row s v :
  row !! "passback_params" = Some (PStr s) ->
  json_loads (replace single_quote double_quote s) = inr v ->
  (forall d, v <> PDict d) ->
  rejected json_loads row
  \/ validate_row json_loads row = Raise AttributeError.
Proof.
  intros Hp Hdec Hnd.
  destruct (validate_row_until_params row) as [Hrej|Heq]; [by left|].
  right. rewrite Heq. unfold dict_get at 1. rewrite Hp. simpl.
  unfold passback_fields, decode. simpl. rewrite Hdec.
  destruct v; try reflexivity. by destruct (Hnd d).
Qed.

End ValidatorFacts.

(** The scenario of C1 on the fragment decoder: of two records, the second
    has [is_correct = 2]; the batch fails with status 1. *)
Lemma validate_all_or_nothing_witness :
  [row_valid; row_is_correct_2] <> []
  /\ fst (validate_data JsonFragment.json_loads [row_valid; row_is_correct_2]
            (quiet_world [])) = Exit 1.
Proof.
  split; [discriminate|].
  pose proof (validate_all_or_nothing JsonFragment.json_loads
                [row_valid; row_is_correct_2] (quiet_world [])
                ltac:(discriminate)) as (_ & _ & H & _).
  apply H.
  - right. left.
    exists (ValueError "'is_correct' must be 0, 1, or None").
    split; vm_compute; reflexivity.
  - repeat constructor; intros (e & He & Hcls); vm_compute in He;
      [discriminate|].
    injection He as <-. discriminate.
Defined.

(** A record whose [passback_params] is a single-quoted mapping is
    accepted and its sub-fields are extracted. *)
Lemma validate_quoted_mapping_example (w : World) :
  fst (validate_data JsonFragment.json_loads [row_params_mapping] w) =
  Ret [mkCanonical (Some "u1") (Some "key") None None (PInt 1) "run"
         "2024-05-01 10:00:00"].
Proof.
  rewrite validate_data_eq by discriminate.
  simpl enumerate. rewrite for_each_cons, record_step_eq.
  replace (validate_row JsonFragment.json_loads row_params_mapping)
    with (Ret (mkCanonical (Some "u1") (Some "key") None None (PInt 1) "run"
                 "2024-05-01 10:00:00"))
    by (vm_compute; reflexivity).
  reflexivity.
Qed.

(** C9 at a failing input: [passback_params = "[]"] decodes to a list, not
    a mapping.  [validate_data] does not log the record as rejected and
    does not reach its own exit: [AttributeError] leaves the function. *)
Theorem validate_params_list_escapes (w : World) :
  validate_data JsonFragment.json_loads [row_params_list] w =
  (Raise AttributeError, snd (logger_info "Starting data validation..." w)).
Proof.
  rewrite validate_data_eq by discriminate.
  simpl enumerate. rewrite for_each_cons, record_step_eq.
  replace (validate_row JsonFragment.json_loads row_params_list)
    with (@Raise Canonical AttributeError) by (vm_compute; reflexivity).
  reflexivity.
Qed.

(* ===================================================================== *)
(** * Properties of the date-range gate *)
(* ===================================================================== *)

Section GateFacts.

Lemma read_year_length s y r :
  read_year s = Some (y, r) -> String.length s = (4 + String.length r)%nat.
Proof.
  unfold read_year.
  destruct s as [|a [|b [|c [|d s]]]]; try discriminate.
  destruct (_ && _); [|discriminate]. by intros [= _ <-].
Qed.

Lemma read_dash_length s r :
  read_dash s = Some r -> String.length s = (1 + String.length r)%nat.
Proof.
  unfold read_dash. destruct s as [|c s]; [discriminate|].
  destruct (Ascii.eqb c "-"); [|discriminate]. by intros [= <-].
Qed.

Lemma read_month_length s m r :
  read_month s = Some (m, r) ->
  (String.length s <= 2 + String.length r)%nat.
Proof.
  unfold read_month. destruct s as [|a [|c s]]; try discriminate.
  - destruct (in_range "1" "9" a); [|discriminate].
    intros [= _ <-]. simpl. lia.
  - destruct (_ && _); [intros [= _ <-]; simpl; lia|].
    destruct (_ && _); [intros [= _ <-]; simpl; lia|].
    destruct (in_range "1" "9" a); [|discriminate].
    intros [= _ <-]. simpl. lia.
Qed.

Lemma read_day_length s d r :
  read_day s = Some (d, r) ->
  (String.length s <= 2 + String.length r)%nat.
Proof.
  unfold read_day. destruct s as [|a [|c s]]; try discriminate.
  - destruct (in_range "1" "9" a); [|discriminate].
    intros [= _ <-]. simpl. lia.
  - repeat (destruct (_ && _); [intros [= _ <-]; simpl; lia|]).
    destruct (in_range "1" "9" a); [intros [= _ <-]; simpl; lia|].
    destruct (_ && _); [intros [= _ <-]; simpl; lia|discriminate].
Qed.

(** [strptime] leaves nothing unread: a parsed string has at most ten
    characters. *)
Lemma strptime_length s d :
  strptime_Ymd s = Ret d -> (String.length s <= 10)%nat.
Proof.
  unfold strptime_Ymd.
  destruct (read_year s) as [[y s1]|] eqn:Hy; [|discriminate].
  destruct (read_dash s1) as [s2|] eqn:H1; [|discriminate].
  destruct (read_month s2) as [[m s3]|] eqn:Hm; [|discriminate].
  destruct (read_dash s3) as [s4|] eqn:H2; [|discriminate].
  destruct (read_day s4) as [[dd rest]|] eqn:Hd; [|discriminate].
  destruct rest; [|discriminate]. intros _.
  apply read_year_length in Hy. apply read_dash_length in H1, H2.
  apply read_month_length in Hm. apply read_day_length in Hd.
  simpl in Hd. lia.
Qed.

Lemma date_pattern_shape s :
  date_pattern_match s = true -> (String.length s <= 10)%nat ->
  YYYY_MM_DD s.
Proof.
  unfold date_pattern_match, date_pattern.
  destruct s as [|y1 [|y2 [|y3 [|y4 [|h1 [|m1 [|m2 [|h2 [|d1 [|d2 s]]]]]]]]]];
    simpl; try (repeat (destruct (is_digit _) || destruct (Ascii.eqb _ _));
                discriminate).
  destruct (is_digit y1) eqn:?; [|discriminate].
  destruct (is_digit y2) eqn:?; [|discriminate].
  destruct (is_digit y3) eqn:?; [|discriminate].
  destruct (is_digit y4) eqn:?; [|discriminate].
  destruct (Ascii.eqb_spec h1 "-") as [->|]; [|discriminate].
  destruct (is_digit m1) eqn:?; [|discriminate].
  destruct (is_digit m2) eqn:?; [|discriminate].
  destruct (Ascii.eqb_spec h2 "-") as [->|]; [|discriminate].
  destruct (is_digit d1) eqn:?; [|discriminate].
  destruct (is_digit d2) eqn:?; [|discriminate].
  intros _ Hlen. destruct s; [|simpl in Hlen; lia].
  exists y1, y2, y3, y4, m1, m2, d1, d2. split; [reflexivity|].
  simpl. by repeat match goal with H : is_digit _ = true |- _ => rewrite H; clear H end.
Qed.

Lemma shape_date_pattern s :
  YYYY_MM_DD s -> date_pattern_match s = true.
Proof.
  intros (y1 & y2 & y3 & y4 & m1 & m2 & d1 & d2 & -> & Hd).
  simpl in Hd. repeat (apply andb_prop in Hd as [? Hd]).
  unfold date_pattern_match, date_pattern. simpl.
  by repeat match goal with H : is_digit _ = true |- _ => rewrite H; clear H end.
Qed.

(** [get_data] in terms of its gate: a refused range ends the process
    before any request; an accepted one issues exactly one request. *)
Lemma get_data_eq start_day finish_day w :
  get_data start_day finish_day w =
  let w0 := snd (logger_info "Extracting data from the API for the interval" w) in
  match gate start_day finish_day with
  | Ret _ =>
      match requests_get_json (statistics_request start_day finish_day) w0 with
      | (Ret data, w1) =>
          (Ret data, snd (logger_info "Data extracted successfully from API." w1))
      | (Raise e, w1) =>
          (Exit 1, snd (logger_error "Failed to retrieve data from API" (Some e) w1))
      | (Exit c, w1) => (Exit c, w1)
      end
  | Raise e =>
      (Exit 1, snd (logger_error "Failed to retrieve data from API" (Some e) w0))
  | Exit c => (Exit c, w0)
  end.
Proof.
  unfold get_data, gate. rewrite bind_eq. cbn [logger_info log_add fst snd].
  rewrite try_except_eq. cbv zeta.
  destruct (_ || _); [reflexivity|].
  unfold lift. rewrite bind_eq.
  destruct (strptime_Ymd start_day) as [ds|e|c]; try reflexivity.
  cbn [obind]. rewrite bind_eq.
  destruct (strptime_Ymd finish_day) as [df|e|c]; try reflexivity.
  cbn [obind].
  destruct (date_gt ds df); [reflexivity|].
  destruct (_ >? _)%Z; [reflexivity|].
  fold (statistics_request start_day finish_day).
  rewrite bind_eq.
  destruct (requests_get_json _ _) as [[data|e|c] w1]; reflexivity.
Qed.

Lemma requests_get_json_requests prms w :
  w_requests (snd (requests_get_json prms w)) = (w_requests w ++ [prms])%list.
Proof. unfold requests_get_json. by destruct (w_api w prms). Qed.

Lemma requests_get_json_no_exit prms w c :
  fst (requests_get_json prms w) <> Exit c.
Proof. unfold requests_get_json. by destruct (w_api w prms). Qed.

Lemma gate_no_exit start_day finish_day c :
  gate start_day finish_day <> Exit c.
Proof.
  unfold gate, strptime_Ymd. destruct (_ || _); [discriminate|].
  repeat first
    [ discriminate
    | match goal with
      | |- context [match ?x with _ => _ end] => destruct x; cbn [obind]
      end ].
Qed.

(** ** The calendar *)

Section CalendarFacts.
#[local] Open Scope Z_scope.

Lemma days_before_year_mono a b :
  a <= b -> days_before_year a <= days_before_year b.
Proof. unfold days_before_year. intros H. Z.div_mod_to_equations. lia. Qed.

Lemma days_before_year_succ y :
  days_before_year (y + 1)
  = days_before_year y + 365 + (if is_leap y then 1 else 0).
Proof.
  unfold days_before_year, is_leap.
  replace (y + 1 - 1) with y by lia.
  destruct (Z.eqb_spec (y mod 4) 0); destruct (Z.eqb_spec (y mod 100) 0);
    destruct (Z.eqb_spec (y mod 400) 0); simpl;
    Z.div_mod_to_equations; lia.
Qed.


(** Evaluate the calendar tables at the months named in the goal. *)
Ltac eval_months :=
  unfold days_before_month, days_in_month;
  repeat match goal with
         | |- context [Z.to_nat ?e] =>
             let v := eval vm_compute in (Z.to_nat e) in
             change (Z.to_nat e) with v
         end;
  cbn [days_before_month_aux];
  unfold days_in_month;
  repeat match goal with
         | |- context [Z.eqb ?a ?c] =>
             let v := eval vm_compute in (Z.eqb a c) in
             match v with
             | true => change (Z.eqb a c) with true
             | false => change (Z.eqb a c) with false
             end
         end;
  cbn [orb].

Lemma month_cases m : 1 <= m <= 12 ->
  m = 1 \/ m = 2 \/ m = 3 \/ m = 4 \/ m = 5 \/ m = 6 \/ m = 7 \/ m = 8
  \/ m = 9 \/ m = 10 \/ m = 11 \/ m = 12.
Proof. lia. Qed.

Lemma day_of_year_bounds d :
  valid_date d ->
  1 <= days_before_month (year d) (month d) + day d
    <= 365 + (if is_leap (year d) then 1 else 0).
Proof.
  intros (_ & Hm & Hd). destruct d as [y m dd]. cbn [year month day] in *.
  revert Hd. apply month_cases in Hm.
  repeat (destruct Hm as [->|Hm]); try subst m;
    eval_months; destruct (is_leap y); lia.
Qed.

Lemma day_of_year_lt y m1 d1 m2 d2 :
  1 <= m1 <= 12 -> 1 <= m2 <= 12 ->
  1 <= d1 <= days_in_month y m1 -> 1 <= d2 <= days_in_month y m2 ->
  m1 < m2 ->
  days_before_month y m1 + d1 < days_before_month y m2 + d2.
Proof.
  intros H1 H2 Hd1 Hd2 Hlt. revert Hd1 Hd2.
  apply month_cases in H1. apply month_cases in H2.
  repeat (destruct H1 as [->|H1]); try subst m1;
  repeat (destruct H2 as [->|H2]); try subst m2; try lia;
    eval_months; destruct (is_leap y); lia.
Qed.

Lemma date_gt_toordinal a b :
  valid_date a -> valid_date b ->
  date_gt a b = true <-> toordinal b < toordinal a.
Proof.
  intros Ha Hb.
  pose proof (day_of_year_bounds a Ha) as Hda.
  pose proof (day_of_year_bounds b Hb) as Hdb.
  destruct Ha as (Hya & Hma & Hdda), Hb as (Hyb & Hmb & Hddb).
  unfold date_gt, toordinal in *.
  destruct a as [ya ma da], b as [yb mb db]. simpl in *.
  destruct (Z.ltb_spec yb ya) as [Hy|Hy]; simpl.
  - split; [intros _|done].
    pose proof (days_before_year_mono (yb + 1) ya ltac:(lia)).
    pose proof (days_before_year_succ yb). lia.
  - destruct (Z.eqb_spec yb ya) as [->|Hne]; simpl.
    + destruct (Z.ltb_spec mb ma) as [Hm|Hm]; simpl.
      * split; [intros _|done].
        pose proof (day_of_year_lt ya mb db ma da). lia.
      * destruct (Z.eqb_spec mb ma) as [->|Hmne]; simpl.
        -- rewrite Z.ltb_lt. lia.
        -- split; [done|]. intros Hlt.
           pose proof (day_of_year_lt ya ma da mb db). lia.
    + split; [done|]. intros Hlt.
      pose proof (days_before_year_mono (ya + 1) yb ltac:(lia)).
      pose proof (days_before_year_succ ya). lia.
Qed.

Lemma in_range_digit lo hi c :
  in_range lo hi c = true -> digit_val lo <= digit_val c <= digit_val hi.
Proof.
  unfold in_range, digit_val. intros H. apply andb_prop in H as [H1 H2].
  apply N.leb_le in H1, H2. lia.
Qed.

(** From a range test on a character to the bounds of its digit value. *)
Ltac digit_bounds H :=
  apply in_range_digit in H;
  repeat match type of H with
         | context [digit_val (Ascii ?a ?b ?c ?d ?e ?f ?g ?h)] =>
             let v := eval vm_compute in
                        (digit_val (Ascii a b c d e f g h)) in
             change (digit_val (Ascii a b c d e f g h)) with v in H
         end.

Lemma is_digit_val c : is_digit c = true -> 0 <= digit_val c <= 9.
Proof.
  unfold is_digit, digit_val. intros H. apply andb_prop in H as [H1 H2].
  apply N.leb_le in H1, H2. lia.
Qed.

Lemma read_month_range s m r :
  read_month s = Some (m, r) -> 1 <= m <= 12.
Proof.
  unfold read_month. destruct s as [|a [|c s]]; try discriminate.
  - destruct (in_range "1" "9" a) eqn:Ha; [|discriminate].
    intros [= <- _]. digit_bounds Ha. lia.
  - destruct (Ascii.eqb a "1" && in_range "0" "2" c) eqn:H1.
    { apply andb_prop in H1 as [_ Hc]. digit_bounds Hc.
      intros [= <- _]. lia. }
    destruct (Ascii.eqb a "0" && in_range "1" "9" c) eqn:H2.
    { apply andb_prop in H2 as [_ Hc]. digit_bounds Hc.
      intros [= <- _]. lia. }
    destruct (in_range "1" "9" a) eqn:Ha; [|discriminate].
    intros [= <- _]. digit_bounds Ha. lia.
Qed.

Lemma read_day_pos s d r :
  read_day s = Some (d, r) -> 1 <= d.
Proof.
  unfold read_day. destruct s as [|a [|c s]]; try discriminate.
  - destruct (in_range "1" "9" a) eqn:Ha; [|discriminate].
    intros [= <- _]. digit_bounds Ha. lia.
  - destruct (Ascii.eqb a "3" && in_range "0" "1" c) eqn:H1.
    { apply andb_prop in H1 as [_ Hc]. digit_bounds Hc.
      intros [= <- _]. lia. }
    destruct (in_range "1" "2" a && is_digit c) eqn:H2.
    { apply andb_prop in H2 as [Ha Hc]. digit_bounds Ha.
      apply is_digit_val in Hc. intros [= <- _]. lia. }
    destruct (Ascii.eqb a "0" && in_range "1" "9" c) eqn:H3.
    { apply andb_prop in H3 as [_ Hc]. digit_bounds Hc.
      intros [= <- _]. lia. }
    destruct (in_range "1" "9" a) eqn:Ha.
    { intros [= <- _]. digit_bounds Ha. lia. }
    destruct (Ascii.eqb a " " && in_range "1" "9" c) eqn:H4; [|discriminate].
    apply andb_prop in H4 as [_ Hc]. digit_bounds Hc.
    intros [= <- _]. lia.
Qed.

(** [strptime] returns days of the calendar only. *)
Lemma strptime_valid s d : strptime_Ymd s = Ret d -> valid_date d.
Proof.
  unfold strptime_Ymd.
  destruct (read_year s) as [[y s1]|] eqn:Hy; [|discriminate].
  destruct (read_dash s1) as [s2|] eqn:H1; [|discriminate].
  destruct (read_month s2) as [[m s3]|] eqn:Hm; [|discriminate].
  destruct (read_dash s3) as [s4|] eqn:H2; [|discriminate].
  destruct (read_day s4) as [[dd rest]|] eqn:Hd; [|discriminate].
  destruct rest; [|discriminate].
  destruct (Z.ltb_spec y 1); [discriminate|].
  destruct (Z.ltb_spec (days_in_month y m) dd); [discriminate|].
  intros [= <-]. apply read_month_range in Hm. apply read_day_pos in Hd.
  repeat split; simpl; lia.
Qed.

End CalendarFacts.

(** The gate lets a range through exactly when both bounds have the form
    YYYY-MM-DD, name calendar days, and are in order and at most six days
    apart. *)
Lemma gate_Ret start_day finish_day :
  gate start_day finish_day = Ret tt <->
  YYYY_MM_DD start_day /\ YYYY_MM_DD finish_day
  /\ exists ds df,
       strptime_Ymd start_day = Ret ds /\ strptime_Ymd finish_day = Ret df
       /\ date_gt ds df = false /\ (days_between df ds <= 6)%Z.
Proof.
  unfold gate. split.
  - destruct (date_pattern_match start_day) eqn:Hps; [|discriminate].
    destruct (date_pattern_match finish_day) eqn:Hpf; [|discriminate].
    simpl.
    destruct (strptime_Ymd start_day) as [ds|e|c] eqn:Hs; try discriminate.
    destruct (strptime_Ymd finish_day) as [df|e|c] eqn:Hf; try discriminate.
    cbn [obind].
    destruct (date_gt ds df) eqn:Hgt; [discriminate|].
    destruct (_ >? _)%Z eqn:Hspan; [discriminate|]. intros _.
    split; [|split].
    + eauto using date_pattern_shape, strptime_length.
    + eauto using date_pattern_shape, strptime_length.
    + exists ds, df. repeat split; try done. lia.
  - intros (Hs & Hf & ds & df & Hds & Hdf & Hgt & Hspan).
    rewrite (shape_date_pattern _ Hs), (shape_date_pattern _ Hf). simpl.
    rewrite Hds, Hdf. cbn [obind]. rewrite Hgt.
    destruct (_ >? _)%Z eqn:Hc; [lia | reflexivity].
Qed.

Lemma get_data_refused start_day finish_day w :
  gate start_day finish_day <> Ret tt ->
  fst (get_data start_day finish_day w) = Exit 1
  /\ no_request w (snd (get_data start_day finish_day w)).
Proof.
  intros Hno. rewrite get_data_eq. cbv zeta.
  destruct (gate start_day finish_day) as [[]|e|c] eqn:Hg.
  - congruence.
  - by split.
  - exfalso. by eapply gate_no_exit.
Qed.

Lemma get_data_accepted start_day finish_day w :
  gate start_day finish_day = Ret tt ->
  w_requests (snd (get_data start_day finish_day w)) =
  (w_requests w ++ [statistics_request start_day finish_day])%list.
Proof.
  intros Hg. rewrite get_data_eq, Hg. cbv zeta.
  pose proof (requests_get_json_requests
                (statistics_request start_day finish_day)
                (snd (logger_info "Extracting data from the API for the interval" w)))
    as Hreq.
  pose proof (requests_get_json_no_exit
                (statistics_request start_day finish_day)
                (snd (logger_info "Extracting data from the API for the interval" w)))
    as Hne.
  destruct (requests_get_json _ _) as [[data|e|c] w1]; simpl in *;
    [exact Hreq | exact Hreq | by destruct (Hne c)].
Qed.

(** C6: before any request is issued [get_data] checks that both bounds
    have the form YYYY-MM-DD, that the start day is not after the finish
    day and that they are at most six days apart; a range that breaks one of these
    ends the process with status 1 and no request, a range that meets them
    all is requested.  So 2024-05-10..2024-05-01 and 2024-05-01..2024-05-08
    are refused and 2024-05-01..2024-05-06 is requested. *)
Theorem date_range_gate (start_day finish_day : string) (w : World) :
  ((~ YYYY_MM_DD start_day \/ ~ YYYY_MM_DD finish_day
    \/ exists ds df,
         strptime_Ymd start_day = Ret ds /\ strptime_Ymd finish_day = Ret df
         /\ ((toordinal df < toordinal ds)%Z
             \/ (6 < days_between df ds)%Z)) ->
   fst (get_data start_day finish_day w) = Exit 1
   /\ no_request w (snd (get_data start_day finish_day w)))
  /\ ((YYYY_MM_DD start_day /\ YYYY_MM_DD finish_day
       /\ exists ds df,
            strptime_Ymd start_day = Ret ds /\ strptime_Ymd finish_day = Ret df
            /\ (toordinal ds <= toordinal df)%Z
            /\ (days_between df ds <= 6)%Z) ->
      w_requests (snd (get_data start_day finish_day w)) =
      (w_requests w ++ [statistics_request start_day finish_day])%list)
  /\ (fst (get_data "2024-05-10" "2024-05-01" w) = Exit 1
      /\ no_request w (snd (get_data "2024-05-10" "2024-05-01" w)))
  /\ (fst (get_data "2024-05-01" "2024-05-08" w) = Exit 1
      /\ no_request w (snd (get_data "2024-05-01" "2024-05-08" w)))
  /\ w_requests (snd (get_data "2024-05-01" "2024-05-06" w)) =
     (w_requests w
      ++ [mkRequest "Skillfactory" "M2MGWS" "2024-05-01 00:00:00.0"
            "2024-05-06 23:59:59.999999"])%list.
Proof.
  split; [|split; [|split; [|split]]].
  - intros Hbad. apply get_data_refused. rewrite gate_Ret.
    intros (Hs & Hf & ds & df & Hds & Hdf & Hgt & Hspan).
    destruct Hbad as [Hbad|[Hbad|(ds' & df' & Hds' & Hdf' & Hbad)]];
      [tauto | tauto |].
    rewrite Hds in Hds'. rewrite Hdf in Hdf'.
    injection Hds' as <-. injection Hdf' as <-.
    destruct Hbad as [Hbad|Hbad]; [|lia].
    apply date_gt_toordinal in Hbad; eauto using strptime_valid.
    congruence.
  - intros (Hs & Hf & ds & df & Hds & Hdf & Hle & Hspan).
    apply get_data_accepted, gate_Ret.
    split; [done|]. split; [done|]. exists ds, df.
    repeat split; try done.
    destruct (date_gt ds df) eqn:Hgt; [|done].
    apply date_gt_toordinal in Hgt; eauto using strptime_valid. lia.
  - by apply get_data_refused.
  - by apply get_data_refused.
  - by rewrite get_data_accepted.
Qed.

End GateFacts.

(* ===================================================================== *)
(** * Properties of the loader *)
(* ===================================================================== *)

Section LoaderFacts.
Import Database.

(** ** The dedup query *)

Lemma count_rows_app u t rows1 rows2 :
  count_rows u t (rows1 ++ rows2)%list
  = (count_rows u t rows1 + count_rows u t rows2)%Z.
Proof. unfold count_rows. rewrite List.filter_app, length_app. lia. Qed.

Lemma count_rows_nonneg u t rows : (0 <= count_rows u t rows)%Z.
Proof. unfold count_rows. lia. Qed.

(** The WHERE clause is true of a stored row exactly when the row makes
    the record a duplicate. *)
Lemma selected_same_event row r :
  selected (dedup_where (user_id row) (Some (created_at row)) r) = true
  <-> same_event row r.
Proof.
  unfold same_event, dedup_where, sql_eq, sql_is_null.
  destruct (st_created_at r) as [t|]; cycle 1.
  { split; [|intros [[=] _]].
    by destruct (st_user_id r), (user_id row); simpl;
      repeat case_match. }
  destruct (String.eqb_spec t (created_at row)) as [->|Hne].
  - destruct (st_user_id r) as [u|], (user_id row) as [u'|]; simpl.
    + destruct (String.eqb_spec u u') as [->|Hu]; simpl.
      * split; [|done]. intros _. split; [done|]. right. by exists u'.
      * split; [done|]. intros [_ [[=]|(u0 & [= <-] & [= ->])]]. done.
    + split; [done|]. intros [_ [[=]|(u0 & [=] & _)]].
    + split; [|done]. intros _. split; [done|by left].
    + split; [|done]. intros _. split; [done|by left].
  - split.
    + by destruct (st_user_id r), (user_id row); simpl; repeat case_match.
    + intros [[= ->] _]. done.
Qed.

(** The query counts a row or more exactly when some stored row makes the
    record a duplicate. *)
Lemma matched_same_event rows row :
  matched rows row <-> exists r, r ∈ rows /\ same_event row r.
Proof.
  unfold matched, count_rows. split.
  - intros Hpos.
    destruct (List.filter _ rows) as [|r l] eqn:Hf; [simpl in Hpos; lia|].
    assert (Hin : In r (List.filter
              (fun r => selected (dedup_where (user_id row)
                                    (Some (created_at row)) r)) rows))
      by (rewrite Hf; by left).
    apply filter_In in Hin as [Hin Hsel].
    exists r. split; [by apply list_elem_of_In | by apply selected_same_event].
  - intros (r & Hin & Hsame).
    apply selected_same_event in Hsame. apply list_elem_of_In in Hin.
    assert (Hin' : In r (List.filter
              (fun r => selected (dedup_where (user_id row)
                                    (Some (created_at row)) r)) rows))
      by (apply filter_In; by split).
    destruct (List.filter _ rows); [by destruct Hin' | simpl; lia].
Qed.

(** ** What the columns keep *)

Lemma substring_short n : forall s,
  (String.length s <= n)%nat -> substring 0 n s = s.
Proof.
  induction n as [|n IH]; intros [|c s] Hlen; simpl in *;
    [done | lia | done |].
  f_equal. apply IH. lia.
Qed.

Lemma substring_length n : forall s,
  (String.length (substring 0 n s) <= n)%nat.
Proof.
  induction n as [|n IH]; intros [|c s]; simpl; [lia..|].
  specialize (IH s). lia.
Qed.

(** The row kept of a record that fits makes that record a duplicate. *)
Lemma stored_same_event row :
  fits row -> same_event row (column_values (row_values row)).
Proof.
  intros [Ht Hu]. unfold same_event. simpl.
  rewrite (substring_short _ _ Ht). split; [reflexivity|].
  destruct (user_id row) as [u|]; [|by left].
  right. exists u. simpl. by rewrite (substring_short _ _ (Hu u eq_refl)).
Qed.

(** A row that the table can hold never makes a record with an over-long
    [created_at] a duplicate. *)
Lemma overlong_no_event row r :
  overlong row ->
  (forall t, st_created_at r = Some t -> (String.length t <= 255)%nat) ->
  ~ same_event row r.
Proof.
  unfold overlong. intros [Hlong _] Hr [Ht _]. specialize (Hr _ Ht). lia.
Qed.

Lemma column_values_within r :
  forall t, st_created_at (column_values r) = Some t ->
            (String.length t <= 255)%nat.
Proof.
  intros t. simpl. destruct (st_created_at r) as [s|]; simpl; [|done].
  intros [= <-]. apply substring_length.
Qed.

Lemma overlong_unmatched row rows :
  overlong row -> within_columns rows -> ~ matched rows row.
Proof.
  intros Hlong Hrows Hm. apply matched_same_event in Hm as (r & Hin & Hev).
  unfold within_columns in Hrows. rewrite Forall_forall in Hrows.
  by apply (overlong_no_event row r Hlong (Hrows r Hin)).
Qed.

Lemma matched_app rows extra row :
  matched rows row -> matched (rows ++ extra) row.
Proof.
  unfold matched. rewrite count_rows_app.
  pose proof (count_rows_nonneg (user_id row) (Some (created_at row)) extra).
  lia.
Qed.

(** ** The loop on the rows of the table *)

Lemma load_rows_extends vdata : forall rows,
  exists extra, load_rows vdata rows = (rows ++ extra)%list.
Proof.
  induction vdata as [|row vdata IH]; intros rows; simpl.
  - exists []. by rewrite app_nil_r.
  - destruct (_ =? 0)%Z.
    + destruct (IH (rows ++ [column_values (row_values row)])%list)
        as [extra ->].
      exists (column_values (row_values row) :: extra).
      by rewrite <- app_assoc.
    + apply IH.
Qed.

(** After the loop every record of the batch that fits is matched. *)
Lemma load_rows_matched vdata : forall rows,
  Forall (fun row => fits row -> matched (load_rows vdata rows) row) vdata.
Proof.
  induction vdata as [|row vdata IH]; intros rows; [constructor|].
  simpl. constructor; [|apply IH].
  intros Hfits.
  destruct (load_rows_extends vdata
              (if (count_rows (user_id row) (Some (created_at row)) rows =? 0)%Z
               then (rows ++ [column_values (row_values row)])%list
               else rows))
    as [extra ->].
  apply matched_app.
  destruct (_ =? 0)%Z eqn:Hc.
  - apply matched_same_event. exists (column_values (row_values row)).
    split; [set_solver | by apply stored_same_event].
  - unfold matched.
    pose proof (count_rows_nonneg (user_id row) (Some (created_at row)) rows).
    apply Z.eqb_neq in Hc. lia.
Qed.

(** A batch whose records are all matched leaves the rows as they are. *)
Lemma load_rows_fixed vdata rows :
  Forall (matched rows) vdata -> load_rows vdata rows = rows.
Proof.
  induction 1 as [|row vdata Hrow _ IH]; [reflexivity|].
  simpl. unfold matched in Hrow.
  destruct (_ =? 0)%Z eqn:Hc; [apply Z.eqb_eq in Hc; lia | exact IH].
Qed.

Lemma load_rows_all_matched vdata rows :
  Forall fits vdata -> Forall (matched (load_rows vdata rows)) vdata.
Proof.
  intros Hfits. pose proof (load_rows_matched vdata rows) as Hm.
  rewrite Forall_forall in *. intros row Hin. by apply Hm, Hfits.
Qed.

Lemma load_rows_idempotent vdata rows :
  Forall fits vdata ->
  load_rows vdata (load_rows vdata rows) = load_rows vdata rows.
Proof. intros Hfits. by apply load_rows_fixed, load_rows_all_matched. Qed.

(** ** The parameters *)

Lemma adapt_cases : forall v,
  adapt v = None \/ adapt v = Some Psycopg2Error
  \/ (adapt v = Some nul_error /\ holds_nul v = true).
Proof.
  fix IH 1. intros [| | | |s|l|d]; simpl; try by left.
  - destruct (has_nul s); [right; right; by split | by left].
  - induction l as [|x l IHl]; [by left|].
    destruct (IH x) as [->|[->|[-> Hx]]].
    + destruct IHl as [->|[->|[-> Hl]]];
        [by left | right; by left | right; right; split; [done|]].
      simpl. rewrite Hl. by rewrite orb_true_r.
    + right. by left.
    + right. right. split; [done|]. simpl. by rewrite Hx.
  - right. by left.
Qed.

Lemma adapt_params_cases params e :
  adapt_params params = Some e ->
  e = Psycopg2Error
  \/ (e = nul_error /\ Exists (fun v => holds_nul v = true) params).
Proof.
  unfold adapt_params. induction params as [|x params IH]; [done|].
  simpl. destruct (adapt_cases x) as [Hx|[Hx|[Hx Hn]]]; rewrite Hx.
  - intros He. destruct (IH He) as [->|[-> Hex]]; [by left|].
    right. split; [done | by right].
  - intros [= <-]. by left.
  - intros [= <-]. right. split; [done | by left].
Qed.

Lemma adapt_params_cons x params :
  adapt_params (x :: params)
  = match adapt x with
    | Some e => Some e
    | None => adapt_params params
    end.
Proof. reflexivity. Qed.

Lemma adapt_params_None params :
  adapt_params params = None <-> Forall (fun v => adapt v = None) params.
Proof.
  induction params as [|x params IH]; [by split|].
  rewrite adapt_params_cons, Forall_cons. destruct (adapt x) as [e|].
  - split; [done | by intros [[=] _]].
  - rewrite IH. tauto.
Qed.

(** The parameters of the dedup query are among those of the INSERT. *)
Lemma select_params_sendable row :
  sendable row ->
  adapt_params [param (user_id row); PStr (created_at row)] = None.
Proof.
  unfold sendable. rewrite !adapt_params_None. unfold insert_params. simpl.
  intros H. inversion H as [|? ? Hu H1]; subst.
  do 5 (inversion H1 as [|? ? _ H2]; subst; clear H1; rename H2 into H1).
  inversion H1 as [|? ? Ht _]; subst.
  by repeat constructor.
Qed.

Lemma select_params_nul row e :
  adapt_params [param (user_id row); PStr (created_at row)] = Some e ->
  e = Psycopg2Error
  \/ (e = nul_error
      /\ Exists (fun v => holds_nul v = true)
           (insert_params (row_values row))).
Proof.
  intros He. destruct (adapt_params_cases _ _ He) as [->|[-> Hex]];
    [by left|].
  right. split; [done|]. unfold insert_params. simpl.
  apply Exists_cons in Hex as [Hu|Hex]; [by left|].
  apply Exists_cons in Hex as [Ht|Hex]; [|by apply Exists_nil in Hex].
  do 6 right. by left.
Qed.

Lemma no_nul_not_exists row :
  no_nul row ->
  ~ Exists (fun v => holds_nul v = true) (insert_params (row_values row)).
Proof.
  unfold no_nul. rewrite Forall_forall, Exists_exists.
  intros Hall (v & Hin & Hv). specialize (Hall v Hin). congruence.
Qed.

(** ** The statements on a fault-free connection *)

Lemma fault_free_inv d :
  fault_free d = true ->
  aborted d = false
  /\ match faults d with
     | b :: rest => (b, rest)
     | [] => (false, [])
     end = (false, tl (faults d))
  /\ forallb negb (tl (faults d)) = true.
Proof.
  unfold fault_free. intros H. apply andb_prop in H as [Ha Hf].
  apply negb_true_iff in Ha. split; [exact Ha|].
  destruct (faults d) as [|b rest]; simpl in *; [done|].
  apply andb_prop in Hf as [Hb Hrest]. apply negb_true_iff in Hb.
  by subst b.
Qed.

Lemma cur_execute_ok {A} params stmt w (a : A) tables :
  fault_free (w_db w) = true ->
  stmt (session (w_db w)) = Some (a, tables) ->
  cur_execute params stmt w =
  (Ret a,
   set_db (mkDb (committed (w_db w)) tables false (tl (faults (w_db w)))) w).
Proof.
  intros Hff Hstmt. apply fault_free_inv in Hff as (Ha & Hf & _).
  unfold cur_execute. cbv zeta. rewrite Hf, Ha, Hstmt. reflexivity.
Qed.

(** A statement in error on a fault-free connection: the server reports
    it and the transaction is aborted. *)
Lemma cur_execute_error {A} params (stmt : _ -> option (A * _)) w :
  fault_free (w_db w) = true ->
  stmt (session (w_db w)) = None ->
  cur_execute params stmt w =
  (Raise Psycopg2Error, set_db (fail_txn (w_db w) (tl (faults (w_db w)))) w).
Proof.
  intros Hff Hstmt. apply fault_free_inv in Hff as (Ha & Hf & _).
  unfold cur_execute. cbv zeta. rewrite Hf, Ha, Hstmt. reflexivity.
Qed.

Lemma con_commit_ok w :
  fault_free (w_db w) = true ->
  con_commit w =
  (Ret tt,
   set_db (mkDb (session (w_db w)) (session (w_db w)) false
             (tl (faults (w_db w)))) w).
Proof.
  intros Hff. apply fault_free_inv in Hff as (Ha & Hf & _).
  unfold con_commit. cbv zeta. rewrite Hf, Ha. reflexivity.
Qed.

Lemma set_db_fault_free c t w d :
  fault_free d = true ->
  fault_free (w_db (set_db (mkDb c t false (tl (faults d))) w)) = true.
Proof.
  intros Hff. apply fault_free_inv in Hff as (_ & _ & Hf). exact Hf.
Qed.

(** One turn of the loading loop on a fault-free connection. *)
Lemma load_step_ok table_name skipped idx row w rows :
  fault_free (w_db w) = true ->
  session (w_db w) !! fold_name table_name = Some rows ->
  exists w',
    load_step table_name skipped (idx, row) w =
    (Ret (skipped + count_rows (user_id row) (Some (created_at row)) rows)%Z,
     w')
    /\ fault_free (w_db w') = true
    /\ committed (w_db w') = committed (w_db w)
    /\ w_log w' = w_log w
    /\ session (w_db w')
       = <[fold_name table_name := load_rows [row] rows]> (session (w_db w)).
Proof.
  intros Hff Hrows. unfold load_step. rewrite bind_eq.
  erewrite cur_execute_ok;
    [|exact Hff | unfold select_count; rewrite Hrows; reflexivity].
  rewrite bind_eq. simpl load_rows.
  set (w1 := set_db _ w).
  assert (Hff1 : fault_free (w_db w1) = true) by by apply set_db_fault_free.
  assert (Hrows1 : session (w_db w1) !! fold_name table_name = Some rows)
    by exact Hrows.
  destruct (_ =? 0)%Z.
  - erewrite cur_execute_ok;
      [|exact Hff1 | unfold insert_into; rewrite Hrows1; reflexivity].
    eexists. split; [reflexivity|]. split; [by apply set_db_fault_free|].
    by repeat split.
  - eexists. split; [reflexivity|]. split; [done|].
    split; [done|]. split; [done|]. simpl. by rewrite insert_id.
Qed.

Lemma load_rows_cons row vdata rows :
  load_rows (row :: vdata) rows = load_rows vdata (load_rows [row] rows).
Proof. reflexivity. Qed.

Lemma load_loop_ok table_name vdata : forall start skipped w rows,
  fault_free (w_db w) = true ->
  session (w_db w) !! fold_name table_name = Some rows ->
  exists skipped' w',
    for_each (enumerate vdata start) (load_step table_name) skipped w =
    (Ret skipped', w')
    /\ fault_free (w_db w') = true
    /\ committed (w_db w') = committed (w_db w)
    /\ w_log w' = w_log w
    /\ session (w_db w')
       = <[fold_name table_name := load_rows vdata rows]> (session (w_db w)).
Proof.
  induction vdata as [|row vdata IH]; intros start skipped w rows Hff Hrows.
  - exists skipped, w. split; [done|]. split; [done|]. split; [done|].
    split; [done|]. simpl. by rewrite insert_id.
  - simpl enumerate. rewrite for_each_cons.
    destruct (load_step_ok table_name skipped start row w rows Hff Hrows)
      as (w1 & -> & Hff1 & Hc1 & Hl1 & Hs1).
    rewrite load_rows_cons.
    assert (Hrows1 : session (w_db w1) !! fold_name table_name
                     = Some (load_rows [row] rows))
      by by rewrite Hs1, lookup_insert_eq.
    destruct (IH (S start)
                (skipped
                 + count_rows (user_id row) (Some (created_at row)) rows)%Z
                w1 _ Hff1 Hrows1)
      as (skipped' & w' & -> & Hff' & Hc' & Hl' & Hs').
    exists skipped', w'. split; [done|]. split; [done|].
    split; [congruence|]. split; [congruence|].
    by rewrite Hs', Hs1, insert_insert_eq.
Qed.

(** [load_data_to_db] on a fault-free connection: the rows of the table
    become [load_rows vdata rows] and are committed. *)
Lemma load_data_to_db_ok table_name vdata w rows :
  fault_free (w_db w) = true ->
  session (w_db w) !! fold_name table_name = Some rows ->
  fst (load_data_to_db table_name vdata w) = Ret tt
  /\ fault_free (w_db (snd (load_data_to_db table_name vdata w))) = true
  /\ session (w_db (snd (load_data_to_db table_name vdata w)))
     = <[fold_name table_name := load_rows vdata rows]> (session (w_db w))
  /\ committed (w_db (snd (load_data_to_db table_name vdata w)))
     = session (w_db (snd (load_data_to_db table_name vdata w))).
Proof.
  intros Hff Hrows. unfold load_data_to_db.
  rewrite bind_eq. cbn [logger_info log_add].
  rewrite try_except_eq, bind_eq.
  set (w0 := mkWorld _ _ _ _ _ _ _ _ _).
  destruct (load_loop_ok table_name vdata 1%nat 0%Z w0 rows Hff Hrows)
    as (skipped & w1 & -> & Hff1 & _ & _ & Hs1).
  rewrite bind_eq. cbn [log_add]. rewrite bind_eq.
  set (w2 := mkWorld _ _ _ _ _ _ _ _ _).
  rewrite (con_commit_ok w2 Hff1). cbn [logger_info log_add fst snd w_db set_db].
  split; [done|]. split; [|by split].
  apply fault_free_inv in Hff1 as (_ & _ & Hf). exact Hf.
Qed.

Lemma load_data_to_db_rows table_name vdata w rows :
  fault_free (w_db w) = true ->
  session (w_db w) !! fold_name table_name = Some rows ->
  committed (w_db (snd (load_data_to_db table_name vdata w)))
  !! fold_name table_name = Some (load_rows vdata rows)
  /\ session (w_db (snd (load_data_to_db table_name vdata w)))
     !! fold_name table_name = Some (load_rows vdata rows).
Proof.
  intros Hff Hrows.
  destruct (load_data_to_db_ok table_name vdata w rows Hff Hrows)
    as (_ & _ & Hs & Hc).
  rewrite Hc, Hs. by rewrite lookup_insert_eq.
Qed.

(** ** The statements on any connection *)

Lemma cur_execute_cases {A} params stmt w :
  match @cur_execute A params stmt w with
  | (Ret a, w') =>
      aborted (w_db w) = false
      /\ w_log w' = w_log w
      /\ exists tables,
           stmt (session (w_db w)) = Some (a, tables)
           /\ w_db w' = mkDb (committed (w_db w)) tables false
                          (tl (faults (w_db w)))
  | (Raise e, w') =>
      committed (w_db w') = committed (w_db w)
      /\ w_log w' = w_log w
      /\ (e = Psycopg2Error /\ aborted (w_db w') = true
          \/ adapt_params params = Some e
             /\ session (w_db w') = session (w_db w)
             /\ aborted (w_db w') = aborted (w_db w))
  | (Exit _, _) => False
  end.
Proof.
  unfold cur_execute.
  destruct (faults (w_db w)) as [|b rest]; cbv zeta beta iota;
    (destruct (aborted (w_db w) || _) eqn:Hfail;
     [ destruct (adapt_params params) as [e|] eqn:He; simpl;
       (split; [done|]; split; [done|]);
       [right; by repeat split | left; by split]
     | apply orb_false_elim in Hfail as [Hab _];
       destruct (stmt _) as [[a tables]|]; simpl;
       [ split; [done|]; split; [done|]; by eexists
       | split; [done|]; split; [done|]; left; by split ] ]).
Qed.

Lemma con_commit_cases w :
  match con_commit w with
  | (Ret _, w') =>
      aborted (w_db w') = false
      /\ w_log w' = w_log w
      /\ committed (w_db w') = session (w_db w')
      /\ session (w_db w') =
         (if aborted (w_db w) then committed (w_db w) else session (w_db w))
  | (Raise e, w') =>
      e = Psycopg2Error /\ w_log w' = w_log w
      /\ aborted (w_db w') = true /\ committed (w_db w') = committed (w_db w)
  | (Exit _, _) => False
  end.
Proof.
  unfold con_commit.
  destruct (faults (w_db w)) as [|[] rest]; destruct (aborted (w_db w));
    simpl; done.
Qed.

(** One turn of the loop: it goes on, with the table as [load_rows] makes
    it; or the server reports an error and the transaction is aborted; or
    the parameters cannot be sent, which a NUL character in the record
    explains when the exception is not a [psycopg2.Error]. *)
Lemma load_step_cases table_name skipped idx row w :
  match load_step table_name skipped (idx, row) w with
  | (Ret _, w') =>
      aborted (w_db w) = false /\ aborted (w_db w') = false
      /\ committed (w_db w') = committed (w_db w)
      /\ w_log w' = w_log w
      /\ exists rows,
           session (w_db w) !! fold_name table_name = Some rows
           /\ session (w_db w') =
              <[fold_name table_name := load_rows [row] rows]>
                (session (w_db w))
  | (Raise e, w') =>
      committed (w_db w') = committed (w_db w)
      /\ w_log w' = w_log w
      /\ (e = Psycopg2Error
          \/ e = nul_error
             /\ Exists (fun v => holds_nul v = true)
                  (insert_params (row_values row)))
      /\ (sendable row -> e = Psycopg2Error /\ aborted (w_db w') = true)
  | (Exit _, _) => False
  end.
Proof.
  unfold load_step. rewrite bind_eq.
  pose proof (cur_execute_cases
                [param (user_id row); PStr (created_at row)]
                (select_count table_name (user_id row) (Some (created_at row)))
                w) as H1.
  destruct (cur_execute _ _ w) as [[count|e|c] w1]; [| |exact H1].
  - destruct H1 as (Hab & Hl1 & tables & Hsel & Hdb1).
    unfold select_count in Hsel.
    destruct (session (w_db w) !! fold_name table_name) as [rows|] eqn:Hrows;
      [|discriminate].
    injection Hsel as <- <-.
    rewrite bind_eq.
    destruct (_ =? 0)%Z eqn:Hz.
    + pose proof (cur_execute_cases (insert_params (row_values row))
                    (insert_into table_name (row_values row)) w1) as H2.
      destruct (cur_execute _ _ w1) as [[[]|e|c] w2]; simpl.
      * destruct H2 as (_ & Hl2 & tables & Hins & Hdb2).
        rewrite Hdb1 in Hins. simpl in Hins. unfold insert_into in Hins.
        rewrite Hrows in Hins. injection Hins as <-.
        rewrite Hdb2, Hdb1. simpl.
        split; [done|]. split; [done|]. split; [done|].
        split; [congruence|].
        exists rows. split; [done|]. by rewrite Hz.
      * destruct H2 as (Hc & Hl2 & Hcase).
        split; [by rewrite Hc, Hdb1|]. split; [congruence|].
        destruct Hcase as [[-> Hab2]|(He & _ & _)].
        -- split; [by left | done].
        -- split.
           ++ destruct (adapt_params_cases _ _ He) as [->|[-> Hex]];
                [by left | right; by split].
           ++ unfold sendable. intros Hs. congruence.
      * done.
    + simpl. rewrite Hdb1. simpl.
      split; [done|]. split; [done|]. split; [done|]. split; [done|].
      exists rows. split; [done|]. by rewrite Hz, insert_id.
  - destruct H1 as (Hc & Hl1 & Hcase).
    split; [done|]. split; [done|].
    destruct Hcase as [[-> Hab1]|(He & _ & _)].
    + split; [by left | done].
    + split; [by apply select_params_nul|].
      intros Hs. rewrite (select_params_sendable _ Hs) in He. done.
Qed.

Lemma load_loop_cases table_name vdata : forall start skipped w,
  match for_each (enumerate vdata start) (load_step table_name) skipped w with
  | (Ret _, w') =>
      committed (w_db w') = committed (w_db w)
      /\ w_log w' = w_log w
      /\ (vdata = [] -> w_db w' = w_db w)
      /\ (vdata <> [] ->
          aborted (w_db w) = false /\ aborted (w_db w') = false
          /\ exists rows,
               session (w_db w) !! fold_name table_name = Some rows
               /\ session (w_db w') =
                  <[fold_name table_name := load_rows vdata rows]>
                    (session (w_db w)))
  | (Raise e, w') =>
      committed (w_db w') = committed (w_db w)
      /\ w_log w' = w_log w
      /\ (e = Psycopg2Error
          \/ e = nul_error /\ Exists (fun row => ~ no_nul row) vdata)
      /\ (Forall sendable vdata ->
          e = Psycopg2Error /\ aborted (w_db w') = true)
  | (Exit _, _) => False
  end.
Proof.
  induction vdata as [|row vdata IH]; intros start skipped w.
  - simpl. split; [done|]. split; [done|]. split; done.
  - simpl enumerate. rewrite for_each_cons.
    pose proof (load_step_cases table_name skipped start row w) as H1.
    destruct (load_step _ _ _ w) as [[s1|e|c] w1]; [| |exact H1].
    + destruct H1 as (Hab & Hab1 & Hc1 & Hl1 & rows & Hrows & Hs1).
      specialize (IH (S start) s1 w1).
      destruct (for_each _ _ _ w1) as [[s2|e|c] w2].
      * destruct IH as (Hc2 & Hl2 & Hnil & Hcons).
        split; [congruence|]. split; [congruence|]. split; [done|].
        intros _. split; [done|].
        destruct vdata as [|row' vdata].
        -- rewrite (Hnil eq_refl). split; [done|]. by exists rows.
        -- destruct (Hcons ltac:(done)) as (_ & Hab2 & rows1 & Hrows1 & Hs2).
           split; [done|]. exists rows. split; [done|].
           rewrite Hs1, lookup_insert_eq in Hrows1. injection Hrows1 as <-.
           rewrite Hs2, Hs1, insert_insert_eq. reflexivity.
      * destruct IH as (Hc2 & Hl2 & Hcase & Hsend).
        split; [congruence|]. split; [congruence|]. split.
        -- destruct Hcase as [->|[-> Hex]]; [by left|].
           right. split; [done | by right].
        -- intros Hall. apply Hsend. by inversion Hall.
      * done.
    + destruct H1 as (Hc1 & Hl1 & Hcase & Hsend).
      split; [done|]. split; [done|]. split.
      * destruct Hcase as [->|[-> Hex]]; [by left|].
        right. split; [done|]. left. intros Hno.
        by apply (no_nul_not_exists row Hno).
      * intros Hall. apply Hsend. by inversion Hall.
Qed.

(** The three ways [load_data_to_db] can end: every statement succeeded
    and the session was committed; a [psycopg2.Error] was caught and
    logged, with nothing committed; or the [ValueError] of a NUL character
    left the method, with nothing committed and nothing more logged. *)
Lemma load_data_to_db_cases table_name vdata w :
  let r := load_data_to_db table_name vdata w in
  let d := w_db w in
  let d' := w_db (snd r) in
  (fst r = Ret tt
   /\ aborted d' = false /\ committed d' = session d'
   /\ (exists skipped_count,
         w_log (snd r) =
         (w_log w
          ++ [LogInfo "Loading data to the db table...";
              LogCount
                "Checking previously loaded data found and skipped lines."
                skipped_count;
              LogInfo "Data loaded to the database successfully!"])%list)
   /\ ((vdata = []
        /\ session d' = if aborted d then committed d else session d)
       \/ (vdata <> [] /\ aborted d = false
           /\ exists rows,
                session d !! fold_name table_name = Some rows
                /\ session d' =
                   <[fold_name table_name := load_rows vdata rows]>
                     (session d))))
  \/ (fst r = Ret tt
      /\ committed d' = committed d
      /\ (exists lines,
            w_log (snd r) =
            (w_log w ++ LogInfo "Loading data to the db table..." :: lines
             ++ [LogError "Error loading data to the database"
                   (Some Psycopg2Error)])%list)
      /\ (Forall sendable vdata -> aborted d' = true))
  \/ (fst r = Raise nul_error
      /\ committed d' = committed d
      /\ w_log (snd r)
         = (w_log w ++ [LogInfo "Loading data to the db table..."])%list
      /\ Exists (fun row => ~ no_nul row) vdata
      /\ ~ Forall sendable vdata).
Proof.
  cbv zeta. unfold load_data_to_db.
  rewrite bind_eq. cbn [logger_info log_add].
  rewrite try_except_eq, bind_eq.
  set (w0 := mkWorld _ _ _ _ _ _ _ _ _).
  change (w_db w) with (w_db w0).
  assert (Hl0 : w_log w0
                = (w_log w ++ [LogInfo "Loading data to the db table..."])%list)
    by reflexivity.
  pose proof (load_loop_cases table_name vdata 1%nat 0%Z w0) as H1.
  destruct (for_each _ _ _ w0) as [[s|e|c] w1].
  - destruct H1 as (Hc1 & Hl1 & Hnil & Hcons).
    rewrite bind_eq. cbn [log_add]. rewrite bind_eq.
    set (w2 := mkWorld _ _ _ _ _ _ _ _ _).
    pose proof (con_commit_cases w2) as H2.
    change (w_db w2) with (w_db w1) in H2.
    assert (Hl2 : w_log w2
              = (w_log w ++ [LogInfo "Loading data to the db table...";
                  LogCount
                    "Checking previously loaded data found and skipped lines."
                    s])%list).
    { subst w2. cbn [w_log]. rewrite Hl1, Hl0. by rewrite <- app_assoc. }
    destruct (con_commit w2) as [[[]|e|c] w3].
    + left. cbn [logger_info log_add fst snd w_db w_log].
      destruct H2 as (Hab3 & Hl3 & Hc3 & Hs3).
      split; [done|]. split; [done|]. split; [done|]. split.
      { exists s. rewrite Hl3, Hl2. by rewrite <- app_assoc. }
      destruct vdata as [|row vdata].
      * left. split; [done|]. by rewrite Hs3, (Hnil eq_refl).
      * right. split; [done|].
        destruct (Hcons ltac:(done)) as (Hab & Hab1 & rows & Hrows & Hs1).
        split; [done|]. exists rows. split; [done|].
        by rewrite Hs3, Hab1.
    + right. left. destruct H2 as (-> & Hl3 & Hab3 & Hc3).
      cbn [isinstance_psycopg2_Error logger_error log_add fst snd w_db w_log].
      split; [done|]. split; [congruence|]. split; [|done].
      eexists [_]. rewrite Hl3, Hl2. by rewrite <- !app_assoc.
    + done.
  - destruct H1 as (Hc1 & Hl1 & Hcase & Hsend).
    destruct Hcase as [->|[-> Hex]].
    + right. left.
      cbn [isinstance_psycopg2_Error logger_error log_add fst snd w_db w_log].
      split; [done|]. split; [done|]. split.
      * exists []. rewrite Hl1, Hl0. by rewrite <- !app_assoc.
      * intros Hall. by apply Hsend.
    + right. right. cbn [nul_error isinstance_psycopg2_Error fst snd].
      split; [done|]. split; [done|]. split; [congruence|].
      split; [done|]. intros Hall. by destruct (Hsend Hall).
  - done.
Qed.


(** Whatever it does, it does not end the process. *)
Lemma load_data_to_db_no_exit table_name vdata w c :
  fst (load_data_to_db table_name vdata w) <> Exit c.
Proof.
  destruct (load_data_to_db_cases table_name vdata w)
    as [(H & _)|[(H & _)|(H & _)]]; by rewrite H.
Qed.

(** Whatever the store does, a second call with the same batch and table
    leaves the committed tables as the first call left them, when the
    records fit the columns and can be sent. *)
Lemma load_twice_same_store table_name vdata w :
  Forall fits vdata -> Forall sendable vdata ->
  let w1 := snd (load_data_to_db table_name vdata w) in
  let w2 := snd (load_data_to_db table_name vdata w1) in
  committed (w_db w2) = committed (w_db w1).
Proof.
  intros Hfits Hsend w1 w2.
  destruct (load_data_to_db_cases table_name vdata w1)
    as [Hok2|[(_ & Hc & _)|(_ & Hc & _)]]; [|exact Hc..].
  fold w2 in Hok2. destruct Hok2 as (_ & _ & Hc2 & _ & Hs2). rewrite Hc2.
  destruct (load_data_to_db_cases table_name vdata w)
    as [Hok1|[(_ & Hc1 & _ & Hab1)|(_ & _ & _ & _ & Hno)]];
    fold w1 in Hok1 || fold w1 in Hc1, Hab1 || idtac; [| |done].
  - destruct Hok1 as (_ & Hab1 & Hc1 & _ & Hs1).
    destruct Hs2 as [[-> Hs2]|(Hne & _ & rows1 & Hrows1 & Hs2)].
    + by rewrite Hs2, Hab1.
    + destruct Hs1 as [[-> _]|(_ & _ & rows & Hrows & Hs1)]; [done|].
      rewrite Hs1, lookup_insert_eq in Hrows1. injection Hrows1 as <-.
      rewrite Hs2, load_rows_idempotent, Hc1 by done.
      apply insert_id. by rewrite Hs1, lookup_insert_eq.
  - specialize (Hab1 Hsend).
    destruct Hs2 as [[_ Hs2]|(_ & Hab & _)]; [|congruence].
    by rewrite Hs2, Hab1.
Qed.

(** A record with an over-long [created_at] on a fault-free connection:
    each call adds the row that the columns keep of it. *)
Lemma load_rows_overlong row rows :
  overlong row -> within_columns rows ->
  load_rows [row] rows = (rows ++ [stored row])%list
  /\ within_columns (rows ++ [stored row]).
Proof.
  intros Hlong Hrows. split.
  - simpl. pose proof (overlong_unmatched row rows Hlong Hrows) as Hno.
    unfold matched in Hno.
    pose proof (count_rows_nonneg (user_id row) (Some (created_at row)) rows).
    destruct (Z.eqb_spec
                (count_rows (user_id row) (Some (created_at row)) rows) 0);
      [reflexivity | lia].
  - apply Forall_app. split; [exact Hrows|].
    constructor; [|constructor]. apply column_values_within.
Qed.

(** C3 on the code: [load_data_to_db] is idempotent on the batches whose
    records have at most 255 characters in [created_at] and [user_id]: a
    second call with the same batch and table leaves the committed rows,
    hence their count, as the first call left them, whatever the store
    does when the records can be sent, and on a connection where no
    statement fails every record is matched by the dedup query and
    skipped (the table name being an identifier).  It is not idempotent on a record whose [created_at] is
    longer: the column keeps 255 characters of it, the dedup query of the
    second call compares the whole value with what was kept, matches
    nothing, and the record is inserted again. *)
Theorem load_idempotent (table_name : string) (vdata : list Canonical)
  (w : World) :
  identifier table_name = true ->
  let w1 := snd (load_data_to_db table_name vdata w) in
  let w2 := snd (load_data_to_db table_name vdata w1) in
  (Forall fits vdata -> Forall sendable vdata ->
   committed (w_db w2) = committed (w_db w1))
  /\ (Forall fits vdata ->
      forall rows,
        fault_free (w_db w) = true ->
        session (w_db w) !! fold_name table_name = Some rows ->
        exists rows1,
          committed (w_db w1) !! fold_name table_name = Some rows1
          /\ committed (w_db w2) !! fold_name table_name = Some rows1
          /\ session (w_db w2) !! fold_name table_name = Some rows1
          /\ Forall (matched rows1) vdata)
  /\ (forall row rows,
        vdata = [row] -> overlong row -> within_columns rows ->
        fault_free (w_db w) = true ->
        session (w_db w) !! fold_name table_name = Some rows ->
        committed (w_db w1) !! fold_name table_name
        = Some (rows ++ [stored row])%list
        /\ committed (w_db w2) !! fold_name table_name
           = Some (rows ++ [stored row; stored row])%list).
Proof.
  intros _ w1 w2. split; [|split].
  - intros Hfits Hsend. by apply load_twice_same_store.
  - intros Hfits rows Hff Hrows.
    destruct (load_data_to_db_ok table_name vdata w rows Hff Hrows)
      as (_ & Hff1 & _ & _).
    destruct (load_data_to_db_rows table_name vdata w rows Hff Hrows)
      as (Hc1 & Hs1).
    fold w1 in Hff1, Hc1, Hs1.
    destruct (load_data_to_db_rows table_name vdata w1 _ Hff1 Hs1)
      as (Hc2 & Hs2).
    fold w2 in Hc2, Hs2. rewrite load_rows_idempotent in Hc2, Hs2 by done.
    exists (load_rows vdata rows).
    split; [done|]. split; [done|]. split; [done|].
    by apply load_rows_all_matched.
  - intros row rows -> Hlong Hwithin Hff Hrows.
    destruct (load_data_to_db_ok table_name [row] w rows Hff Hrows)
      as (_ & Hff1 & _ & _).
    destruct (load_data_to_db_rows table_name [row] w rows Hff Hrows)
      as (Hc1 & Hs1).
    fold w1 in Hff1, Hc1, Hs1.
    destruct (load_data_to_db_rows table_name [row] w1 _ Hff1 Hs1)
      as (Hc2 & _).
    fold w2 in Hc2.
    destruct (load_rows_overlong row rows Hlong Hwithin) as [Hr1 Hw1].
    rewrite Hr1 in Hc1, Hc2.
    destruct (load_rows_overlong row _ Hlong Hw1) as [Hr2 _].
    rewrite Hr2, <- app_assoc in Hc2. by split.
Qed.

(** C2, as the code has it: a record is skipped exactly when the table
    holds a row with the same [created_at] whose [user_id] is NULL or is
    the non-null [user_id] of the record; otherwise it is inserted.  A
    record without user is therefore a duplicate only of stored rows
    without user. *)
Theorem dedup_identity (table_name : string) (row : Canonical) (w : World)
  (rows : list StoredRow) :
  fault_free (w_db w) = true ->
  session (w_db w) !! fold_name table_name = Some rows ->
  let w' := snd (load_data_to_db table_name [row] w) in
  ((exists r, r ∈ rows /\ same_event row r) ->
   committed (w_db w') !! fold_name table_name = Some rows)
  /\ (~ (exists r, r ∈ rows /\ same_event row r) ->
      committed (w_db w') !! fold_name table_name
      = Some (rows ++ [column_values (row_values row)])%list)
  /\ (user_id row = None ->
      forall r, same_event row r <->
                st_created_at r = Some (created_at row) /\ st_user_id r = None).
Proof.
  intros Hff Hrows w'.
  destruct (load_data_to_db_rows table_name [row] w rows Hff Hrows)
    as (Hc & _).
  fold w' in Hc. rewrite Hc. simpl load_rows.
  split; [|split].
  - intros Hm. apply matched_same_event in Hm. unfold matched in Hm.
    destruct (_ =? 0)%Z eqn:Hz; [apply Z.eqb_eq in Hz; lia | reflexivity].
  - intros Hm. destruct (_ =? 0)%Z eqn:Hz; [reflexivity|].
    exfalso. apply Hm, matched_same_event. unfold matched.
    pose proof (count_rows_nonneg (user_id row) (Some (created_at row)) rows).
    apply Z.eqb_neq in Hz. lia.
  - intros Hnone r. unfold same_event. rewrite Hnone. split.
    + intros [Ht [Hu|(u & [=] & _)]]. by split.
    + intros [Ht Hu]. split; [done | by left].
Qed.

(** ** What leaves the methods *)

Lemma adapt_table_name table_name :
  adapt_params [PStr table_name]
  = if has_nul table_name then Some nul_error else None.
Proof. unfold adapt_params. simpl. by destruct (has_nul table_name). Qed.

(** The ways [create_table] can end: the table existed; it was created;
    a [psycopg2.Error] was caught and logged; or the [ValueError] of a NUL
    character in the name left the method. *)
Lemma create_table_cases table_name w :
  let r := create_table table_name w in
  let d := w_db w in
  let d' := w_db (snd r) in
  (fst r = Ret tt /\ aborted d = false
   /\ is_Some (session d !! table_name)
   /\ session d' = session d /\ committed d' = committed d
   /\ aborted d' = false
   /\ w_log (snd r) = (w_log w ++ [LogInfo "Creating table stage...";
                                   LogInfo "Table already exists."])%list)
  \/ (fst r = Ret tt /\ aborted d = false
      /\ session d !! table_name = None
      /\ session d !! fold_name table_name = None
      /\ session d' = <[fold_name table_name := []]> (session d)
      /\ committed d' = session d' /\ aborted d' = false
      /\ w_log (snd r) = (w_log w ++ [LogInfo "Creating table stage...";
                                      LogInfo "Table created successfully!"])%list)
  \/ (fst r = Ret tt /\ committed d' = committed d
      /\ w_log (snd r) = (w_log w ++ [LogInfo "Creating table stage...";
                                      LogError "Error creating table"
                                        (Some Psycopg2Error)])%list
      /\ (has_nul table_name = false -> aborted d' = true))
  \/ (fst r = Raise nul_error /\ has_nul table_name = true
      /\ committed d' = committed d /\ session d' = session d
      /\ w_log (snd r) = (w_log w ++ [LogInfo "Creating table stage..."])%list).
Proof.
  cbv zeta. unfold create_table.
  rewrite bind_eq. cbn [logger_info log_add].
  rewrite try_except_eq, bind_eq.
  set (w0 := mkWorld _ _ _ _ _ _ _ _ _).
  assert (Hl0 : w_log w0 = (w_log w ++ [LogInfo "Creating table stage..."])%list)
    by reflexivity.
  pose proof (cur_execute_cases [PStr table_name]
                (select_table_exists table_name) w0) as H1.
  rewrite adapt_table_name in H1.
  change (w_db w0) with (w_db w) in H1.
  destruct (cur_execute _ _ w0) as [[ex|e|c] w1]; [| |destruct H1].
  - destruct H1 as (Hab & Hl1 & tables & Hsel & Hdb1).
    unfold select_table_exists in Hsel. injection Hsel as <- <-.
    destruct (session (w_db w) !! table_name) as [rows|] eqn:Hrows;
      cbn [negb].
    + left. cbn [logger_info log_add fst snd w_db w_log].
      rewrite Hdb1, Hl1, Hl0. cbn [session committed aborted].
      split; [done|]. split; [done|]. split; [by eexists|].
      split; [done|]. split; [done|]. split; [done|].
      by rewrite <- app_assoc.
    + rewrite bind_eq.
      pose proof (cur_execute_cases [] (create_table_query table_name) w1)
        as H2.
      destruct (cur_execute _ _ w1) as [[[]|e|c] w2]; [| |destruct H2].
      * destruct H2 as (Hab1 & Hl2 & tables & Hcr & Hdb2).
        rewrite Hdb1 in Hcr. cbn [session] in Hcr.
        unfold create_table_query in Hcr.
        destruct (session (w_db w) !! fold_name table_name) eqn:Hfold;
          [discriminate|].
        injection Hcr as <-.
        rewrite bind_eq.
        pose proof (con_commit_cases w2) as H3.
        destruct (con_commit w2) as [[[]|e|c] w3]; [| |destruct H3].
        -- right. left. destruct H3 as (Hab3 & Hl3 & Hc3 & Hs3).
           cbn [logger_info log_add fst snd w_db w_log].
           rewrite Hdb2 in Hs3. cbn [aborted session] in Hs3.
           split; [done|]. split; [done|]. split; [done|]. split; [done|].
           split; [done|]. split; [done|]. split; [done|].
           rewrite Hl3, Hl2, Hl1, Hl0. by rewrite <- app_assoc.
        -- right. right. left. destruct H3 as (-> & Hl3 & Hab3 & Hc3).
           cbn [isinstance_psycopg2_Error logger_error log_add fst snd w_db
                w_log].
           split; [done|]. split.
           { rewrite Hc3, Hdb2. cbn [committed]. by rewrite Hdb1. }
           split; [|done].
           rewrite Hl3, Hl2, Hl1, Hl0. by rewrite <- app_assoc.
      * right. right. left. destruct H2 as (Hc2 & Hl2 & Hcase).
        assert (He : e = Psycopg2Error /\ aborted (w_db w2) = true).
        { destruct Hcase as [?|([=] & _)]. done. }
        destruct He as [-> Hab2].
        cbn [isinstance_psycopg2_Error logger_error log_add fst snd w_db
             w_log].
        split; [done|]. split.
        { rewrite Hc2, Hdb1. done. }
        split; [|done].
        rewrite Hl2, Hl1, Hl0. by rewrite <- app_assoc.
  - destruct H1 as (Hc1 & Hl1 & Hcase).
    destruct Hcase as [[-> Hab1]|(He & Hs1 & Hab1)].
    + right. right. left.
      cbn [isinstance_psycopg2_Error logger_error log_add fst snd w_db w_log].
      split; [done|]. split; [done|]. split; [|done].
      rewrite Hl1, Hl0. by rewrite <- app_assoc.
    + right. right. right.
      destruct (has_nul table_name); [|done]. injection He as <-.
      cbn [nul_error isinstance_psycopg2_Error fst snd].
      split; [done|]. split; [done|]. split; [done|]. split; [done|].
      congruence.
Qed.

Lemma create_table_returns table_name w :
  has_nul table_name = false ->
  fst (create_table table_name w) = Ret tt.
Proof.
  intros Hno.
  destruct (create_table_cases table_name w)
    as [(H & _)|[(H & _)|[(H & _)|(_ & Hnul & _)]]]; [done..|congruence].
Qed.

Lemma create_table_no_exit table_name w c :
  fst (create_table table_name w) <> Exit c.
Proof.
  destruct (create_table_cases table_name w)
    as [(H & _)|[(H & _)|[(H & _)|(H & _)]]]; by rewrite H.
Qed.

Lemma get_all_tables_returns w :
  exists tables, fst (get_all_tables w) = Ret tables.
Proof.
  unfold get_all_tables. rewrite try_except_eq, bind_eq.
  pose proof (cur_execute_cases [] select_pp_tables w) as H1.
  destruct (cur_execute _ _ w) as [[l|e|c] w1]; [by eexists| |done].
  destruct H1 as (_ & _ & [[-> _]|([=] & _)]). by eexists.
Qed.

Lemma init_outcome w :
  fst (init w) = if w_db_connect_ok w then Ret tt else Exit 1.
Proof.
  unfold init. rewrite try_except_eq. by destruct (w_db_connect_ok w).
Qed.

End LoaderFacts.

(** Two calls on a table that already holds one row: the batch adds one
    row on the first call and nothing on the second. *)
Lemma load_twice_example :
  let w := world_with_table "ppf_2024_may" [stored_u1] in
  let w1 := snd (Database.load_data_to_db "ppf_2024_may"
                   [record_no_user; record_no_user] w) in
  let w2 := snd (Database.load_data_to_db "ppf_2024_may"
                   [record_no_user; record_no_user] w1) in
  committed (w_db w1) !! "ppf_2024_may"
  = Some [stored_u1; Database.row_values record_no_user]
  /\ committed (w_db w2) !! "ppf_2024_may"
     = Some [stored_u1; Database.row_values record_no_user].
Proof. vm_compute. split; reflexivity. Qed.

(** [load_idempotent] on a record whose [created_at] has 255 characters
    and a space: the empty table holds one row after the first call and
    two after the second. *)
Lemma load_idempotent_witness :
  let w := world_with_table "ppf_2024_may" [] in
  let w1 := snd (Database.load_data_to_db "ppf_2024_may" [record_overlong] w)
  in
  let w2 := snd (Database.load_data_to_db "ppf_2024_may" [record_overlong] w1)
  in
  committed (w_db w1) !! "ppf_2024_may" = Some [stored record_overlong]
  /\ committed (w_db w2) !! "ppf_2024_may"
     = Some [stored record_overlong; stored record_overlong].
Proof.
  intros w w1 w2.
  refine (proj2 (proj2
            (load_idempotent "ppf_2024_may" [record_overlong] w eq_refl))
            record_overlong [] eq_refl _ _ eq_refl eq_refl).
  - split; [vm_compute; lia|]. vm_compute. by repeat constructor.
  - constructor.
Defined.

(** C2 fails as stated: the table holds a row of user u1 at the instant of
    a record without user, the two are the same event in the wording of
    the specification, and the record is inserted all the same. *)
Lemma dedup_null_user_counterexample :
  user_id record_no_user = None
  /\ st_created_at stored_u1 = Some (created_at record_no_user)
  /\ same_event_either_null record_no_user stored_u1
  /\ committed
       (w_db (snd (Database.load_data_to_db "ppf_2024_may" [record_no_user]
                     (world_with_table "ppf_2024_may" [stored_u1]))))
     !! "ppf_2024_may"
     = Some [stored_u1; Database.row_values record_no_user].
Proof.
  split; [reflexivity|]. split; [reflexivity|]. split.
  - split; [reflexivity|]. right. by left.
  - vm_compute. reflexivity.
Qed.

(** [dedup_identity] at the same table: a record of user u1 at that
    instant is skipped. *)
Lemma dedup_identity_witness :
  let row := mkCanonical (Some "u1") None None None PNone "run"
               "2024-05-01 10:00:00" in
  committed
    (w_db (snd (Database.load_data_to_db "ppf_2024_may" [row]
                  (world_with_table "ppf_2024_may" [stored_u1]))))
  !! "ppf_2024_may" = Some [stored_u1].
Proof.
  intros row.
  refine (proj1 (dedup_identity "ppf_2024_may" row
                   (world_with_table "ppf_2024_may" [stored_u1]) [stored_u1]
                   eq_refl eq_refl) _).
  exists stored_u1. split; [set_solver|].
  split; [reflexivity|]. right. by exists "u1".
Defined.

(* ===================================================================== *)
(** * Properties of the script: what a store failure does to the run *)
(* ===================================================================== *)

Section ScriptFacts.
Import Database Script.
Variable json_loads : string -> exn + pyobj.

(** The store stage ends the process when the connection fails; past the
    connection it returns, or the [ValueError] of a NUL character in a
    record leaves it. *)
Lemma db_stage_outcome valid_data1 w :
  (w_db_connect_ok w = false /\ fst (db_stage valid_data1 w) = Exit 1)
  \/ (w_db_connect_ok w = true /\ fst (db_stage valid_data1 w) = Ret tt)
  \/ (w_db_connect_ok w = true
      /\ fst (db_stage valid_data1 w) = Raise nul_error
      /\ Exists (fun row => ~ no_nul row) valid_data1).
Proof.
  unfold db_stage. rewrite bind_eq.
  pose proof (init_outcome w) as Hinit.
  destruct (init w) as [o w1]. simpl in Hinit. subst o.
  destruct (w_db_connect_ok w); [|by left].
  right. rewrite bind_eq.
  destruct (get_all_tables_returns w1) as [tables Htab].
  destruct (get_all_tables w1) as [o w2]. simpl in Htab. subst o.
  rewrite bind_eq.
  pose proof (create_table_returns "ppf_2024_may" w2 eq_refl) as Hcr.
  destruct (create_table _ w2) as [o w3]. simpl in Hcr. subst o.
  destruct (load_data_to_db_cases "ppf_2024_may" valid_data1 w3)
    as [(H & _)|[(H & _)|(H & _ & _ & Hex & _)]]; [by left..|by right].
Qed.



End ScriptFacts.


(** The same run with a NUL character in the user of the record: the
    [ValueError] of the failing query leaves [load_data_to_db], the
    handler of the script logs it, and the process ends with status 1. *)
Lemma nul_value_fatal_example :
  let r := Script.main JsonFragment.json_loads world_nul_fails in
  In (LogError "An error occurred" (Some nul_error)) (w_log (snd r))
  /\ ~ In (LogError "Error loading data to the database"
             (Some Psycopg2Error)) (w_log (snd r))
  /\ committed (w_db (snd r)) !! "ppf_2024_may" = Some []
  /\ Script.exit_status (fst r) = 1.
Proof.
  vm_compute. split; [|split; [|split; reflexivity]].
  - do 12 right. by left.
  - intros H. repeat (destruct H as [H|H]; [discriminate H|]). exact H.
Qed.


(* ===================================================================== *)
(** * Properties of the aggregator *)
(* ===================================================================== *)

Section AggregatorFacts.

(** ** The hour token *)


Lemma str_app_cons c s t : String c s ++ t = String c (s ++ t).
Proof. reflexivity. Qed.

Lemma str_app_nil_r s : s ++ EmptyString = s.
Proof.
  induction s as [|c s IH]; [reflexivity|]. by rewrite str_app_cons, IH.
Qed.

Lemma str_app_assoc s t u : (s ++ t) ++ u = s ++ (t ++ u).
Proof.
  induction s as [|c s IH]; [reflexivity|].
  by rewrite !str_app_cons, IH.
Qed.

Lemma contains_app c s t :
  contains c (s ++ t) = contains c s || contains c t.
Proof.
  induction s as [|x s IH]; [reflexivity|].
  rewrite str_app_cons. simpl. rewrite IH. by rewrite orb_assoc.
Qed.

(** [split]: the first field is free of the separator; either it is the
    whole string, or the separator follows and the other fields are those
    of the rest. *)
Lemma split_first sep s :
  exists f fs,
    split sep s = f :: fs /\ contains sep f = false
    /\ ((fs = [] /\ s = f)
        \/ exists s', s = f ++ String sep s' /\ fs = split sep s').
Proof.
  induction s as [|c s (f & fs & Heq & Hf & Hcases)].
  - exists EmptyString, []. repeat split. by left.
  - simpl. destruct (Ascii.eqb_spec c sep) as [->|Hne].
    + exists EmptyString, (split sep s). repeat split. right. by exists s.
    + rewrite Heq. exists (String c f), fs. split; [reflexivity|]. split.
      * simpl. rewrite Hf. by apply Ascii.eqb_neq in Hne as ->.
      * destruct Hcases as [[-> ->]|(s' & -> & ->)]; [by left|].
        right. by exists s'.
Qed.

Lemma hour_of_token time h :
  hour_of time = Ret h -> hour_token time h.
Proof.
  unfold hour_of, getitem.
  destruct (split_first " " time) as (date & fs & -> & Hdate & Hcases).
  destruct fs as [|clock fs]; [discriminate|]. simpl.
  destruct Hcases as [[[=] _]|(s' & -> & Hfs)].
  destruct (split_first " " s') as (clock' & fs' & Heq & Hclock & Hcases).
  rewrite Heq in Hfs. injection Hfs as -> ->.
  destruct (split_first ":" clock') as (h' & hs & -> & Hh & Hcases').
  simpl. intros [= ->].
  assert (Hsp : contains " " h = false).
  { destruct Hcases' as [[_ ->]|(c' & -> & _)]; [done|].
    rewrite contains_app in Hclock. by apply orb_false_elim in Hclock as [? _]. }
  destruct Hcases' as [[_ ->]|(c' & -> & _)];
    destruct Hcases as [[_ ->]|(s'' & -> & _)].
  - exists date, EmptyString. rewrite str_app_nil_r. repeat split; try done. by left.
  - exists date, (String " " s''). repeat split; try done.
    right. exists " "%char, s''. split; [done | by right].
  - exists date, (String ":" c'). repeat split; try done.
    right. exists ":"%char, c'. split; [done | by left].
  - exists date, (String ":" (c' ++ String " " s'')).
    rewrite str_app_assoc, str_app_cons. repeat split; try done.
    right. eexists ":"%char, _. split; [done | by left].
Qed.


(** ** Ordered dicts *)

Lemma od_get_set_eq {V} (d : odict V) k v : od_get (od_set d k v) k = Some v.
Proof.
  induction d as [|[k' v'] d IH]; simpl.
  - by rewrite String.eqb_refl.
  - destruct (String.eqb k' k) eqn:Hk; simpl; by rewrite Hk.
Qed.

Lemma od_get_set_ne {V} (d : odict V) k k' v :
  k <> k' -> od_get (od_set d k v) k' = od_get d k'.
Proof.
  intros Hne. induction d as [|[k0 v0] d IH]; simpl.
  - by apply String.eqb_neq in Hne as ->.
  - destruct (String.eqb_spec k0 k) as [->|Hk]; simpl.
    + by apply String.eqb_neq in Hne as ->.
    + by rewrite IH.
Qed.

Lemma od_keys_set {V} (d : odict V) k v :
  od_keys (od_set d k v) =
  match od_get d k with
  | Some _ => od_keys d
  | None => (od_keys d ++ [k])%list
  end.
Proof.
  unfold od_keys. induction d as [|[k' v'] d IH]; simpl; [reflexivity|].
  destruct (String.eqb k' k); simpl; [reflexivity|].
  rewrite IH. by destruct (od_get d k).
Qed.

Lemma od_get_keys {V} (d : odict V) k :
  In k (od_keys d) <-> od_get d k <> None.
Proof.
  unfold od_keys. induction d as [|[k' v'] d IH]; simpl; [tauto|].
  destruct (String.eqb_spec k' k) as [->|Hne]; [split; [done | by left]|].
  rewrite <- IH. split; [by intros [?|?] | by right].
Qed.

(** ** The tally of the hours seen so far *)

Lemma tally_snoc hours h h' :
  tally (hours ++ [h]) h' =
  (tally hours h' + if String.eqb h h' then 1 else 0)%nat.
Proof.
  unfold tally. rewrite count_occ_app. simpl.
  destruct (string_dec h h') as [->|Hne].
  - by rewrite String.eqb_refl.
  - by apply String.eqb_neq in Hne as ->.
Qed.

Lemma tally_In hours h : In h hours <-> tally hours h <> O.
Proof. unfold tally. rewrite (count_occ_In string_dec). lia. Qed.

Lemma first_index_app_in h hours l :
  In h hours -> first_index h (hours ++ l) = first_index h hours.
Proof.
  induction hours as [|x hours IH]; [done|]. simpl.
  destruct (String.eqb_spec x h) as [->|Hne]; [done|].
  intros [?|Hin]; [done|]. by rewrite IH.
Qed.

Lemma first_index_lt h hours :
  In h hours -> (first_index h hours < length hours)%nat.
Proof.
  induction hours as [|x hours IH]; [done|]. simpl.
  destruct (String.eqb_spec x h) as [->|Hne]; [lia|].
  intros [?|Hin]; [done|]. apply IH in Hin. lia.
Qed.

Lemma first_index_new h hours :
  ~ In h hours -> first_index h (hours ++ [h]) = length hours.
Proof.
  induction hours as [|x hours IH]; simpl.
  - by rewrite String.eqb_refl.
  - destruct (String.eqb_spec x h) as [->|Hne]; [by intros []; left|].
    intros Hnot. rewrite IH; [done|]. intros ?. apply Hnot. by right.
Qed.

Lemma counts_nil : counts [] [].
Proof. split; [done|]. intros [|] ???; discriminate. Qed.

Lemma counts_key hours d k :
  counts hours d -> In k (od_keys d) <-> In k hours.
Proof.
  intros [Hget _]. rewrite od_get_keys, tally_In, Hget.
  destruct (Nat.eqb_spec (tally hours k) 0); split; congruence.
Qed.

Lemma counts_snoc hours d h :
  counts hours d -> counts (hours ++ [h]) (count_hour d h).
Proof.
  intros Hc. pose proof Hc as [Hget Hord]. split.
  - intros h'. rewrite tally_snoc. unfold count_hour.
    destruct (String.eqb_spec h h') as [<-|Hne].
    + rewrite (Hget h).
      destruct (Nat.eqb_spec (tally hours h) 0) as [->|Hpos].
      * by rewrite od_get_set_eq.
      * rewrite od_get_set_eq.
        destruct (Nat.eqb_spec (tally hours h + 1) 0); [lia|].
        f_equal. lia.
    + rewrite Nat.add_0_r, <- Hget.
      destruct (od_get d h); by rewrite od_get_set_ne.
  - intros l1 k l2 Hkeys x Hx.
    assert (Hold : forall l2', od_keys d = (l1 ++ k :: l2')%list ->
              (first_index x (hours ++ [h]) < first_index k (hours ++ [h]))%nat).
    { intros l2' Hd.
      assert (In x hours /\ In k hours) as [Hxin Hkin].
      { split; apply (counts_key hours d _ Hc); rewrite Hd; apply in_or_app;
          [by left | right; by left]. }
      rewrite !first_index_app_in by done. by eapply Hord. }
    unfold count_hour in Hkeys.
    destruct (od_get d h) as [n|] eqn:Hh; rewrite od_keys_set, Hh in Hkeys;
      [exact (Hold _ Hkeys)|].
    destruct l2 as [|y l2 _] using rev_ind.
    + apply app_inj_tail in Hkeys as [Hd <-].
      assert (Hnew : ~ In h hours).
      { intros Hin. apply (counts_key hours d h Hc), od_get_keys in Hin.
        congruence. }
      assert (Hxin : In x hours).
      { apply (counts_key hours d _ Hc). by rewrite Hd. }
      rewrite first_index_app_in, first_index_new by done.
      by apply first_index_lt.
    + rewrite app_comm_cons, app_assoc in Hkeys.
      apply app_inj_tail in Hkeys as [Hd _]. exact (Hold _ Hd).
Qed.

Lemma counts_fold hours' : forall hours d,
  counts hours d -> counts (hours ++ hours') (fold_left count_hour hours' d).
Proof.
  induction hours' as [|h hours' IH]; intros hours d Hc; simpl.
  - by rewrite app_nil_r.
  - replace (hours ++ h :: hours')%list with ((hours ++ [h]) ++ hours')%list
      by by rewrite <- app_assoc.
    by apply IH, counts_snoc.
Qed.

(** ** The scan of [max] *)

Lemma max_scan_first {A} (f : A -> Z) l : forall best pre mid,
  (forall x, In x pre -> (f x < f best)%Z) ->
  (forall x, In x mid -> (f x <= f best)%Z) ->
  exists l1 l2,
    (pre ++ best :: mid ++ l)%list = (l1 ++ max_scan f best l :: l2)%list
    /\ (forall x, In x l1 -> (f x < f (max_scan f best l))%Z)
    /\ (forall x, In x l2 -> (f x <= f (max_scan f best l))%Z).
Proof.
  induction l as [|a l IH]; intros best pre mid Hpre Hmid; simpl.
  - exists pre, mid. by rewrite app_nil_r.
  - destruct (Z.ltb_spec (f best) (f a)) as [Hlt|Hge].
    + destruct (IH a (pre ++ best :: mid)%list []) as (l1 & l2 & Heq & H1 & H2).
      * intros x Hx. apply in_app_or in Hx as [Hx|[<-|Hx]]; [|done|].
        -- specialize (Hpre x Hx). lia.
        -- specialize (Hmid x Hx). lia.
      * by intros x [].
      * exists l1, l2. split; [|done]. rewrite <- Heq. simpl.
        by rewrite <- app_assoc.
    + destruct (IH best pre (mid ++ [a])%list) as (l1 & l2 & Heq & H1 & H2).
      * done.
      * intros x Hx. apply in_app_or in Hx as [Hx|[<-|[]]]; [by apply Hmid|done].
      * exists l1, l2. split; [|done]. rewrite <- Heq.
        by rewrite <- app_assoc.
Qed.

(** [max(time_d, key=time_d.get)] on the counts of [hours] is their peak
    hour. *)
Lemma max_key_peak hours d m :
  counts hours d -> max_key d = Ret m -> peak_hour hours m.
Proof.
  intros Hc Hmax. unfold max_key in Hmax.
  destruct (od_keys d) as [|k ks] eqn:Hkeys; [discriminate|].
  injection Hmax as Hm. pose proof Hc as [Hget Hord].
  set (f := fun h => default 0%Z (od_get d h)) in *.
  assert (Hf : forall h, f h = Z.of_nat (tally hours h)).
  { intros h. unfold f. rewrite Hget.
    by destruct (Nat.eqb_spec (tally hours h) 0) as [->|]. }
  destruct (max_scan_first f ks k [] []) as (l1 & l2 & Heq & H1 & H2);
    [by intros ? [] | by intros ? [] |].
  simpl in Heq. rewrite Hm in *. rewrite <- Hkeys in Heq.
  assert (Hmin : In m hours).
  { apply (counts_key hours d m Hc). rewrite Heq.
    apply in_or_app. right. by left. }
  assert (Hcase : forall h', In h' hours ->
            In h' l1 \/ h' = m \/ In h' l2).
  { intros h' Hin. apply (counts_key hours d h' Hc) in Hin.
    rewrite Heq in Hin. apply in_app_or in Hin as [?|[?|?]]; auto. }
  split; [exact Hmin|]. split.
  - intros h'. destruct (Nat.eq_dec (tally hours h') O) as [->|Hpos]; [lia|].
    apply tally_In, Hcase in Hpos as [Hin|[->|Hin]]; [|done|].
    + specialize (H1 h' Hin). rewrite !Hf in H1. lia.
    + specialize (H2 h' Hin). rewrite !Hf in H2. lia.
  - intros h' Htie.
    assert (Hin : In h' hours).
    { apply tally_In. rewrite Htie. by apply tally_In. }
    apply Hcase in Hin as [Hin|[->|Hin]]; [|done|].
    + specialize (H1 h' Hin). rewrite !Hf in H1. lia.
    + apply in_split in Hin as (l2a & l2b & ->).
      assert (first_index m hours < first_index h' hours)%nat; [|lia].
      apply (Hord (l1 ++ m :: l2a)%list h' l2b).
      * rewrite Heq. by rewrite <- app_assoc.
      * apply in_or_app. right. by left.
Qed.


Lemma split_nonempty sep s : split sep s <> [].
Proof.
  destruct s as [|c s]; simpl; [done|].
  destruct (Ascii.eqb c sep); [done|]. by destruct (split sep s).
Qed.

Lemma split_app_head sep f t :
  contains sep f = false ->
  exists g fs, split sep t = g :: fs /\ split sep (f ++ t) = (f ++ g) :: fs.
Proof.
  intros Hf. induction f as [|c f IH].
  - destruct (split sep t) as [|g fs] eqn:Ht; [by destruct (split_nonempty sep t)|].
    exists g, fs. split; [done|]. exact Ht.
  - simpl in Hf. apply orb_false_elim in Hf as [Hc Hf].
    destruct (IH Hf) as (g & fs & Ht & Heq).
    exists g, fs. split; [done|].
    rewrite !str_app_cons. simpl. by rewrite Hc, Heq.
Qed.

(** The hour token is what [hour_of] returns. *)
Lemma token_hour_of time h :
  hour_token time h -> hour_of time = Ret h.
Proof.
  intros (date & rest & -> & Hdate & Hsp & Hco & Hrest).
  unfold hour_of.
  destruct (split_app_head " " date (String " " (h ++ rest)) Hdate)
    as (g & fs & Ht & ->).
  simpl in Ht. injection Ht as <- <-.
  destruct (split_app_head " " h rest Hsp) as (g & fs & Hr & Heq).
  rewrite Heq. simpl.
  assert (Hclock : exists fs', split ":" (h ++ g) = h :: fs').
  { destruct Hrest as [->|(c & rest' & -> & [->| ->])].
    - simpl in Hr. injection Hr as <- <-. rewrite str_app_nil_r.
      destruct (split_app_head ":" h EmptyString Hco) as (g & fs & Hg & Heq').
      simpl in Hg. injection Hg as <- <-.
      rewrite str_app_nil_r in Heq'. by eexists.
    - simpl in Hr. destruct (split " " rest') as [|g' fs'] eqn:Hs;
        [by destruct (split_nonempty " " rest')|].
      injection Hr as <- <-.
      destruct (split_app_head ":" h (String ":" g') Hco) as (g & fs & Hg & Heq').
      simpl in Hg. injection Hg as <- <-.
      rewrite str_app_nil_r in Heq'. by eexists.
    - simpl in Hr. injection Hr as <- <-. rewrite str_app_nil_r.
      destruct (split_app_head ":" h EmptyString Hco) as (g & fs & Hg & Heq').
      simpl in Hg. injection Hg as <- <-.
      rewrite str_app_nil_r in Heq'. by eexists. }
  destruct Hclock as [fs' ->]. reflexivity.
Qed.

Lemma hour_token_iff time h : hour_of time = Ret h <-> hour_token time h.
Proof. split; [apply hour_of_token | apply token_hour_of]. Qed.

(** In a timestamp "date hh:rest" the hour token is hh. *)
Lemma hour_token_timestamp date hh rest :
  contains " " date = false ->
  contains " " hh = false -> contains ":" hh = false ->
  hour_token (date ++ String " " (hh ++ String ":" rest)) hh.
Proof.
  intros Hd Hs Hc. exists date, (String ":" rest).
  repeat split; try done. right. exists ":"%char, rest. by split; [|left].
Qed.

(** ** The report *)

Lemma calc_for_gsheets_eq data w :
  calc_for_gsheets data w =
  match calc_body data with
  | Ret r =>
      (Ret (Some r),
       snd (logger_info "Data successfull aggregated for Google Sheets file." w))
  | Raise e =>
      (Ret None,
       snd (logger_error "Error calc/aggregate data for Google Sheets"
              (Some e) w))
  | Exit c => (Exit c, w)
  end.
Proof.
  unfold calc_for_gsheets. rewrite try_except_eq, bind_eq. unfold lift.
  destruct (calc_body data); reflexivity.
Qed.

(** Records without user leave the loop variables untouched. *)
Lemma loop_no_user data a :
  Forall (fun row => user_id row = None) data -> loop data a = Ret a.
Proof.
  induction 1 as [|row data Hrow _ IH]; [reflexivity|].
  simpl. unfold step. rewrite Hrow. exact IH.
Qed.

(** C5 on the code: when no record has a user (the empty batch included)
    the totals stay at zero, the division [successfull submits / submits]
    raises [ZeroDivisionError], the handler logs it, and [calc_for_gsheets]
    returns [None]: there is no report and no percent value. *)
Theorem aggregate_without_users_returns_none (data : list Canonical)
  (w : World) :
  Forall (fun row => user_id row = None) data ->
  calc_for_gsheets data w =
  (Ret None,
   snd (logger_error "Error calc/aggregate data for Google Sheets"
          (Some ZeroDivisionError) w)).
Proof.
  intros Hno. rewrite calc_for_gsheets_eq.
  unfold calc_body. rewrite (loop_no_user _ _ Hno). reflexivity.
Qed.

(** C7: the three attempts of user u1 are reported as 3 attempts, 1 run
    attempt, 2 submits, 1 successful submit, 50.0 percent, 1 user, peak
    hour "10"; the average of attempts per user is the int 3, which equals
    3.0. *)
Theorem aggregate_three_attempts (w : World) :
  exists r,
    fst (calc_for_gsheets three_attempts w) = Ret (Some r)
    /\ all_attempts r = 3%Z
    /\ run_attempts r = 1%Z
    /\ submits r = 2%Z
    /\ successfull_submits r = 1%Z
    /\ percent_of_successfull_submits r = 50%float
    /\ unique_users r = 1%Z
    /\ max_activity_hour r = "10"
    /\ avg_attempts_per_user r = NInt 3
    /\ num_eqb (avg_attempts_per_user r) (NFloat 3%float) = true.
Proof.
  rewrite calc_for_gsheets_eq.
  replace (calc_body three_attempts)
    with (Ret (mkReport 3 1 2 1 50%float 1 "10" (NInt 3) (NInt 1) (NInt 2)
                 (NInt 1)))
    by (vm_compute; reflexivity).
  eexists. split; [reflexivity|]. repeat split.
Qed.

(** The hours counted by the loop are those of the included records, in
    order. *)
Lemma loop_hours data : forall a a',
  loop data a = Ret a' ->
  exists hours,
    Forall2 (fun row h => hour_of (created_at row) = Ret h)
      (included data) hours
    /\ time_d a' = fold_left count_hour hours (time_d a).
Proof.
  induction data as [|row data IH]; intros a a' Hloop; simpl in Hloop.
  - injection Hloop as <-. exists []. split; [constructor | reflexivity].
  - unfold step in Hloop. unfold included. simpl List.filter.
    destruct (user_id row) as [user|].
    + destruct (hour_of (created_at row)) as [hour|e|c] eqn:Hhour;
        try discriminate.
      simpl in Hloop. apply IH in Hloop as (hours & HF & Ht).
      exists (hour :: hours). split; [by constructor | exact Ht].
    + simpl in Hloop. by apply IH.
Qed.

(** The peak hour of a report is read off [calc_body]. *)
Lemma calc_body_max_hour data r :
  calc_body data = Ret r ->
  exists a, loop data acc0 = Ret a
            /\ max_key (time_d a) = Ret (max_activity_hour r).
Proof.
  unfold calc_body. intros Hbody.
  destruct (loop data acc0) as [a|e|c]; try discriminate.
  exists a. split; [reflexivity|]. cbn [obind] in Hbody.
  destruct (truediv _ _); try discriminate. cbn [obind] in Hbody.
  destruct (max_key (time_d a)) as [m|e|c]; try discriminate.
  cbn [obind] in Hbody.
  repeat (destruct (mean _); try discriminate; cbn [obind] in Hbody).
  by injection Hbody as <-.
Qed.

(** ** When a report is produced *)


Lemma od_set_nonempty {V} (d : odict V) k v : od_set d k v <> [].
Proof. destruct d as [|[k' v'] d]; simpl; [done|]. by destruct (String.eqb k' k). Qed.

Lemma count_hour_nonempty d h : count_hour d h <> [].
Proof. unfold count_hour. destruct (od_get d h); apply od_set_nonempty. Qed.

Lemma step_populated a row a' :
  populated a -> step a row = Ret a' ->
  populated a'
  /\ (acc_submits a <= acc_submits a')%Z
  /\ (user_id row <> None -> is_none (is_correct row) = false ->
      (acc_submits a < acc_submits a')%Z).
Proof.
  intros [Hnn Hpop]. unfold step.
  destruct (user_id row) as [user|].
  - destruct (hour_of (created_at row)) as [hour|e|c]; try discriminate.
    simpl. intros [= <-]. simpl.
    split; [split|split].
    + destruct (is_none (is_correct row)); cbn [negb acc_submits]; lia.
    + intros _. cbn [users_acts time_d].
      split; [apply od_set_nonempty | apply count_hour_nonempty].
    + destruct (is_none (is_correct row)); cbn [negb acc_submits]; lia.
    + intros _ Hc. cbn [acc_submits]. rewrite Hc. cbn [negb]. lia.
  - intros [= <-]. split; [by split | split; [lia | by intros []]].
Qed.

Lemma loop_populated data : forall a a',
  populated a -> loop data a = Ret a' ->
  populated a'
  /\ (acc_submits a <= acc_submits a')%Z
  /\ (Exists (fun row => user_id row <> None
                         /\ is_none (is_correct row) = false) data ->
      (acc_submits a < acc_submits a')%Z).
Proof.
  induction data as [|row data IH]; intros a a' Hpop Hloop; simpl in Hloop.
  - injection Hloop as <-.
    split; [done | split; [lia | intros Hex; by apply Exists_nil in Hex]].
  - destruct (step a row) as [a1|e|c] eqn:Hstep; try discriminate.
    simpl in Hloop.
    destruct (step_populated _ _ _ Hpop Hstep) as (Hpop1 & Hle1 & Hlt1).
    destruct (IH _ _ Hpop1 Hloop) as (Hpop' & Hle' & Hlt').
    split; [done | split; [lia|]].
    intros Hex. apply Exists_cons in Hex as [[Hu Hc]|Hex].
    + specialize (Hlt1 Hu Hc). lia.
    + specialize (Hlt' Hex). lia.
Qed.

Lemma loop_total data : forall a,
  Forall (fun row => exists h, hour_token (created_at row) h) (included data) ->
  exists a', loop data a = Ret a'.
Proof.
  induction data as [|row data IH]; intros a Htok; simpl; [by eexists|].
  unfold included in Htok. simpl in Htok. unfold step.
  destruct (user_id row) as [user|]; [|by apply IH].
  apply Forall_cons in Htok as [[h Hh] Htok].
  rewrite (token_hour_of _ _ Hh). simpl. by apply IH.
Qed.

(** A batch with a graded attempt of an identified user, whose included
    records all have an hour token, is reported. *)
Lemma report_exists data :
  Exists (fun row => user_id row <> None
                     /\ is_none (is_correct row) = false) data ->
  Forall (fun row => exists h, hour_token (created_at row) h) (included data) ->
  exists r, forall w, fst (calc_for_gsheets data w) = Ret (Some r).
Proof.
  intros Hsub Htok.
  destruct (loop_total data acc0 Htok) as [a Hloop].
  assert (Hpop0 : populated acc0) by (split; [done | by intros []]).
  destruct (loop_populated data _ _ Hpop0 Hloop) as ([_ Hpop] & _ & Hlt).
  specialize (Hlt Hsub). simpl in Hlt.
  destruct Hpop as [Hacts Htime]; [lia|].
  assert (Hbody : exists r, calc_body data = Ret r).
  { unfold calc_body, truediv. rewrite Hloop. cbn [obind].
    destruct (Z.eqb_spec (acc_submits a) 0) as [?|_]; [lia|]. cbn [obind].
    unfold max_key, od_keys.
    destruct (time_d a) as [|[k n] td]; [done|]. cbn [map fst obind].
    unfold od_values, mean.
    destruct (users_acts a) as [|[u acts] ua]; [done|].
    cbn [map]. 
    repeat match goal with
           | |- context [if ?b then _ else _] => destruct b
           end; cbn [obind]; by eexists. }
  destruct Hbody as [r Hbody]. exists r. intros w.
  by rewrite calc_for_gsheets_eq, Hbody.
Qed.

End AggregatorFacts.

(** [aggregate_without_users_returns_none] on a batch of one record
    without user. *)
Lemma aggregate_without_users_witness :
  fst (calc_for_gsheets [record_no_user] (quiet_world [])) = Ret None.
Proof.
  rewrite (aggregate_without_users_returns_none [record_no_user]
             (quiet_world [])); [reflexivity|].
  repeat constructor.
Defined.

(* ===================================================================== *)
(** * Further properties: the rotation of the log files *)
(* ===================================================================== *)

Section LogFilesFacts.
Import LogFiles.

Lemma remove_each_files pre : forall post deleted,
  Forall (fun e => snd e = true) pre ->
  remove_each (map fst pre) (pre ++ post)%list deleted
  = (post, (deleted ++ map fst pre)%list, None).
Proof.
  induction pre as [|[name is_file] pre IH]; intros post deleted Hfiles.
  - simpl. by rewrite app_nil_r.
  - apply Forall_cons in Hfiles as [Hfile Hfiles]. simpl in Hfile. subst.
    simpl. rewrite String.eqb_refl, IH by done.
    by rewrite <- app_assoc.
Qed.

Lemma remove_each_stops pre name rest : forall post deleted,
  Forall (fun e => snd e = true) pre ->
  remove_each (map fst (pre ++ (name, false) :: rest)%list)
    ((pre ++ (name, false) :: rest) ++ post)%list deleted
  = (((name, false) :: rest ++ post)%list, (deleted ++ map fst pre)%list,
     Some name).
Proof.
  induction pre as [|[n is_file] pre IH]; intros post deleted Hfiles.
  - simpl. by rewrite String.eqb_refl, app_nil_r.
  - apply Forall_cons in Hfiles as [Hfile Hfiles]. simpl in Hfile. subst.
    simpl. rewrite String.eqb_refl.
    specialize (IH post (deleted ++ [n])%list Hfiles).
    simpl in IH. rewrite IH. by rewrite <- app_assoc.
Qed.

(** X1: the rotation keeps the last four entries of the directory listing
    and removes all the entries before them, in listing order; a directory
    of at most four entries is left alone; an entry to remove that is not a
    file stops the block with the exception of [os.remove], the entries
    before it being already removed. *)
Theorem rotate_keeps_last_four (dir : Dir) :
  ((length dir <= 4)%nat ->
   rotate dir = Rotated dir [] (LogInfo "No log files were deleted."))
  /\ ((4 < length dir)%nat ->
      Forall (fun e => snd e = true) (firstn (length dir - 4) dir) ->
      rotate dir
      = Rotated (skipn (length dir - 4) dir)
          (map fst (firstn (length dir - 4) dir))
          (LogInfo "Deleted old log files")
      /\ length (skipn (length dir - 4) dir) = 4%nat)
  /\ (forall pre name rest,
        firstn (length dir - 4) dir = (pre ++ (name, false) :: rest)%list ->
        Forall (fun e => snd e = true) pre ->
        rotate dir
        = RemoveRaised (skipn (length pre) dir) name).
Proof.
  unfold rotate, all_but_last. rewrite length_map.
  set (k := (length dir - 4)%nat).
  split; [|split].
  - intros Hle. apply Nat.ltb_ge in Hle. by rewrite Hle.
  - intros Hlt Hfiles. pose proof Hlt as Hlt'. apply Nat.ltb_lt in Hlt'.
    rewrite Hlt'. rewrite firstn_map.
    replace (remove_each (map fst (firstn k dir)) dir [])
      with (remove_each (map fst (firstn k dir))
              (firstn k dir ++ skipn k dir)%list [])
      by (by rewrite firstn_skipn).
    rewrite remove_each_files by done. simpl.
    split; [|rewrite length_skipn; lia].
    destruct (map fst (firstn k dir)) eqn:Hnames; [|done].
    apply (f_equal length) in Hnames.
    rewrite length_map, length_firstn in Hnames. simpl in Hnames. lia.
  - intros pre name rest Hpre Hfiles.
    assert (Hlt : (4 < length dir)%nat).
    { apply (f_equal length) in Hpre.
      rewrite length_firstn, length_app in Hpre. simpl in Hpre. lia. }
    apply Nat.ltb_lt in Hlt. rewrite Hlt. rewrite firstn_map.
    pose proof (firstn_skipn k dir) as Hsplit.
    rewrite Hpre in Hsplit.
    replace (remove_each (map fst (firstn k dir)) dir [])
      with (remove_each (map fst (pre ++ (name, false) :: rest)%list)
              ((pre ++ (name, false) :: rest) ++ skipn k dir)%list [])
      by (by rewrite Hsplit, Hpre).
    rewrite remove_each_stops by done. simpl.
    f_equal.
    transitivity (skipn (length pre)
                    (pre ++ ((name, false) :: rest) ++ skipn k dir)%list).
    + by rewrite skipn_app, skipn_all, Nat.sub_diag.
    + f_equal. by rewrite app_assoc.
Qed.

End LogFilesFacts.

(* ===================================================================== *)
(** * Further properties of the validator *)
(* ===================================================================== *)

Section ValidatorMore.
Variable json_loads : string -> exn + pyobj.

Lemma same_but_log_refl w : same_but_log w w.
Proof. by repeat split. Qed.

Lemma same_but_log_trans w1 w2 w3 :
  same_but_log w1 w2 -> same_but_log w2 w3 -> same_but_log w1 w3.
Proof.
  unfold same_but_log. intros H1 H2.
  destruct H1 as (?&?&?&?&?&?&?&?), H2 as (?&?&?&?&?&?&?&?).
  repeat split; congruence.
Qed.

Lemma same_but_log_add e w : same_but_log w (snd (log_add e w)).
Proof. by repeat split. Qed.

(** The checks report the first missing field, in the order of
    [required_fields]. *)
Lemma check_required_first_missing fields row :
  check_required fields row =
  match List.find (fun field => match row !! field with
                                | None => true
                                | Some _ => false
                                end) fields with
  | Some field => Raise (ValueError ("Missing '" ++ field ++ "' field"))
  | None => Ret tt
  end.
Proof.
  induction fields as [|f fs IH]; simpl; [reflexivity|].
  destruct (row !! f); [exact IH | reflexivity].
Qed.

(** A batch in which some record does not pass ends the script with
    status 1. *)
Lemma batch_not_all_pass_exits data w :
  Exists (fun row => ~ passes json_loads row) data ->
  fst (Script.top_level (validate_data json_loads data) w) = Exit 1.
Proof.
  intros Hex.
  assert (Hne : data <> []) by (intros ->; by apply Exists_nil in Hex).
  apply not_passes_shorter in Hex.
  unfold Script.top_level. rewrite try_except_eq, validate_data_eq by done.
  pose proof (validate_loop json_loads data 1 []
                (snd (logger_info "Starting data validation..." w))) as Hloop.
  destruct (for_each _ _ _ _) as [[v|e|c] w']; simpl in Hloop.
  - destruct Hloop as [-> _]. simpl in *.
    apply Nat.eqb_neq in Hex. by rewrite Hex.
  - done.
  - contradiction.
Qed.

(** X2: a record that lacks a required field is rejected with a
    [ValueError] naming the first missing field, in the order lti_user_id,
    passback_params, is_correct, attempt_type, created_at; a batch holding
    such a record ends the script with status 1. *)
Theorem missing_field_rejected (row : RawRecord) (field : string)
  (data : list RawRecord) (w : World) :
  first_missing row = Some field ->
  validate_row json_loads row
  = Raise (ValueError ("Missing '" ++ field ++ "' field"))
  /\ (row ∈ data ->
      fst (Script.top_level (validate_data json_loads data) w) = Exit 1).
Proof.
  intros Hmiss.
  assert (Hrow : validate_row json_loads row
                 = Raise (ValueError ("Missing '" ++ field ++ "' field"))).
  { unfold validate_row. rewrite check_required_first_missing.
    unfold first_missing in Hmiss. by rewrite Hmiss. }
  split; [exact Hrow|]. intros Hin.
  apply batch_not_all_pass_exits, Exists_exists.
  exists row. split; [done|]. intros [c Hc]. congruence.
Qed.

Lemma check_required_present row :
  check_required required_fields row = Ret tt <->
  (forall field, In field required_fields -> is_Some (row !! field)).
Proof.
  rewrite check_required_first_missing. split.
  - destruct (List.find _ _) as [f|] eqn:Hfind; [discriminate|].
    intros _ field Hin.
    pose proof (find_none _ _ Hfind field Hin) as Hf. simpl in Hf.
    by destruct (row !! field).
  - intros Hall.
    destruct (List.find _ _) as [f|] eqn:Hfind; [|reflexivity].
    apply find_some in Hfind as [Hin Hf].
    destruct (Hall f Hin) as [v Hv]. by rewrite Hv in Hf.
Qed.

(** X3: what an accepted record is.  When a record passes, its five
    required keys are present, [lti_user_id] is null or a string,
    [is_correct] equals 0 or 1 or is null, [passback_params] is null or a
    string, [attempt_type] and [created_at] are strings; and the canonical
    record carries these very values, with the three passback fields null
    when [passback_params] is null. *)
Theorem accepted_record_shape (row : RawRecord) (c : Canonical) :
  validate_row json_loads row = Ret c ->
  (forall field, In field required_fields -> is_Some (row !! field))
  /\ (dict_get row "lti_user_id" = PNone /\ user_id c = None
      \/ exists u, dict_get row "lti_user_id" = PStr u /\ user_id c = Some u)
  /\ is_correct c = dict_get row "is_correct"
  /\ in_0_1_None (is_correct c) = true
  /\ dict_get row "attempt_type" = PStr (attempt_type c)
  /\ dict_get row "created_at" = PStr (created_at c)
  /\ (dict_get row "passback_params" = PNone
      /\ oauth_consumer_key c = None /\ lis_result_sourcedid c = None
      /\ lis_outcome_service_url c = None
      \/ exists s, dict_get row "passback_params" = PStr s).
Proof.
  unfold validate_row. intros Hrow.
  destruct (check_required required_fields row) as [[]|e|x] eqn:Hreq;
    try discriminate.
  pose proof (proj1 (check_required_present row) Hreq) as Hpresent.
  cbn [obind] in Hrow.
  destruct (dict_get row "lti_user_id") as [| | | |u| |] eqn:Hlti;
    try discriminate; cbn [is_none is_str negb andb opt_str] in Hrow.
  all: destruct (in_0_1_None (dict_get row "is_correct")) eqn:Hic;
    try discriminate; cbn [negb] in Hrow.
  all: destruct (dict_get row "passback_params") as [| | | |s| |] eqn:Hpp;
    try discriminate.
  all: destruct (passback_fields json_loads _) as [[[k1 k2] k3]|e|x] eqn:Hpf;
    try discriminate; cbn [obind] in Hrow.
  all: destruct (dict_get row "attempt_type") as [| | | |a| |];
    try discriminate.
  all: destruct (dict_get row "created_at") as [| | | |t| |];
    try discriminate.
  all: injection Hrow as <-; cbn.
  all: split; [exact Hpresent|].
  all: split; [first [left; by split | right; by eexists]|].
  all: repeat (split; [done|]).
  all: first [ left; unfold passback_fields in Hpf; cbn in Hpf;
               by injection Hpf as <- <- <-
             | right; by eexists ].
Qed.

(** X4: the converse for a record without [passback_params]: with the
    five keys present, [lti_user_id] null or a string, [is_correct] equal
    to 0 or 1 or null, and strings for [attempt_type] and [created_at], the
    record passes, whatever the decoder; and so does a record whose
    [passback_params] decodes to a mapping of strings and nulls, with the
    three fields read from the mapping. *)
Theorem well_formed_record_passes (row : RawRecord) (a t : string) :
  (forall field, In field required_fields -> is_Some (row !! field)) ->
  is_none (dict_get row "lti_user_id") || is_str (dict_get row "lti_user_id")
  = true ->
  in_0_1_None (dict_get row "is_correct") = true ->
  dict_get row "attempt_type" = PStr a ->
  dict_get row "created_at" = PStr t ->
  (dict_get row "passback_params" = PNone ->
   validate_row json_loads row
   = Ret (mkCanonical (opt_str (dict_get row "lti_user_id")) None None None
            (dict_get row "is_correct") a t))
  /\ (forall s d,
        dict_get row "passback_params" = PStr s ->
        json_loads (replace single_quote double_quote s) = inr (PDict d) ->
        map_Forall (fun _ v => is_none v || is_str v = true) d ->
        validate_row json_loads row
        = Ret (mkCanonical (opt_str (dict_get row "lti_user_id"))
                 (opt_str (dict_get d "oauth_consumer_key"))
                 (opt_str (dict_get d "lis_result_sourcedid"))
                 (opt_str (dict_get d "lis_outcome_service_url"))
                 (dict_get row "is_correct") a t)).
Proof.
  intros Hreq Hlti Hic Ha Ht.
  apply (proj2 (check_required_present row)) in Hreq.
  assert (Hlti' : negb (is_none (dict_get row "lti_user_id"))
                  && negb (is_str (dict_get row "lti_user_id")) = false).
  { apply orb_prop in Hlti as [-> | ->]; [done|]. by rewrite andb_false_r. }
  split.
  - intros Hpp. unfold validate_row.
    rewrite Hreq. cbn [obind]. rewrite Hlti', Hic, Hpp, Ha, Ht. reflexivity.
  - intros s d Hpp Hdec Hvals. unfold validate_row.
    rewrite Hreq. cbn [obind]. rewrite Hlti', Hic, Hpp. cbn [negb].
    unfold passback_fields, decode. cbn [is_none negb].
    rewrite Hdec. cbn [obind values].
    assert (Hex : existsb (fun value => negb (is_none value)
                                        && negb (is_str value))
                    (map snd (map_to_list d)) = false).
    { apply not_true_is_false. intros Hex.
      apply existsb_exists in Hex as (v & Hin & Hv).
      apply in_map_iff in Hin as ([k v'] & <- & Hin).
      apply list_elem_of_In, elem_of_map_to_list in Hin.
      specialize (Hvals k v' Hin). simpl in Hvals, Hv.
      apply orb_prop in Hvals as [Hn|Hs];
        [rewrite Hn in Hv | rewrite Hs, andb_false_r in Hv]; done. }
    rewrite Hex. cbn [obind dict_get_obj]. rewrite Ha, Ht. reflexivity.
Qed.

End ValidatorMore.

(** [missing_field_rejected] on a record without [created_at]. *)
Lemma missing_field_rejected_witness :
  validate_row JsonFragment.json_loads (delete "created_at" row_valid)
  = Raise (ValueError "Missing 'created_at' field").
Proof.
  apply (missing_field_rejected JsonFragment.json_loads
           (delete "created_at" row_valid) "created_at" [] (quiet_world [])).
  vm_compute. reflexivity.
Defined.

(** [accepted_record_shape] on the valid sample record. *)
Lemma accepted_record_shape_witness :
  is_correct canonical_valid = dict_get row_valid "is_correct"
  /\ dict_get row_valid "created_at" = PStr (created_at canonical_valid).
Proof.
  pose proof (accepted_record_shape JsonFragment.json_loads row_valid
                canonical_valid) as H.
  destruct H as (_ & _ & Hic & _ & _ & Hat & _).
  - vm_compute. reflexivity.
  - split; [exact Hic | exact Hat].
Defined.

(** [well_formed_record_passes] on the valid sample record, which has no
    [passback_params]. *)
Lemma well_formed_record_passes_witness :
  validate_row JsonFragment.json_loads row_valid = Ret canonical_valid.
Proof.
  refine (proj1 (well_formed_record_passes JsonFragment.json_loads row_valid
                   "run" "2024-05-01 10:00:00" _ _ _ _ _) _).
  - intros field Hin. simpl in Hin.
    destruct Hin as [<-|[<-|[<-|[<-|[<-|[]]]]]]; vm_compute; eexists;
      reflexivity.
  - vm_compute. reflexivity.
  - vm_compute. reflexivity.
  - vm_compute. reflexivity.
  - vm_compute. reflexivity.
  - vm_compute. reflexivity.
Defined.

Section ValidatorLog.
Variable json_loads : string -> exn + pyobj.

Lemma validate_loop_log data : forall start acc w,
  same_but_log w
    (snd (for_each (enumerate data start) (record_step json_loads) acc w))
  /\ (Forall (fun row => ~ escapes json_loads row) data ->
      w_log (snd (for_each (enumerate data start) (record_step json_loads)
                    acc w))
      = (w_log w ++ record_errors json_loads data start)%list).
Proof.
  induction data as [|row data IH]; intros start acc w.
  - simpl. split; [apply same_but_log_refl | by rewrite app_nil_r].
  - simpl enumerate. rewrite for_each_cons, record_step_eq.
    cbn [record_errors].
    destruct (validate_row json_loads row) as [c|e|c] eqn:Hrow.
    + destruct (IH (S start) (acc ++ [c])%list w) as [Hframe Hlog].
      split; [exact Hframe|]. intros Hall. inversion Hall; subst.
      by apply Hlog.
    + destruct (isinstance_ValueError e) eqn:Hcls.
      * destruct (IH (S start) acc (snd (log_add (LogRecordError start e) w)))
          as [Hframe Hlog].
        split.
        -- eapply same_but_log_trans; [apply same_but_log_add | exact Hframe].
        -- intros Hall. inversion Hall; subst. rewrite Hlog by done.
           cbn [log_add snd w_log]. by rewrite <- app_assoc.
      * split; [apply same_but_log_refl|].
        intros Hall. inversion Hall as [|? ? Hno _]; subst.
        exfalso. apply Hno. by exists e.
    + by destruct (validate_row_no_exit json_loads row c).
Qed.

(** X5: what validation writes.  [validate_data] changes nothing of the
    world but the log.  On an empty batch it logs nothing; on a batch in
    which no record raises anything but a [ValueError] it appends the
    opening line, one line per rejected record carrying the 1-based index
    of the record and the error, in the order of the batch, and one closing
    line: success when every record passed, failure otherwise. *)
Theorem validate_data_log (data : list RawRecord) (w : World) :
  same_but_log w (snd (validate_data json_loads data w))
  /\ (data = [] -> w_log (snd (validate_data json_loads data w)) = w_log w)
  /\ (data <> [] ->
      Forall (fun row => ~ escapes json_loads row) data ->
      w_log (snd (validate_data json_loads data w))
      = (w_log w ++ LogInfo "Starting data validation..."
           :: record_errors json_loads data 1
           ++ [closing_line json_loads data])%list).
Proof.
  split; [|split].
  - destruct data as [|row data]; [apply same_but_log_refl|].
    rewrite validate_data_eq by done.
    destruct (validate_loop_log (row :: data) 1 []
                (snd (logger_info "Starting data validation..." w)))
      as [Hframe _].
    assert (Hw : same_but_log w
              (snd (for_each (enumerate (row :: data) 1)
                      (record_step json_loads) []
                      (snd (logger_info "Starting data validation..." w))))).
    { eapply same_but_log_trans; [apply same_but_log_add | exact Hframe]. }
    destruct (for_each _ _ _ _) as [[v|e|c] w']; simpl snd in *;
      [|exact Hw|exact Hw].
    destruct (Nat.eqb _ _);
      (eapply same_but_log_trans; [exact Hw | apply same_but_log_add]).
  - intros ->. reflexivity.
  - intros Hne Hall. rewrite validate_data_eq by done.
    destruct (validate_loop_log data 1 []
                (snd (logger_info "Starting data validation..." w)))
      as [_ Hlog].
    specialize (Hlog Hall).
    pose proof (validate_loop json_loads data 1 []
                  (snd (logger_info "Starting data validation..." w)))
      as Hloop.
    destruct (for_each _ _ _ _) as [[v|e|c] w']; simpl fst in Hloop;
      simpl snd in Hlog.
    + destruct Hloop as [-> _]. rewrite app_nil_l. unfold closing_line.
      destruct (Nat.eqb _ _); cbn [logger_info logger_error log_add snd w_log]
        in *; rewrite Hlog, <- !app_assoc; reflexivity.
    + exfalso. destruct Hloop as [Hcls Hex].
      apply Exists_exists in Hex as (row & Hin & Hrow).
      rewrite Forall_forall in Hall. apply (Hall row Hin). by exists e.
    + contradiction.
Qed.

End ValidatorLog.

Section ValidatorIsCorrect.
Variable json_loads : string -> exn + pyobj.

Lemma dict_get_insert (row : RawRecord) k v : dict_get (<[k := v]> row) k = v.
Proof. unfold dict_get. by rewrite lookup_insert_eq. Qed.

Lemma dict_get_insert_ne (row : RawRecord) k k' v :
  k <> k' -> dict_get (<[k := v]> row) k' = dict_get row k'.
Proof. intros Hne. unfold dict_get. by rewrite lookup_insert_ne. Qed.

Lemma check_required_insert fields (row : RawRecord) k v :
  check_required fields row = Ret tt ->
  check_required fields (<[k := v]> row) = Ret tt.
Proof.
  induction fields as [|f fs IH]; simpl; [done|].
  destruct (row !! f) as [x|] eqn:Hf; [|discriminate].
  intros Hrest. destruct (decide (k = f)) as [->|Hne].
  - rewrite lookup_insert_eq. by apply IH.
  - rewrite lookup_insert_ne, Hf by done. by apply IH.
Qed.

(** X6: the check of [is_correct] looks at the value only through
    [in (0, 1, None)].  In a record that passes, [is_correct] can be
    replaced by any value that is equal to 0 or 1 or is null, the booleans
    included, and the record still passes, with that value stored as it is;
    with any other value, a string such as '1' included, the record is
    rejected with the [is_correct] error. *)
Theorem is_correct_value_check (row : RawRecord) (c : Canonical) :
  validate_row json_loads row = Ret c ->
  (forall v, in_0_1_None v = true ->
     validate_row json_loads (<["is_correct" := v]> row)
     = Ret (with_is_correct c v))
  /\ (forall v, in_0_1_None v = false ->
        validate_row json_loads (<["is_correct" := v]> row)
        = Raise (ValueError "'is_correct' must be 0, 1, or None"))
  /\ (forall b, in_0_1_None (PBool b) = true)
  /\ (forall s, in_0_1_None (PStr s) = false).
Proof.
  intros Hrow.
  assert (Hshape : forall v,
    validate_row json_loads (<["is_correct" := v]> row)
    = if negb (in_0_1_None v)
      then Raise (ValueError "'is_correct' must be 0, 1, or None")
      else Ret (with_is_correct c v)).
  { intros v. revert Hrow. unfold validate_row.
    destruct (check_required required_fields row) as [[]|e|x] eqn:Hreq;
      try discriminate.
    rewrite (check_required_insert _ _ _ v Hreq). cbn [obind].
    rewrite dict_get_insert, !dict_get_insert_ne by done.
    destruct (negb (is_none (dict_get row "lti_user_id"))
              && negb (is_str (dict_get row "lti_user_id")));
      [discriminate|].
    destruct (negb (in_0_1_None (dict_get row "is_correct")));
      [discriminate|].
    destruct (negb (in_0_1_None v)); [reflexivity|].
    destruct (passback_fields json_loads _) as [[[k1 k2] k3]|e|x];
      try discriminate. cbn [obind].
    destruct (dict_get row "attempt_type"); try discriminate.
    destruct (dict_get row "created_at"); try discriminate.
    by intros [= <-]. }
  split; [|split; [|split]].
  - intros v Hv. by rewrite Hshape, Hv.
  - intros v Hv. by rewrite Hshape, Hv.
  - by intros [].
  - done.
Qed.

End ValidatorIsCorrect.

(** [is_correct_value_check] on the valid sample record, with [True] for
    [is_correct]. *)
Lemma is_correct_value_check_witness :
  validate_row JsonFragment.json_loads
    (<["is_correct" := PBool true]> row_valid)
  = Ret (with_is_correct canonical_valid (PBool true)).
Proof.
  refine (proj1 (is_correct_value_check JsonFragment.json_loads row_valid
                   canonical_valid _) (PBool true) _).
  - vm_compute. reflexivity.
  - reflexivity.
Defined.

(* ===================================================================== *)
(** * More on the date gate *)
(* ===================================================================== *)

Section GateMore.
#[local] Open Scope Z_scope.

Lemma is_digit_cases c :
  is_digit c = true ->
  In c ["0"; "1"; "2"; "3"; "4"; "5"; "6"; "7"; "8"; "9"]%char.
Proof.
  destruct c as [[] [] [] [] [] [] [] []]; vm_compute; intros H;
    try discriminate; tauto.
Qed.

Ltac digit_cases H :=
  apply is_digit_cases in H; simpl in H;
  repeat (destruct H as [<-|H]); [..|destruct H].

Lemma read_month_digits m1 m2 r :
  is_digit m1 = true -> is_digit m2 = true ->
  read_month (String m1 (String m2 (String "-" r)))
  = (if (1 <=? 10 * digit_val m1 + digit_val m2)
        && (10 * digit_val m1 + digit_val m2 <=? 12)
     then Some (10 * digit_val m1 + digit_val m2, String "-" r)
     else if in_range "1" "9" m1
          then Some (digit_val m1, String m2 (String "-" r))
          else None).
Proof.
  intros H1 H2. digit_cases H1; digit_cases H2; vm_compute; reflexivity.
Qed.

Lemma read_day_digits d1 d2 :
  is_digit d1 = true -> is_digit d2 = true ->
  read_day (String d1 (String d2 EmptyString))
  = (if (1 <=? 10 * digit_val d1 + digit_val d2)
        && (10 * digit_val d1 + digit_val d2 <=? 31)
     then Some (10 * digit_val d1 + digit_val d2, EmptyString)
     else if in_range "1" "9" d1
          then Some (digit_val d1, String d2 EmptyString)
          else None).
Proof.
  intros H1 H2. digit_cases H1; digit_cases H2; vm_compute; reflexivity.
Qed.

Lemma read_dash_digit c r : is_digit c = true -> read_dash (String c r) = None.
Proof. intros H. digit_cases H; reflexivity. Qed.

Lemma days_in_month_le_31 y m : days_in_month y m <= 31.
Proof.
  unfold days_in_month.
  destruct (m =? 2); [destruct (is_leap y); lia|].
  destruct (_ || _); lia.
Qed.

(** [strptime] on a string of the form YYYY-MM-DD: the day it writes when
    that is a day of the calendar, a [ValueError] otherwise. *)
Lemma strptime_shape s :
  YYYY_MM_DD s ->
  (valid_date (date_of s) -> strptime_Ymd s = Ret (date_of s))
  /\ (~ valid_date (date_of s) ->
      exists msg, strptime_Ymd s = Raise (ValueError msg)).
Proof.
  intros (y1 & y2 & y3 & y4 & m1 & m2 & d1 & d2 & -> & Hd).
  simpl in Hd. repeat (apply andb_prop in Hd as [? Hd]). clear Hd.
  unfold strptime_Ymd, read_year.
  repeat match goal with H : is_digit _ = true |- _ =>
    rewrite H end.
  cbn [andb read_dash]. rewrite Ascii.eqb_refl.
  rewrite read_month_digits by done.
  unfold date_of, valid_date. cbn [substring numeral numeral_from year month day].
  unfold numeral. cbn [numeral_from].
  set (y := 1000 * digit_val y1 + 100 * digit_val y2 + 10 * digit_val y3
            + digit_val y4).
  replace (10 * (10 * (10 * (10 * 0 + digit_val y1) + digit_val y2)
                 + digit_val y3) + digit_val y4) with y by (subst y; lia).
  replace (10 * (10 * 0 + digit_val m1) + digit_val m2)
    with (10 * digit_val m1 + digit_val m2) by lia.
  replace (10 * (10 * 0 + digit_val d1) + digit_val d2)
    with (10 * digit_val d1 + digit_val d2) by lia.
  set (m := 10 * digit_val m1 + digit_val m2).
  set (d := 10 * digit_val d1 + digit_val d2).
  destruct ((1 <=? m) && (m <=? 12)) eqn:Hm.
  - apply andb_prop in Hm as [Hm1 Hm2]. apply Z.leb_le in Hm1, Hm2.
    cbn [read_dash]. rewrite Ascii.eqb_refl.
    rewrite read_day_digits by done. fold d.
    destruct ((1 <=? d) && (d <=? 31)) eqn:Hdd.
    + apply andb_prop in Hdd as [Hd1 Hd2]. apply Z.leb_le in Hd1, Hd2.
      destruct (Z.ltb_spec y 1) as [Hy|Hy].
      { split; [lia|]. intros _. by eexists. }
      destruct (Z.ltb_spec (days_in_month y m) d) as [Hdm|Hdm].
      { split; [lia|]. intros _. by eexists. }
      split; [done|]. intros Hno. exfalso. apply Hno. lia.
    + assert (Hbad : ~ (1 <= d <= days_in_month y m)).
      { pose proof (days_in_month_le_31 y m).
        apply andb_false_iff in Hdd as [Hdd|Hdd]; apply Z.leb_gt in Hdd; lia. }
      split; [lia|]. intros _.
      destruct (in_range "1" "9" d1); by eexists.
  - assert (Hbad : ~ (1 <= m <= 12)).
    { apply andb_false_iff in Hm as [Hm|Hm]; apply Z.leb_gt in Hm; lia. }
    split; [lia|]. intros _.
    destruct (in_range "1" "9" m1); [|by eexists].
    rewrite read_dash_digit by done. by eexists.
Qed.

Lemma valid_date_dec d : valid_date d \/ ~ valid_date d.
Proof. unfold valid_date. lia. Qed.

Lemma strptime_date_of s d :
  YYYY_MM_DD s -> strptime_Ymd s = Ret d ->
  d = date_of s /\ valid_date (date_of s).
Proof.
  intros Hs Hd. destruct (strptime_shape _ Hs) as [H1 H2].
  destruct (valid_date_dec (date_of s)) as [Hv|Hv].
  - specialize (H1 Hv). split; [congruence | exact Hv].
  - destruct (H2 Hv) as [msg Hmsg]. congruence.
Qed.

Lemma gate_range_ok start_day finish_day :
  gate start_day finish_day = Ret tt <-> range_ok start_day finish_day.
Proof.
  rewrite gate_Ret. unfold range_ok, days_between. split.
  - intros (Hs & Hf & ds & df & Hds & Hdf & Hgt & Hspan).
    destruct (strptime_date_of _ _ Hs Hds) as [-> Hvs].
    destruct (strptime_date_of _ _ Hf Hdf) as [-> Hvf].
    repeat (split; [done|]).
    pose proof (date_gt_toordinal _ _ Hvs Hvf) as Hord.
    destruct (Z.lt_ge_cases (toordinal (date_of finish_day))
                (toordinal (date_of start_day))) as [Hlt|Hge].
    + apply Hord in Hlt. congruence.
    + lia.
  - intros (Hs & Hf & Hvs & Hvf & Hord).
    split; [done|]. split; [done|].
    exists (date_of start_day), (date_of finish_day).
    split; [by apply strptime_shape|]. split; [by apply strptime_shape|].
    split; [|lia].
    apply not_true_is_false. intros Hgt.
    apply (date_gt_toordinal _ _ Hvs Hvf) in Hgt. lia.
Qed.

(** X7: what [get_data] does, for every pair of bounds.  When both
    bounds have the form YYYY-MM-DD, name days of the calendar, and are in
    order and at most six days apart, exactly one request is issued, for
    the statistics of the range, and the payload of the answer is returned
    as it is; when the request fails the process ends with status 1.  For
    every other pair, a day such as 2023-02-29 included, the process ends
    with status 1 and no request is issued.  In no case does an exception
    leave the function, and the store and the sheet are not touched. *)
Theorem get_data_spec (start_day finish_day : string) (w : World) :
  (range_ok start_day finish_day ->
   w_requests (snd (get_data start_day finish_day w))
   = (w_requests w ++ [statistics_request start_day finish_day])%list
   /\ fst (get_data start_day finish_day w)
      = match w_api w (statistics_request start_day finish_day) with
        | Some data => Ret data
        | None => Exit 1
        end)
  /\ (~ range_ok start_day finish_day ->
      fst (get_data start_day finish_day w) = Exit 1
      /\ no_request w (snd (get_data start_day finish_day w)))
  /\ ~ range_ok "2023-02-29" "2023-03-01"
  /\ (forall e, fst (get_data start_day finish_day w) <> Raise e)
  /\ w_db (snd (get_data start_day finish_day w)) = w_db w
  /\ w_sheet (snd (get_data start_day finish_day w)) = w_sheet w.
Proof.
  split; [|split; [|split; [|split]]].
  - intros Hok. apply gate_range_ok in Hok.
    split; [by apply get_data_accepted|].
    rewrite get_data_eq, Hok. cbv zeta. unfold requests_get_json.
    cbn [logger_info log_add snd w_api].
    by destruct (w_api w _).
  - intros Hno. apply get_data_refused. by rewrite gate_range_ok.
  - rewrite <- gate_range_ok. vm_compute. discriminate.
  - intros e. rewrite get_data_eq. cbv zeta.
    destruct (gate start_day finish_day) as [[]|e'|c]; [|done..].
    unfold requests_get_json. cbn [logger_info log_add snd w_api].
    by destruct (w_api w _).
  - rewrite get_data_eq. cbv zeta.
    destruct (gate start_day finish_day) as [[]|e|c]; [|done..].
    unfold requests_get_json. cbn [logger_info log_add snd w_api].
    by destruct (w_api w _).
Qed.

End GateMore.


(* ===================================================================== *)
(** * More on the loader *)
(* ===================================================================== *)

Section LoaderMore.
Import Database.

Lemma cur_execute_log {A} params stmt w :
  w_log (snd (@cur_execute A params stmt w)) = w_log w.
Proof.
  unfold cur_execute.
  destruct (faults (w_db w)) as [|b rest]; destruct (aborted (w_db w) || _);
    try (by destruct (adapt_params params)); by destruct (stmt _) as [[a t]|].
Qed.

Lemma con_commit_log w : w_log (snd (con_commit w)) = w_log w.
Proof.
  unfold con_commit.
  by destruct (faults (w_db w)) as [|[] rest]; destruct (aborted (w_db w)).
Qed.


Lemma load_loop_skipped table_name vdata : forall start skipped w rows,
  fault_free (w_db w) = true ->
  session (w_db w) !! fold_name table_name = Some rows ->
  fst (for_each (enumerate vdata start) (load_step table_name) skipped w)
  = Ret (skipped + skipped_total vdata rows)%Z.
Proof.
  induction vdata as [|row vdata IH]; intros start skipped w rows Hff Hrows.
  - simpl. by rewrite Z.add_0_r.
  - simpl enumerate. rewrite for_each_cons.
    destruct (load_step_ok table_name skipped start row w rows Hff Hrows)
      as (w1 & -> & Hff1 & _ & _ & Hs1).
    assert (Hrows1 : session (w_db w1) !! fold_name table_name
                     = Some (load_rows [row] rows))
      by by rewrite Hs1, lookup_insert_eq.
    rewrite (IH _ _ _ _ Hff1 Hrows1). cbn [skipped_total].
    by rewrite Z.add_assoc.
Qed.

(** The loop appends the records that no row matches at their turn, in the
    order of the batch, as the columns keep them. *)
Lemma load_rows_kept vdata : forall rows,
  exists kept,
    sublist kept vdata
    /\ load_rows vdata rows = (rows ++ map stored kept)%list
    /\ Forall (fun row => ~ matched rows row) kept
    /\ (Z.of_nat (length vdata) - Z.of_nat (length kept)
        <= skipped_total vdata rows)%Z
    /\ (skipped_total vdata rows = 0%Z -> kept = vdata).
Proof.
  induction vdata as [|row vdata IH]; intros rows.
  - exists []. rewrite app_nil_r. by repeat split.
  - cbn [load_rows skipped_total].
    pose proof (count_rows_nonneg (user_id row) (Some (created_at row)) rows)
      as Hnn.
    destruct (_ =? 0)%Z eqn:Hz.
    + apply Z.eqb_eq in Hz.
      destruct (IH (rows ++ [column_values (row_values row)])%list)
        as (kept & Hsub & Hrows & Hnew & Hlen & Hall).
      exists (row :: kept). split; [by constructor|].
      split; [by rewrite Hrows, <- app_assoc|].
      split; [|split].
      * constructor; [unfold matched; lia|].
        eapply Forall_impl; [exact Hnew|]. intros r Hr Hm. apply Hr.
        by apply matched_app.
      * simpl length. lia.
      * intros H0. f_equal. apply Hall. lia.
    + apply Z.eqb_neq in Hz.
      destruct (IH rows) as (kept & Hsub & Hrows & Hnew & Hlen & Hall).
      pose proof (sublist_length _ _ Hsub) as Hle.
      exists kept. split; [by constructor|]. split; [done|].
      split; [done|]. split.
      * simpl length.
        assert (0 <= skipped_total vdata rows)%Z by lia. lia.
      * intros H0. exfalso.
        assert (0 <= skipped_total vdata rows)%Z by lia. lia.
Qed.

(** X9: loading only appends.  On a connection where no statement fails,
    for a table name that is an identifier, the rows that the table held
    stay as they were, in place and in order; behind them the call stores
    the records of the batch that no row matched at their turn, in the
    order of the batch and as the columns keep them, none of which matched
    a row held before; the other tables are not touched; and in the end
    every record of the batch with at most 255 characters in [created_at]
    and [user_id] is matched by a stored row. *)
Theorem load_appends (table_name : string) (vdata : list Canonical)
  (w : World) (rows : list StoredRow) :
  identifier table_name = true ->
  fault_free (w_db w) = true ->
  session (w_db w) !! fold_name table_name = Some rows ->
  let w' := snd (load_data_to_db table_name vdata w) in
  exists kept,
    sublist kept vdata
    /\ committed (w_db w')
       = <[fold_name table_name := (rows ++ map stored kept)%list]>
           (session (w_db w))
    /\ Forall (fun row => ~ matched rows row) kept
    /\ Forall (fun row => fits row ->
                          matched (rows ++ map stored kept) row) vdata.
Proof.
  intros _ Hff Hrows w'.
  destruct (load_rows_kept vdata rows) as (kept & Hsub & Hkept & Hnew & _).
  exists kept. split; [done|]. rewrite <- Hkept.
  split; [|split; [done | apply load_rows_matched]].
  destruct (load_data_to_db_ok table_name vdata w rows Hff Hrows)
    as (_ & _ & Hs & Hc).
  fold w' in Hs, Hc. by rewrite Hc, Hs.
Qed.

(** X10: the number that the loader logs as skipped lines.  On a
    connection where no statement fails the call logs three lines, the
    second carrying [skipped_count]; that number adds up the stored rows
    that matched each record, so it is at least the number of records left
    out, it is zero only when every record was inserted, and it is larger
    than the number of records left out when a record matches several
    rows: one record against two matching rows logs 2. *)
Theorem skipped_count_logged (table_name : string) (vdata : list Canonical)
  (w : World) (rows : list StoredRow) :
  fault_free (w_db w) = true ->
  session (w_db w) !! fold_name table_name = Some rows ->
  let w' := snd (load_data_to_db table_name vdata w) in
  (exists skipped_count kept,
     w_log w' =
     (w_log w
      ++ [LogInfo "Loading data to the db table...";
          LogCount "Checking previously loaded data found and skipped lines."
            skipped_count;
          LogInfo "Data loaded to the database successfully!"])%list
     /\ committed (w_db w') !! fold_name table_name
        = Some (rows ++ map stored kept)%list
     /\ (Z.of_nat (length vdata) - Z.of_nat (length kept) <= skipped_count)%Z
     /\ (skipped_count = 0%Z -> kept = vdata))
  /\ w_log (snd (load_data_to_db "ppf_2024_may" [record_no_user]
                   (world_with_table "ppf_2024_may" two_rows_no_user)))
     = [LogInfo "Loading data to the db table...";
        LogCount "Checking previously loaded data found and skipped lines." 2;
        LogInfo "Data loaded to the database successfully!"].
Proof.
  intros Hff Hrows w'. split; [|vm_compute; reflexivity].
  destruct (load_rows_kept vdata rows) as (kept & _ & Hkept & _ & Hlen & Hall).
  exists (skipped_total vdata rows), kept.
  split; [|split; [|by split]].
  - subst w'. unfold load_data_to_db.
    rewrite bind_eq. cbn [logger_info log_add].
    rewrite try_except_eq, bind_eq.
    set (w0 := mkWorld _ _ _ _ _ _ _ _ _).
    pose proof (load_loop_skipped table_name vdata 1%nat 0%Z w0 rows Hff Hrows)
      as Hsk.
    destruct (load_loop_ok table_name vdata 1%nat 0%Z w0 rows Hff Hrows)
      as (skipped & w1 & Hloop & Hff1 & _ & Hl1 & _).
    rewrite Hloop in Hsk |- *. simpl in Hsk. injection Hsk as ->.
    rewrite bind_eq. cbn [log_add]. rewrite bind_eq.
    set (w2 := mkWorld _ _ _ _ _ _ _ _ _).
    rewrite (con_commit_ok w2 Hff1).
    cbn [logger_info log_add snd w_log set_db]. subst w2. cbn [w_log].
    rewrite Hl1. subst w0. cbn [w_log]. by rewrite <- !app_assoc.
  - destruct (load_data_to_db_rows table_name vdata w rows Hff Hrows)
      as (Hc & _).
    fold w' in Hc. by rewrite Hc, Hkept.
Qed.

End LoaderMore.


(** [load_appends] on a table that holds one attempt of user u1, with a
    batch of one record without user. *)
Lemma load_appends_witness :
  exists kept,
    sublist kept [record_no_user]
    /\ committed
         (w_db (snd (Database.load_data_to_db "ppf_2024_may" [record_no_user]
                       (world_with_table "ppf_2024_may" [stored_u1]))))
       = <[fold_name "ppf_2024_may" :=
             ([stored_u1] ++ map stored kept)%list]>
           (session (w_db (world_with_table "ppf_2024_may" [stored_u1])))
    /\ Forall (fun row => ~ matched [stored_u1] row) kept
    /\ Forall (fun row => fits row ->
                          matched ([stored_u1] ++ map stored kept) row)
         [record_no_user].
Proof.
  apply (load_appends "ppf_2024_may" [record_no_user]
           (world_with_table "ppf_2024_may" [stored_u1]) [stored_u1]).
  - vm_compute. reflexivity.
  - vm_compute. reflexivity.
  - vm_compute. reflexivity.
Defined.

(** [skipped_count_logged] on a table that holds two rows without user,
    with a batch of one record that both match. *)
Lemma skipped_count_logged_witness :
  exists skipped_count kept,
    w_log (snd (Database.load_data_to_db "ppf_2024_may" [record_no_user]
                  (world_with_table "ppf_2024_may" two_rows_no_user)))
    = ([] ++ [LogInfo "Loading data to the db table...";
              LogCount
                "Checking previously loaded data found and skipped lines."
                skipped_count;
              LogInfo "Data loaded to the database successfully!"])%list
    /\ committed
         (w_db (snd (Database.load_data_to_db "ppf_2024_may" [record_no_user]
                       (world_with_table "ppf_2024_may" two_rows_no_user))))
       !! fold_name "ppf_2024_may"
       = Some (two_rows_no_user ++ map stored kept)%list
    /\ (Z.of_nat (length [record_no_user]) - Z.of_nat (length kept)
        <= skipped_count)%Z
    /\ (skipped_count = 0%Z -> kept = [record_no_user]).
Proof.
  refine (proj1 (skipped_count_logged "ppf_2024_may" [record_no_user]
                   (world_with_table "ppf_2024_may" two_rows_no_user)
                   two_rows_no_user _ _)).
  - vm_compute. reflexivity.
  - vm_compute. reflexivity.
Defined.

(** ** The tables *)

Section TablesMore.
Import Database.

(** [create_table] on a fault-free connection: the table exists under the
    name as it is given; or no table has the name, as given or folded, and
    it is created under the folded name; or the folded name is taken, and
    the CREATE statement is in error. *)
Lemma create_table_fault_free table_name w :
  fault_free (w_db w) = true ->
  let w' := snd (create_table table_name w) in
  match session (w_db w) !! table_name with
  | Some rows =>
      fault_free (w_db w') = true
      /\ session (w_db w') = session (w_db w)
      /\ committed (w_db w') = committed (w_db w)
      /\ w_log w' = (w_log w ++ [LogInfo "Creating table stage...";
                                 LogInfo "Table already exists."])%list
  | None =>
      match session (w_db w) !! fold_name table_name with
      | None =>
          fault_free (w_db w') = true
          /\ session (w_db w')
             = <[fold_name table_name := []]> (session (w_db w))
          /\ committed (w_db w') = session (w_db w')
          /\ w_log w' = (w_log w ++ [LogInfo "Creating table stage...";
                                     LogInfo "Table created successfully!"])%list
      | Some rows =>
          aborted (w_db w') = true
          /\ session (w_db w') = session (w_db w)
          /\ committed (w_db w') = committed (w_db w)
          /\ w_log w' = (w_log w ++ [LogInfo "Creating table stage...";
                                     LogError "Error creating table"
                                       (Some Psycopg2Error)])%list
      end
  end.
Proof.
  intros Hff. cbv zeta. unfold create_table.
  rewrite bind_eq. cbn [logger_info log_add].
  rewrite try_except_eq, bind_eq.
  set (w0 := mkWorld _ _ _ _ _ _ _ _ _).
  assert (Hff0 : fault_free (w_db w0) = true) by exact Hff.
  erewrite cur_execute_ok; [|exact Hff0 | reflexivity].
  set (w1 := set_db _ w0).
  assert (Hff1 : fault_free (w_db w1) = true) by by apply set_db_fault_free.
  change (session (w_db w0)) with (session (w_db w)).
  destruct (session (w_db w) !! table_name) as [rows|] eqn:Hrows; cbn [negb].
  - split; [exact Hff1|]. subst w1 w0.
    cbn [logger_info log_add snd w_db w_log set_db session committed].
    split; [done|]. split; [done|]. by rewrite <- app_assoc.
  - rewrite bind_eq.
    destruct (session (w_db w) !! fold_name table_name) as [rows|] eqn:Hfold.
    + erewrite cur_execute_error;
        [|exact Hff1
         | unfold create_table_query; change (session (w_db w1))
             with (session (w_db w)); rewrite Hfold; reflexivity].
      cbn [isinstance_psycopg2_Error logger_error log_add snd w_db w_log
           set_db fail_txn session committed aborted].
      subst w1 w0.
      cbn [w_db w_log set_db session committed].
      split; [done|]. split; [done|]. split; [done|].
      by rewrite <- app_assoc.
    + erewrite cur_execute_ok;
        [|exact Hff1
         | unfold create_table_query; change (session (w_db w1))
             with (session (w_db w)); rewrite Hfold; reflexivity].
      set (w2 := set_db _ w1).
      assert (Hff2 : fault_free (w_db w2) = true)
        by by apply set_db_fault_free.
      rewrite bind_eq, (con_commit_ok w2 Hff2).
      split.
      { cbn [logger_info log_add snd w_db set_db].
        by apply fault_free_inv in Hff2 as (_ & _ & Hf). }
      subst w2 w1 w0.
      cbn [logger_info log_add snd w_db w_log set_db session committed].
      split; [done|]. split; [done|]. by rewrite <- app_assoc.
Qed.


Lemma NoDup_List_filter {A} (f : A -> bool) (l : list A) :
  NoDup l -> NoDup (List.filter f l).
Proof.
  induction 1 as [|x l Hx Hl IH]; simpl; [constructor|].
  destruct (f x); [|exact IH]. constructor; [|exact IH].
  rewrite list_elem_of_In, filter_In, <- list_elem_of_In. tauto.
Qed.

(** X12: [get_all_tables] lists the tables whose name begins with pp and
    changes none.  It never raises: either it returns the names, each
    table of the session whose name begins with pp once and no other name,
    logs their number and leaves the tables as they are; or the query
    failed, it logs the error, returns [None] and commits nothing. *)
Theorem get_all_tables_spec (w : World) :
  let w' := snd (get_all_tables w) in
  (exists tables,
     fst (get_all_tables w) = Ret (Some tables)
     /\ NoDup tables
     /\ (forall name,
           name ∈ tables <->
           starts_with_pp name = true /\ is_Some (session (w_db w) !! name))
     /\ session (w_db w') = session (w_db w)
     /\ committed (w_db w') = committed (w_db w)
     /\ w_log w' =
        (w_log w
         ++ [LogCount "The database contains tables named python_project"
               (Z.of_nat (length tables))])%list)
  \/ (fst (get_all_tables w) = Ret None
      /\ committed (w_db w') = committed (w_db w)
      /\ w_log w' =
         (w_log w ++ [LogError "Error selecting tables from the database"
                        (Some Psycopg2Error)])%list).
Proof.
  cbv zeta. unfold get_all_tables. rewrite try_except_eq, bind_eq.
  pose proof (cur_execute_cases [] select_pp_tables w) as H1.
  destruct (cur_execute _ _ w) as [[l|e|c] w1].
  - left. destruct H1 as (_ & Hl & tables & Hsel & Hdb).
    unfold select_pp_tables in Hsel. injection Hsel as <- <-.
    eexists. split; [reflexivity|].
    rewrite bind_eq. cbn [log_add ret fst snd w_db w_log].
    rewrite Hdb, Hl. cbn [session committed].
    split; [|split; [|done]].
    + apply NoDup_List_filter. exact (NoDup_fst_map_to_list _).
    + intros name. rewrite list_elem_of_In, filter_In, in_map_iff. split.
      * intros [([n rows] & <- & Hin) Hpp]. split; [done|].
        apply list_elem_of_In, elem_of_map_to_list in Hin. by exists rows.
      * intros [Hpp [rows Hrows]]. split; [|done].
        exists (name, rows). split; [done|].
        by apply list_elem_of_In, elem_of_map_to_list.
  - right. destruct H1 as (Hc & Hl & [[-> _]|([=] & _)]).
    cbn [isinstance_psycopg2_Error]. rewrite bind_eq.
    cbn [logger_error log_add ret snd fst w_db w_log].
    by rewrite Hl.
  - done.
Qed.

End TablesMore.

(* ===================================================================== *)
(** * More on the aggregator *)
(* ===================================================================== *)

Section ReportFacts.
#[local] Open Scope Z_scope.

Lemma total_od_set m d k x :
  m [] = 0 -> (forall l, m (l ++ [x])%list = m l + m [x]) ->
  total m (od_set d k (default [] (od_get d k) ++ [x])%list)
  = total m d + m [x].
Proof.
  intros Hnil Hsnoc. induction d as [|[k' v'] d IH].
  - cbn [od_get od_set total default]. rewrite Hsnoc, Hnil. lia.
  - cbn [od_get od_set]. destruct (String.eqb k' k).
    + cbn [total default id]. rewrite Hsnoc. lia.
    + cbn [total]. rewrite IH. lia.
Qed.

Lemma od_keys_od_set {V} (d : odict V) k v :
  In k (od_keys d) /\ od_keys (od_set d k v) = od_keys d
  \/ ~ In k (od_keys d) /\ od_keys (od_set d k v) = (od_keys d ++ [k])%list.
Proof.
  induction d as [|[k' v'] d IH];
    [right; split; [by intros [] | reflexivity]|].
  cbn [od_set od_keys map fst]. fold (od_keys d).
  destruct (String.eqb_spec k' k) as [->|Hne].
  - left. split; [by left | reflexivity].
  - cbn [od_keys map fst]. fold (od_keys (od_set d k v)).
    destruct IH as [[Hin ->]|[Hin ->]].
    + left. split; [by right | reflexivity].
    + right. split; [|reflexivity]. intros [?|?]; congruence.
Qed.

Lemma Forall_od_set {V} (Q : V -> Prop) (d : odict V) k v :
  Forall (fun kv => Q (snd kv)) d -> Q v ->
  Forall (fun kv => Q (snd kv)) (od_set d k v).
Proof.
  intros Hd Hv. induction Hd as [|[k' v'] d Hx Hd IH]; simpl.
  - by constructor.
  - destruct (String.eqb k' k); constructor; done.
Qed.

Lemma sum_fold_right l : PyArith.sum l = fold_right Z.add 0 l.
Proof.
  unfold PyArith.sum.
  assert (H : forall a, fold_left Z.add l a = a + fold_right Z.add 0 l).
  { induction l as [|x l IH]; intros a; simpl; [lia|]. rewrite IH. lia. }
  rewrite H. lia.
Qed.

Lemma sum_total (f : Z * Z * Z * Z -> Z) d :
  PyArith.sum (map f (map summary (od_values d)))
  = total (fun acts => f (summary acts)) d.
Proof.
  rewrite sum_fold_right. unfold od_values.
  induction d as [|[k acts] d IH]; [reflexivity|].
  cbn [map snd fold_right total]. by rewrite IH.
Qed.

Lemma count_acts_snoc p l x :
  count_acts p (l ++ [x])%list = count_acts p l + count_acts p [x].
Proof.
  unfold count_acts. rewrite List.filter_app, List.length_app. lia.
Qed.

Lemma count_acts_single p x :
  count_acts p [x] = if p (snd x) then 1 else 0.
Proof. unfold count_acts. simpl. by destruct (p (snd x)). Qed.

Lemma included_snoc data row :
  included (data ++ [row])
  = (included data
     ++ match user_id row with Some _ => [row] | None => [] end)%list.
Proof.
  unfold included. rewrite List.filter_app. simpl. by destruct (user_id row).
Qed.

Lemma rows_where_snoc p data row :
  rows_where p (data ++ [row]) =
  rows_where p data
  + match user_id row with
    | Some _ => if p (is_correct row) then 1 else 0
    | None => 0
    end.
Proof.
  unfold rows_where. rewrite included_snoc, List.filter_app, List.length_app.
  destruct (user_id row); simpl; [|lia].
  destruct (p (is_correct row)); simpl; lia.
Qed.

Lemma figures_step data a row a' :
  figures data a -> step a row = Ret a' -> figures (data ++ [row]) a'.
Proof.
  intros (Hall & Hrun & Hsub & Hsuc & Tall & Trun & Tsub & Tsuc & Hnd & Hkeys
          & Htok & Hne).
  unfold step, figures.
  rewrite !rows_where_snoc, included_snoc, length_app.
  destruct (user_id row) as [user|] eqn:Huser.
  - destruct (hour_of (created_at row)) as [hour|e|c] eqn:Hhour;
      try discriminate.
    cbn [obind]. intros [= <-].
    cbn [acc_all_attempts acc_run_attempts acc_submits acc_successfull_submits
         users_acts Aggregator.time_d].
    rewrite !total_od_set;
      [|reflexivity | intros; apply count_acts_snoc
       |reflexivity | intros; apply count_acts_snoc
       |reflexivity | intros; apply count_acts_snoc
       |reflexivity | intros; rewrite List.length_app; simpl; lia].
    rewrite Tall, Trun, Tsub, Tsuc, !count_acts_single. cbn [snd length].
    split; [lia|]. split; [lia|]. split; [lia|]. split; [lia|].
    split; [lia|].
    split; [destruct (is_none _); lia|].
    split; [destruct (is_none _); cbn [negb]; lia|].
    split; [destruct (eq_int _ _); lia|].
    destruct (od_keys_od_set (users_acts a) user
                (default [] (od_get (users_acts a) user)
                 ++ [(created_at row, is_correct row)])%list)
      as [[Hd ->]|[Hd ->]].
    all: split; [|split; [|split;
           [|apply (Forall_od_set (fun acts => acts <> []));
            [exact Hne | by destruct (default _ _)]]]].
    + done.
    + intros u. rewrite Hkeys. split.
      * intros (r & Hin & Hr). exists r. split; [|done].
        apply in_or_app. by left.
      * intros (r & Hin & Hr). apply in_app_or in Hin as [Hin|[<-|[]]].
        -- by exists r.
        -- apply Hkeys. congruence.
    + apply Forall_app. split; [done|]. constructor; [|constructor].
      exists hour. by apply hour_token_iff.
    + apply NoDup_app. split; [done|]. split; [|apply NoDup_singleton].
      intros x Hx Hx'. apply list_elem_of_In in Hx.
      apply list_elem_of_In in Hx' as [->|[]]. done.
    + intros u. rewrite in_app_iff, Hkeys. split.
      * intros [(r & Hin & Hr)|[<-|[]]].
        -- exists r. split; [|done]. apply in_or_app. by left.
        -- exists row. split; [|done]. apply in_or_app. right. by left.
      * intros (r & Hin & Hr). apply in_app_or in Hin as [Hin|[<-|[]]].
        -- left. by exists r.
        -- right. left. congruence.
    + apply Forall_app. split; [done|]. constructor; [|constructor].
      exists hour. by apply hour_token_iff.
  - intros [= <-]. rewrite app_nil_r. simpl length. rewrite !Z.add_0_r.
    rewrite Nat.add_0_r.
    do 9 (split; [assumption|]). split; [|by split].
    intros u. rewrite Hkeys. split.
    + intros (r & Hin & Hr). exists r. split; [|done].
      apply in_or_app. by left.
    + intros (r & Hin & Hr). apply in_app_or in Hin as [Hin|[<-|[]]].
      * by exists r.
      * congruence.
Qed.

Lemma figures_loop data : forall pre a a',
  figures pre a -> loop data a = Ret a' -> figures (pre ++ data) a'.
Proof.
  induction data as [|row data IH]; intros pre a a' Hfig Hloop.
  - simpl in Hloop. injection Hloop as <-. by rewrite app_nil_r.
  - simpl in Hloop.
    destruct (step a row) as [a1|e|c] eqn:Hstep; try discriminate.
    cbn [obind] in Hloop.
    replace (pre ++ row :: data)%list with ((pre ++ [row]) ++ data)%list
      by by rewrite <- app_assoc.
    eapply IH; [|exact Hloop]. by eapply figures_step.
Qed.

Lemma figures_acc0 : figures [] acc0.
Proof.
  unfold figures. simpl. repeat (split; [done|]).
  split; [constructor|]. split; [|split; constructor].
  intros u. split; [done|]. by intros (r & [] & _).
Qed.


Lemma figures_report data a :
  loop data acc0 = Ret a -> figures data a.
Proof. intros Hloop. exact (figures_loop data [] acc0 a figures_acc0 Hloop). Qed.

(** Records without user do not enter the loop. *)
Lemma loop_included data : forall a, loop (included data) a = loop data a.
Proof.
  induction data as [|row data IH]; intros a; [reflexivity|].
  unfold included. cbn [List.filter]. fold (included data).
  destruct (user_id row) as [user|] eqn:Huser.
  - cbn [loop]. destruct (step a row); cbn [obind]; [apply IH|done..].
  - cbn [loop]. unfold step. rewrite Huser. cbn [obind]. apply IH.
Qed.

Lemma rows_where_pos p data :
  0 < rows_where p data ->
  Exists (fun row => user_id row <> None /\ p (is_correct row) = true) data.
Proof.
  unfold rows_where. intros Hpos.
  destruct (List.filter _ (included data)) as [|row l] eqn:Hf;
    [simpl in Hpos; lia|].
  assert (Hin : In row (List.filter (fun row => p (is_correct row))
                          (included data))) by (rewrite Hf; by left).
  apply filter_In in Hin as [Hin Hp]. unfold included in Hin.
  apply filter_In in Hin as [Hin Hu].
  apply Exists_exists. exists row. split; [by apply list_elem_of_In|].
  split; [by destruct (user_id row) | done].
Qed.

Lemma rows_where_split p data :
  rows_where p data + rows_where (fun v => negb (p v)) data
  = Z.of_nat (length (included data)).
Proof.
  unfold rows_where. induction (included data) as [|row l IH]; [done|].
  simpl. destruct (p (is_correct row)); simpl; lia.
Qed.

Lemma rows_where_le p q data :
  (forall v, p v = true -> q v = true) ->
  0 <= rows_where p data <= rows_where q data.
Proof.
  intros Hpq. unfold rows_where.
  induction (included data) as [|row l IH]; [simpl; lia|].
  simpl. destruct (p (is_correct row)) eqn:Hp.
  - rewrite (Hpq _ Hp). simpl. lia.
  - destruct (q (is_correct row)); simpl; lia.
Qed.

Lemma total_length_ge (d : odict (list (string * pyobj))) :
  Forall (fun kv => snd kv <> []) d ->
  Z.of_nat (length d) <= total (fun acts => Z.of_nat (length acts)) d.
Proof.
  induction 1 as [|[k acts] d Hx Hd IH]; [simpl; lia|].
  cbn [total length]. destruct acts; [done|]. simpl length. lia.
Qed.

(** What [calc_body] returns, from what the loop returns. *)
Lemma calc_body_Ret data r :
  calc_body data = Ret r ->
  exists a,
    loop data acc0 = Ret a
    /\ acc_submits a <> 0
    /\ all_attempts r = acc_all_attempts a
    /\ run_attempts r = acc_run_attempts a
    /\ submits r = acc_submits a
    /\ successfull_submits r = acc_successfull_submits a
    /\ unique_users r = Z.of_nat (length (users_acts a))
    /\ avg_attempts_per_user r
       = per_user (total (fun acts => Z.of_nat (length acts)) (users_acts a))
           (Z.of_nat (length (users_acts a)))
    /\ avg_run_attempts_per_user r
       = per_user (total (count_acts is_none) (users_acts a))
           (Z.of_nat (length (users_acts a)))
    /\ avg_submits_per_user r
       = per_user (total (count_acts (fun v => negb (is_none v)))
                     (users_acts a))
           (Z.of_nat (length (users_acts a)))
    /\ avg_successfull_submits_per_user r
       = per_user (total (count_acts (fun v => eq_int v 1)) (users_acts a))
           (Z.of_nat (length (users_acts a))).
Proof.
  unfold calc_body.
  destruct (loop data acc0) as [a|e|c] eqn:Hloop; try discriminate.
  cbn [obind]. unfold truediv.
  destruct (Z.eqb_spec (acc_submits a) 0) as [Hz|Hnz]; [discriminate|].
  cbn [obind].
  destruct (max_key (Aggregator.time_d a)) as [h|e|c]; try discriminate.
  cbn [obind].
  assert (Hmean : forall f : Z * Z * Z * Z -> Z,
    users_acts a <> [] ->
    PyArith.mean (map f (map summary (od_values (users_acts a))))
    = Ret (if total (fun acts => f (summary acts)) (users_acts a)
              mod Z.of_nat (length (users_acts a)) =? 0
           then NInt (total (fun acts => f (summary acts)) (users_acts a)
                      / Z.of_nat (length (users_acts a)))
           else NFloat (int_truediv
                          (total (fun acts => f (summary acts)) (users_acts a))
                          (Z.of_nat (length (users_acts a)))))).
  { intros f Hne. unfold PyArith.mean.
    rewrite sum_total. unfold od_values. rewrite !length_map.
    destruct (users_acts a) as [|kv ua]; [done|]. cbn [map].
    by destruct (_ =? 0). }
  destruct (users_acts a) as [|kv ua] eqn:Hua; [discriminate|].
  rewrite <- Hua in *.
  assert (Hne : users_acts a <> []) by by rewrite Hua.
  rewrite !Hmean by done. cbn [obind].
  intros [= <-]. exists a. cbn.
  split; [done|]. split; [done|]. do 5 (split; [reflexivity|]).
  unfold per_user.
  repeat split; match goal with
                | |- context [if ?b then _ else _] => by destruct b
                end.
Qed.

(** The aggregation never ends the process. *)
Lemma loop_no_exit data c : forall a, loop data a <> Exit c.
Proof.
  induction data as [|row data IH]; intros a; [done|].
  simpl. unfold step.
  destruct (user_id row); [|apply IH].
  unfold hour_of.
  destruct (getitem (split " " (created_at row)) 1) as [x|e|c0] eqn:H1;
    cbn [obind].
  - destruct (getitem (split ":" x) 0) as [y|e|c0] eqn:H2; cbn [obind];
      [apply IH | done |].
    unfold getitem in H2. by destruct (nth_error _ _).
  - done.
  - unfold getitem in H1. by destruct (nth_error _ _).
Qed.

Lemma calc_body_no_exit data c : calc_body data <> Exit c.
Proof.
  unfold calc_body.
  destruct (loop data acc0) as [a|e|c'] eqn:Hloop; cbn [obind].
  - unfold truediv. destruct (_ =? 0); [done|]. cbn [obind].
    unfold max_key. destruct (od_keys _); [done|]. cbn [obind].
    unfold PyArith.mean.
    repeat match goal with
           | |- context [match ?x with _ => _ end] =>
               destruct x; cbn [obind]; try discriminate
           end.
  - done.
  - by destruct (loop_no_exit data c' acc0).
Qed.

Lemma calc_for_gsheets_returns data w :
  fst (calc_for_gsheets data w) = Ret None
  \/ exists r, fst (calc_for_gsheets data w) = Ret (Some r).
Proof.
  rewrite calc_for_gsheets_eq.
  destruct (calc_body data) as [r|e|c] eqn:Hbody;
    [right; by eexists | by left |].
  by destruct (calc_body_no_exit data c).
Qed.

Lemma calc_for_gsheets_frame data w :
  same_but_log w (snd (calc_for_gsheets data w)).
Proof.
  rewrite calc_for_gsheets_eq.
  destruct (calc_body data) as [r|e|c]; cbn [logger_info logger_error];
    [apply same_but_log_add | apply same_but_log_add | apply same_but_log_refl].
Qed.

(** A report is returned only for a batch with a graded attempt of an
    identified user whose included records all have an hour token. *)
Lemma report_only_if data w r :
  fst (calc_for_gsheets data w) = Ret (Some r) ->
  Exists graded data
  /\ Forall (fun row => exists h, hour_token (created_at row) h)
       (included data).
Proof.
  intros Hr. rewrite calc_for_gsheets_eq in Hr.
  destruct (calc_body data) as [r'|e|c] eqn:Hbody; try discriminate.
  destruct (calc_body_Ret _ _ Hbody) as (a & Hloop & Hnz & _).
  destruct (figures_report _ _ Hloop)
    as (_ & _ & Hsub & _ & _ & _ & _ & _ & _ & _ & Htok & _).
  split; [|exact Htok].
  assert (Hpos : 0 < rows_where (fun v => negb (is_none v)) data).
  { pose proof (rows_where_le (fun v => negb (is_none v))
                  (fun v => negb (is_none v)) data ltac:(done)). lia. }
  apply rows_where_pos in Hpos.
  eapply Exists_impl; [exact Hpos|]. intros row [Hu Hg].
  split; [done|]. by destruct (is_none (is_correct row)).
Qed.

(** Without a graded attempt of an identified user the division by the
    number of submits fails. *)
Lemma calc_body_no_submit data :
  ~ Exists graded data ->
  Forall (fun row => exists h, hour_token (created_at row) h)
    (included data) ->
  calc_body data = Raise ZeroDivisionError.
Proof.
  intros Hno Htok.
  destruct (loop_total data acc0 Htok) as [a Hloop].
  destruct (figures_report _ _ Hloop) as (_ & _ & Hsub & _).
  assert (Hz : acc_submits a = 0).
  { pose proof (rows_where_le (fun v => negb (is_none v))
                  (fun v => negb (is_none v)) data ltac:(done)) as Hle.
    destruct (Z.eq_dec (acc_submits a) 0) as [|Hnz]; [done|].
    exfalso. apply Hno.
    assert (Hpos : 0 < rows_where (fun v => negb (is_none v)) data) by lia.
    apply rows_where_pos in Hpos.
    eapply Exists_impl; [exact Hpos|]. intros row [Hu Hg].
    split; [done|]. by destruct (is_none (is_correct row)). }
  unfold calc_body, truediv. rewrite Hloop. cbn [obind].
  rewrite Hz. reflexivity.
Qed.

(** X13: when there is a report.  [calc_for_gsheets] never raises and
    touches nothing but the log.  It returns a report exactly when some
    record has a user and a grade, and every record with a user has an hour
    token in [created_at]; in every other case it logs the error and
    returns [None]. *)
Theorem report_iff (data : list Canonical) (w : World) :
  ((exists r, fst (calc_for_gsheets data w) = Ret (Some r)) <->
   Exists graded data
   /\ Forall (fun row => exists h, hour_token (created_at row) h)
        (included data))
  /\ (fst (calc_for_gsheets data w) = Ret None
      \/ exists r, fst (calc_for_gsheets data w) = Ret (Some r))
  /\ same_but_log w (snd (calc_for_gsheets data w)).
Proof.
  split; [split|split].
  - intros [r Hr]. by apply (report_only_if data w r).
  - intros [Hg Htok]. destruct (report_exists data Hg Htok) as [r Hr].
    exists r. apply Hr.
  - apply calc_for_gsheets_returns.
  - apply calc_for_gsheets_frame.
Qed.

(** X14: what the counts of a report are.  In a report the number of
    attempts is the number of records with a user; run attempts are those
    without grade and submits those with one, so the two add up to the
    attempts; successful submits are the submits whose grade equals 1, at
    most the submits, of which there is at least one; the unique users are
    the distinct user ids of the batch, at least one and at most the
    attempts.  Records without user change nothing: the batch and its
    records with a user have the same report and log line. *)
Theorem report_counts (data : list Canonical) (w : World) (r : Report) :
  fst (calc_for_gsheets data w) = Ret (Some r) ->
  all_attempts r = Z.of_nat (length (included data))
  /\ run_attempts r = rows_where is_none data
  /\ submits r = rows_where (fun v => negb (is_none v)) data
  /\ successfull_submits r = rows_where (fun v => eq_int v 1) data
  /\ run_attempts r + submits r = all_attempts r
  /\ 0 <= successfull_submits r <= submits r
  /\ 1 <= submits r
  /\ (exists users,
        NoDup users
        /\ (forall u, In u users <->
                      exists row, In row data /\ user_id row = Some u)
        /\ unique_users r = Z.of_nat (length users))
  /\ 1 <= unique_users r <= all_attempts r
  /\ calc_for_gsheets (included data) w = calc_for_gsheets data w.
Proof.
  intros Hr. rewrite calc_for_gsheets_eq in Hr.
  destruct (calc_body data) as [r'|e|c] eqn:Hbody; try discriminate.
  injection Hr as ->.
  destruct (calc_body_Ret _ _ Hbody)
    as (a & Hloop & Hnz & -> & -> & -> & -> & -> & _).
  destruct (figures_report _ _ Hloop)
    as (Hall & Hrun & Hsub & Hsuc & Tall & _ & _ & _ & Hnd & Hkeys & _ & Hne).
  pose proof (rows_where_split is_none data) as Hsplit.
  pose proof (rows_where_le (fun v => eq_int v 1)
                (fun v => negb (is_none v)) data) as Hle.
  pose proof (total_length_ge _ Hne) as Hge.
  assert (Hpos : 0 < rows_where (fun v => negb (is_none v)) data).
  { pose proof (rows_where_le (fun v => negb (is_none v))
                  (fun v => negb (is_none v)) data ltac:(done)). lia. }
  assert (Hua : users_acts a <> []).
  { intros Hnil. rewrite Hnil in Tall. simpl in Tall.
    pose proof (rows_where_le (fun v => negb (is_none v)) (fun _ => true) data
                  ltac:(done)) as [_ Hb].
    pose proof (rows_where_le is_none (fun _ => true) data ltac:(done)).
    lia. }
  split; [done|]. split; [done|]. split; [done|]. split; [done|].
  split; [lia|].
  split; [rewrite Hsuc, Hsub; apply Hle; by intros []|]. split; [lia|].
  split; [|split].
  - exists (od_keys (users_acts a)). split; [done|]. split; [done|].
    unfold od_keys. by rewrite length_map.
  - destruct (users_acts a); [done|]. simpl length in *. lia.
  - rewrite !calc_for_gsheets_eq. unfold calc_body.
    by rewrite loop_included.
Qed.

(** X15: the averages of a report are its totals divided among its users.
    Each of the four averages per user is the matching total of the report
    divided by the number of unique users: the whole number when the
    division is exact, and else the quotient as a float rounded to one
    decimal. *)
Theorem report_averages (data : list Canonical) (w : World) (r : Report) :
  fst (calc_for_gsheets data w) = Ret (Some r) ->
  avg_attempts_per_user r = per_user (all_attempts r) (unique_users r)
  /\ avg_run_attempts_per_user r = per_user (run_attempts r) (unique_users r)
  /\ avg_submits_per_user r = per_user (submits r) (unique_users r)
  /\ avg_successfull_submits_per_user r
     = per_user (successfull_submits r) (unique_users r).
Proof.
  intros Hr. rewrite calc_for_gsheets_eq in Hr.
  destruct (calc_body data) as [r'|e|c] eqn:Hbody; try discriminate.
  injection Hr as ->.
  destruct (calc_body_Ret _ _ Hbody)
    as (a & Hloop & Hnz & -> & -> & -> & -> & -> & -> & -> & -> & ->).
  destruct (figures_report _ _ Hloop)
    as (_ & _ & _ & _ & -> & -> & -> & -> & _).
  done.
Qed.

(** C8 on the code: the peak activity hour is computed as stated, the
    hour token of each record of an identified user extracted from its
    [created_at], the tokens tallied, and the hour of greatest tally
    reported, the one encountered first among those that tie; but a batch
    with an identified-user record is not enough for it to be reported.
    The report, and the peak hour in it, exist when some record of an
    identified user has a grade and every included record has an hour
    token; when no record of an identified user has a grade, the division
    by the number of submits raises [ZeroDivisionError] and
    [calc_for_gsheets] returns [None], whatever the hours are. *)
Theorem peak_activity_hour (data : list Canonical) (w : World) :
  (forall r,
     fst (calc_for_gsheets data w) = Ret (Some r) ->
     exists hours,
       Forall2 (fun row h => hour_token (created_at row) h) (included data)
         hours
       /\ peak_hour hours (max_activity_hour r))
  /\ (Exists graded data ->
      Forall (fun row => exists h, hour_token (created_at row) h)
        (included data) ->
      exists r hours,
        fst (calc_for_gsheets data w) = Ret (Some r)
        /\ Forall2 (fun row h => hour_token (created_at row) h)
             (included data) hours
        /\ peak_hour hours (max_activity_hour r))
  /\ (~ Exists graded data ->
      fst (calc_for_gsheets data w) = Ret None)
  /\ (~ Exists graded data ->
      Forall (fun row => exists h, hour_token (created_at row) h)
        (included data) ->
      calc_for_gsheets data w =
      (Ret None,
       snd (logger_error "Error calc/aggregate data for Google Sheets"
              (Some ZeroDivisionError) w))).
Proof.
  assert (Hpeak : forall r,
    fst (calc_for_gsheets data w) = Ret (Some r) ->
    exists hours,
      Forall2 (fun row h => hour_token (created_at row) h) (included data)
        hours
      /\ peak_hour hours (max_activity_hour r)).
  { intros r. rewrite calc_for_gsheets_eq.
    destruct (calc_body data) as [r'|e|c] eqn:Hbody; try discriminate.
    intros [= ->].
    apply calc_body_max_hour in Hbody as (a & Hloop & Hmax).
    apply loop_hours in Hloop as (hours & HF & Ht).
    exists hours. split.
    - eapply Forall2_impl; [exact HF|]. intros row h. apply hour_of_token.
    - eapply max_key_peak; [|exact Hmax]. rewrite Ht.
      apply (counts_fold hours [] []), counts_nil. }
  split; [exact Hpeak|]. split; [|split].
  - intros Hg Htok. destruct (report_exists data Hg Htok) as [r Hr].
    destruct (Hpeak r (Hr w)) as (hours & HF & Hp).
    exists r, hours. by split; [apply Hr|].
  - intros Hno.
    destruct (calc_for_gsheets_returns data w) as [H|[r Hr]]; [exact H|].
    by destruct (report_only_if data w r Hr) as [Hg _].
  - intros Hno Htok. rewrite calc_for_gsheets_eq.
    by rewrite (calc_body_no_submit data Hno Htok).
Qed.

End ReportFacts.

(** [report_counts] on the three attempts of user u1. *)
Lemma report_counts_witness :
  all_attempts report_three_attempts
  = Z.of_nat (length (included three_attempts))
  /\ (run_attempts report_three_attempts + submits report_three_attempts
      = all_attempts report_three_attempts)%Z.
Proof.
  pose proof (report_counts three_attempts (quiet_world [])
                report_three_attempts) as H.
  destruct H as (Hall & _ & _ & _ & Hsum & _).
  - vm_compute. reflexivity.
  - split; [exact Hall | exact Hsum].
Defined.

(** [report_averages] on the three attempts of user u1. *)
Lemma report_averages_witness :
  avg_attempts_per_user report_three_attempts
  = per_user (all_attempts report_three_attempts)
      (unique_users report_three_attempts)
  /\ avg_run_attempts_per_user report_three_attempts
     = per_user (run_attempts report_three_attempts)
         (unique_users report_three_attempts)
  /\ avg_submits_per_user report_three_attempts
     = per_user (submits report_three_attempts)
         (unique_users report_three_attempts)
  /\ avg_successfull_submits_per_user report_three_attempts
     = per_user (successfull_submits report_three_attempts)
         (unique_users report_three_attempts).
Proof.
  apply (report_averages three_attempts (quiet_world [])
           report_three_attempts).
  vm_compute. reflexivity.
Defined.

(** [peak_activity_hour] on one run attempt of user u1 at ten: the record
    is of an identified user and has the hour token 10, and there is no
    report; and on the three attempts of user u1, where the tokens are 10,
    10 and 11 and the reported hour is their peak. *)
Lemma peak_activity_hour_witness :
  included [record_ungraded] = [record_ungraded]
  /\ hour_token (created_at record_ungraded) "10"
  /\ fst (calc_for_gsheets [record_ungraded] (quiet_world [])) = Ret None
  /\ exists hours,
       Forall2 (fun row h => hour_token (created_at row) h)
         (included three_attempts) hours
       /\ peak_hour hours "10".
Proof.
  split; [reflexivity|]. split.
  { apply (hour_token_timestamp "2024-05-01" "10" "00:00"); reflexivity. }
  split.
  - apply (proj1 (proj2 (proj2
             (peak_activity_hour [record_ungraded] (quiet_world []))))).
    intros Hex. apply Exists_cons in Hex as [[_ Hg]|Hex]; [discriminate Hg|].
    by apply Exists_nil in Hex.
  - apply (proj1 (peak_activity_hour three_attempts (quiet_world []))
             report_three_attempts).
    vm_compute. reflexivity.
Defined.

(* ===================================================================== *)
(** * The publication *)
(* ===================================================================== *)

Section SheetFacts.

Lemma with_cells_nil w : with_cells [] w = w.
Proof. destruct w. unfold with_cells. simpl. by rewrite app_nil_r. Qed.

Lemma with_cells_app c1 c2 w :
  with_cells c2 (with_cells c1 w) = with_cells (c1 ++ c2) w.
Proof. unfold with_cells. simpl. by rewrite <- app_assoc. Qed.

Lemma update_eq col row v w :
  Sheets.update col row v w =
  if w_gs_update_ok w then (Ret tt, with_cells [(col, row, v)] w)
  else (Raise GSpreadError, w).
Proof. reflexivity. Qed.

Lemma sheet_loop_ok kvs : forall row w,
  w_gs_update_ok w = true ->
  for_each kvs
    (fun (row : nat) '(key, value) =>
       run Sheets.update "A" row (CellText key);
       run Sheets.update "B" row value;
       ret (S row))
    row w
  = (Ret (row + length kvs)%nat, with_cells (sheet_rows kvs row) w).
Proof.
  induction kvs as [|[key value] kvs IH]; intros row w Hok.
  - simpl. by rewrite Nat.add_0_r, with_cells_nil.
  - rewrite for_each_cons. cbv beta iota.
    rewrite bind_eq, update_eq, Hok, bind_eq, update_eq.
    change (w_gs_update_ok (with_cells _ w)) with (w_gs_update_ok w).
    rewrite Hok. cbn [ret]. rewrite IH by done.
    rewrite !with_cells_app. cbn [sheet_rows length app].
    by rewrite Nat.add_succ_r.
Qed.

Lemma sheet_rows_nth kvs : forall row i key value,
  nth_error kvs i = Some (key, value) ->
  In ("A", (row + i)%nat, CellText key) (sheet_rows kvs row)
  /\ In ("B", (row + i)%nat, value) (sheet_rows kvs row).
Proof.
  induction kvs as [|[k v] kvs IH]; intros row i key value Hi.
  - by destruct i.
  - destruct i as [|i]; simpl in Hi.
    + injection Hi as -> ->. rewrite Nat.add_0_r. simpl. tauto.
    + destruct (IH (S row) i key value Hi) as [HA HB].
      rewrite Nat.add_succ_r. simpl in *. tauto.
Qed.

(** X16: what is written to the sheet.
    [load_aggregated_data_to_sheets] never raises.  When the worksheet
    accepts updates and there is a report, it writes the title to A1 and
    then the eleven items of the report in their order, the key of the
    item number i (from 0) to column A and its value to column B of row
    i + 2, and logs the success.  When there is no report it writes the
    title only and logs the [AttributeError].  When the worksheet refuses
    updates nothing is written and the error is logged. *)
Theorem sheet_layout (start_date end_date sheet_name : string)
  (aggregated_data : option Report) (w : World) :
  let r := Sheets.load_aggregated_data_to_sheets start_date end_date
             sheet_name aggregated_data w in
  fst r = Ret tt
  /\ (w_gs_update_ok w = true ->
      forall kvs,
        Sheets.items aggregated_data = Ret kvs ->
        length kvs = 11%nat
        /\ w_sheet (snd r)
           = (w_sheet w ++ sheet_title start_date end_date :: sheet_rows kvs 2)%list
        /\ (forall i key value,
              nth_error kvs i = Some (key, value) ->
              In ("A", (2 + i)%nat, CellText key) (w_sheet (snd r))
              /\ In ("B", (2 + i)%nat, value) (w_sheet (snd r)))
        /\ w_log (snd r)
           = (w_log w
              ++ [LogInfo
                    "Aggregated data successfully loaded to Google Sheets file."])%list)
  /\ (w_gs_update_ok w = true ->
      aggregated_data = None ->
      w_sheet (snd r) = (w_sheet w ++ [sheet_title start_date end_date])%list
      /\ w_log (snd r)
         = (w_log w ++ [LogError "load_aggregated_data_to_sheets"
                          (Some AttributeError)])%list)
  /\ (w_gs_update_ok w = false ->
      w_sheet (snd r) = w_sheet w
      /\ w_log (snd r)
         = (w_log w ++ [LogError "load_aggregated_data_to_sheets"
                          (Some GSpreadError)])%list).
Proof.
  cbv zeta. unfold Sheets.load_aggregated_data_to_sheets.
  rewrite try_except_eq, bind_eq, update_eq.
  destruct (w_gs_update_ok w) eqn:Hok.
  - rewrite bind_eq. unfold lift.
    destruct aggregated_data as [report|].
    + cbn [Sheets.items]. rewrite bind_eq.
      rewrite sheet_loop_ok by exact Hok. rewrite with_cells_app.
      cbn [logger_info log_add fst snd w_sheet w_log with_cells].
      split; [done|]. split; [|split; [done | done]].
      intros _ kvs [= <-]. split; [done|]. split; [done|].
      split; [|done].
      intros i key value Hi.
      destruct (sheet_rows_nth _ 2 i key value Hi) as [HA HB].
      split; apply in_or_app; right; right; assumption.
    + cbn [Sheets.items isinstance_Exception logger_error log_add fst snd
           w_sheet w_log with_cells].
      split; [done|]. split; [done|]. split; [done | done].
  - cbn [isinstance_Exception logger_error log_add fst snd w_sheet w_log].
    split; [done|]. split; [done|]. split; [done | done].
Qed.

End SheetFacts.


(* ===================================================================== *)
(** * The script as a whole *)
(* ===================================================================== *)

Section ScriptMore.
Import Script.
Variable json_loads : string -> exn + pyobj.

Lemma same_but_trace_refl w : same_but_trace w w.
Proof. by repeat split. Qed.

Lemma same_but_trace_trans w1 w2 w3 :
  same_but_trace w1 w2 -> same_but_trace w2 w3 -> same_but_trace w1 w3.
Proof.
  unfold same_but_trace. intros H1 H2.
  destruct H1 as (?&?&?&?&?&?&?), H2 as (?&?&?&?&?&?&?).
  repeat split; congruence.
Qed.

Lemma same_but_log_trace w w' : same_but_log w w' -> same_but_trace w w'.
Proof. intros (?&?&?&?&?&?&?&?). by repeat split. Qed.

(** [get_data] returns the payload of the one request it issues, or ends
    the process with status 1. *)
Lemma get_data_outcome start_day finish_day w :
  same_but_trace w (snd (get_data start_day finish_day w))
  /\ (fst (get_data start_day finish_day w) = Exit 1
      \/ exists data,
           fst (get_data start_day finish_day w) = Ret data
           /\ w_api w (statistics_request start_day finish_day) = Some data).
Proof.
  rewrite get_data_eq. cbv zeta.
  destruct (gate start_day finish_day) as [[]|e|c] eqn:Hg.
  - unfold requests_get_json. cbn [logger_info log_add snd w_api].
    destruct (w_api w _) as [data|]; cbn [fst snd].
    + split; [by repeat split|]. right. by exists data.
    + split; [by repeat split|]. by left.
  - split; [by repeat split|]. by left.
  - by destruct (gate_no_exit start_day finish_day c).
Qed.

Lemma script_gate : gate start_date end_date = Ret tt.
Proof. vm_compute. reflexivity. Qed.

Lemma validate_data_frame data w :
  same_but_log w (snd (validate_data json_loads data w)).
Proof.
  destruct data as [|row data]; [apply same_but_log_refl|].
  rewrite validate_data_eq by done.
  destruct (validate_loop_log json_loads (row :: data) 1 []
              (snd (logger_info "Starting data validation..." w)))
    as [Hframe _].
  assert (Hw : same_but_log w
            (snd (for_each (enumerate (row :: data) 1)
                    (record_step json_loads) []
                    (snd (logger_info "Starting data validation..." w))))).
  { eapply same_but_log_trans; [apply same_but_log_add | exact Hframe]. }
  destruct (for_each _ _ _ _) as [[v|e|c] w']; simpl snd in *;
    [|exact Hw|exact Hw].
  destruct (Nat.eqb _ _);
    (eapply same_but_log_trans; [exact Hw | apply same_but_log_add]).
Qed.

(** [validate_data] returns the canonical records of a non-empty batch
    whose records all pass, raises, or ends the process with status 1. *)
Lemma validate_data_outcome data w :
  match fst (validate_data json_loads data w) with
  | Ret l => data <> [] /\ l = accepted json_loads data
             /\ length l = length data
  | Raise e => True
  | Exit c => c = 1
  end.
Proof.
  destruct data as [|row data]; [reflexivity|].
  rewrite validate_data_eq by done.
  pose proof (validate_loop json_loads (row :: data) 1 []
                (snd (logger_info "Starting data validation..." w))) as Hloop.
  destruct (for_each _ _ _ _) as [[v|e|c] w']; simpl fst in *.
  - destruct Hloop as [-> _]. rewrite app_nil_l.
    destruct (Nat.eqb _ _) eqn:Hlen; simpl; [|done].
    apply Nat.eqb_eq in Hlen. done.
  - done.
  - done.
Qed.

Lemma load_aggregated_returns start_date end_date sheet_name report w :
  fst (Sheets.load_aggregated_data_to_sheets start_date end_date sheet_name
         report w) = Ret tt
  /\ w_db (snd (Sheets.load_aggregated_data_to_sheets start_date end_date
                  sheet_name report w)) = w_db w
  /\ w_db_connect_ok
       (snd (Sheets.load_aggregated_data_to_sheets start_date end_date
               sheet_name report w)) = w_db_connect_ok w.
Proof.
  unfold Sheets.load_aggregated_data_to_sheets.
  rewrite try_except_eq, bind_eq, update_eq.
  destruct (w_gs_update_ok w) eqn:Hok; [|done].
  rewrite bind_eq. unfold lift.
  destruct report as [report|]; [|done].
  cbn [Sheets.items]. rewrite bind_eq.
  rewrite sheet_loop_ok by exact Hok. done.
Qed.

(** The stages before the store: the process goes on, with the store as it
    was, or ends. *)
Lemma etl_stage_outcome w :
  match fst (etl_stage json_loads w) with
  | Ret valid_data1 =>
      w_db (snd (etl_stage json_loads w)) = w_db w
      /\ w_db_connect_ok (snd (etl_stage json_loads w)) = w_db_connect_ok w
  | Raise e => True
  | Exit c => c = 1
  end.
Proof.
  unfold etl_stage. rewrite bind_eq.
  destruct (get_data_outcome start_date end_date w) as [Hf1 Hg].
  destruct (get_data start_date end_date w) as [o1 w1].
  simpl fst in Hg. simpl snd in Hf1.
  destruct Hg as [->|(data & -> & _)]; [done|].
  rewrite bind_eq.
  pose proof (validate_data_outcome data w1) as Hv.
  pose proof (validate_data_frame data w1) as Hf2.
  destruct (validate_data json_loads data w1) as [[vdata|e|c] w2];
    simpl fst in Hv; simpl snd in Hf2; [|done|done].
  rewrite bind_eq.
  pose proof (calc_for_gsheets_returns vdata w2) as Hc.
  pose proof (calc_for_gsheets_frame vdata w2) as Hf3.
  destruct (calc_for_gsheets vdata w2) as [o3 w3].
  simpl fst in Hc. simpl snd in Hf3.
  assert (Hr : exists report, o3 = Ret report).
  { destruct Hc as [->|[r ->]]; by eexists. }
  destruct Hr as [report ->].
  rewrite bind_eq. unfold Sheets.auth_goo_shee.
  assert (Hdb3 : w_db w3 = w_db w /\ w_db_connect_ok w3 = w_db_connect_ok w).
  { destruct Hf1 as (_ & ? & ? & _), Hf2 as (_ & _ & ? & ? & _),
      Hf3 as (_ & _ & ? & ? & _). split; congruence. }
  destruct (w_gs_auth_ok w3).
  - rewrite bind_eq. cbn [logger_info log_add ret].
    rewrite bind_eq. unfold Sheets.init.
    set (w4 := mkWorld _ _ _ _ _ _ _ _ _).
    destruct (w_gs_open_ok w4); [|done].
    rewrite bind_eq.
    pose proof (load_aggregated_returns start_date end_date "Sheet1" report w4)
      as (Hl & Hdb5 & Hco5).
    destruct (Sheets.load_aggregated_data_to_sheets _ _ _ _ w4) as [o5 w5].
    simpl in Hl, Hdb5, Hco5. subst o5. cbn [ret fst snd].
    rewrite Hdb5, Hco5. exact Hdb3.
  - rewrite bind_eq. done.
Qed.

(** X17: the script ends with status 0 or 1, whatever happens.  No
    exception leaves the [__main__] block: it runs to its end, or it ends
    the process with status 1. *)
Theorem main_exit_status (w : World) :
  fst (main json_loads w) = Ret tt \/ fst (main json_loads w) = Exit 1.
Proof.
  unfold main, top_level. rewrite try_except_eq, bind_eq.
  pose proof (etl_stage_outcome w) as Hetl.
  destruct (etl_stage json_loads w) as [[vdata|e|c] w1]; simpl in Hetl.
  - destruct (db_stage_outcome vdata w1)
      as [[_ Hdb]|[[_ Hdb]|(_ & Hdb & _)]];
      destruct (db_stage vdata w1) as [o w2]; simpl in Hdb; subst o;
      [by right | by left | by right].
  - by right.
  - subst c. by right.
Qed.

Lemma get_data_script w :
  get_data start_date end_date w =
  match w_api w script_request with
  | Some data =>
      (Ret data,
       mkWorld
         (w_log w ++ [LogInfo "Extracting data from the API for the interval";
                      LogInfo "Data extracted successfully from API."])
         (w_requests w ++ [script_request]) (w_api w) (w_db_connect_ok w)
         (w_db w) (w_gs_auth_ok w) (w_gs_open_ok w) (w_gs_update_ok w)
         (w_sheet w))
  | None =>
      (Exit 1,
       mkWorld
         (w_log w ++ [LogInfo "Extracting data from the API for the interval";
                      LogError "Failed to retrieve data from API"
                        (Some RequestException)])
         (w_requests w ++ [script_request]) (w_api w) (w_db_connect_ok w)
         (w_db w) (w_gs_auth_ok w) (w_gs_open_ok w) (w_gs_update_ok w)
         (w_sheet w))
  end.
Proof.
  rewrite get_data_eq, script_gate. cbv zeta. unfold requests_get_json.
  cbn [logger_info logger_error log_add snd w_api w_log w_requests
       w_db_connect_ok w_db w_gs_auth_ok w_gs_open_ok w_gs_update_ok w_sheet].
  fold script_request.
  destruct (w_api w script_request); cbn [w_log w_requests w_api w_db_connect_ok w_db w_gs_auth_ok w_gs_open_ok w_gs_update_ok w_sheet]; by rewrite <- app_assoc.
Qed.

(** X18: a batch that is not wholly valid reaches neither the sheet nor
    the store.  When the request of the script fails, or its payload is
    empty, or one of its records does not pass the checks, the process
    ends with status 1 after that one request, and the store and the sheet
    are as they were: nothing of the batch, the valid records included, is
    published or loaded. *)
Theorem invalid_batch_blocks_run (w : World) :
  match w_api w script_request with
  | None => True
  | Some data =>
      data = [] \/ Exists (fun row => ~ passes json_loads row) data
  end ->
  fst (main json_loads w) = Exit 1
  /\ w_requests (snd (main json_loads w))
     = (w_requests w ++ [script_request])%list
  /\ w_db (snd (main json_loads w)) = w_db w
  /\ w_sheet (snd (main json_loads w)) = w_sheet w.
Proof.
  intros Hbad. unfold main, top_level. rewrite try_except_eq, bind_eq.
  unfold etl_stage. rewrite bind_eq, get_data_script.
  destruct (w_api w script_request) as [data|]; [|done].
  set (w1 := mkWorld _ _ _ _ _ _ _ _ _).
  rewrite bind_eq.
  pose proof (validate_data_outcome data w1) as Hv.
  pose proof (validate_data_frame data w1) as Hf.
  destruct (validate_data json_loads data w1) as [[vdata|e|c] w2];
    simpl in Hv; simpl snd in Hf.
  - exfalso. destruct Hv as (Hne & -> & Hlen).
    destruct Hbad as [->|Hex]; [done|].
    by apply (not_passes_shorter json_loads) in Hex.
  - cbn [isinstance_Exception]. rewrite bind_eq.
    cbn [logger_error log_add sys_exit fst snd w_requests w_db w_sheet].
    destruct Hf as (-> & _ & _ & -> & _ & _ & _ & ->). done.
  - subst c. cbn [fst snd].
    destruct Hf as (-> & _ & _ & -> & _ & _ & _ & ->). done.
Qed.

Lemma validate_data_ok data vdata w :
  data <> [] ->
  Forall2 (fun row c => validate_row json_loads row = Ret c) data vdata ->
  fst (validate_data json_loads data w) = Ret vdata.
Proof.
  intros Hne HF. rewrite validate_data_eq by done.
  pose proof (validate_loop json_loads data 1 []
                (snd (logger_info "Starting data validation..." w))) as Hloop.
  destruct (for_each _ _ _ _) as [[v|e|c] w']; simpl fst in Hloop.
  - destruct Hloop as [-> _]. rewrite app_nil_l.
    rewrite (accepted_Forall2 json_loads _ _ HF).
    rewrite <- (Forall2_length _ _ _ HF), Nat.eqb_refl. done.
  - exfalso. destruct Hloop as [_ Hex].
    apply Exists_exists in Hex as (row & Hin & Hrow).
    first [apply list_elem_of_lookup_1 in Hin as [i Hi]
          | apply elem_of_list_lookup_1 in Hin as [i Hi]].
    destruct (Forall2_lookup_l _ _ _ _ _ HF Hi) as (c & _ & Hc). congruence.
  - done.
Qed.

(** ** What the store stage leaves alone *)

Lemma keeps_ret {A} (a : A) : keeps (ret a).
Proof. by intros w. Qed.

Lemma keeps_bind {A B} (m : M A) (k : A -> M B) :
  keeps m -> (forall a, keeps (k a)) -> keeps (bind m k).
Proof.
  intros Hm Hk w. rewrite bind_eq. specialize (Hm w).
  destruct (m w) as [[a|e|c] w1]; simpl in Hm; [|exact Hm|exact Hm].
  destruct (Hk a w1) as [H1 H2], Hm as [H3 H4]. split; congruence.
Qed.

Lemma keeps_try_except {A} (m : M A) C h :
  keeps m -> (forall e, keeps (h e)) -> keeps (try_except m C h).
Proof.
  intros Hm Hh w. rewrite try_except_eq. specialize (Hm w).
  destruct (m w) as [[a|e|c] w1]; simpl in Hm; [exact Hm| |exact Hm].
  destruct (C e); [|exact Hm].
  destruct (Hh e w1) as [H1 H2], Hm as [H3 H4]. split; congruence.
Qed.

Lemma keeps_for_each {A S} (l : list A) (body : S -> A -> M S) :
  (forall s a, keeps (body s a)) -> forall s, keeps (for_each l body s).
Proof.
  intros Hbody. induction l as [|a l IH]; intros s w; [done|].
  rewrite for_each_cons. specialize (Hbody s a w).
  destruct (body s a w) as [[s1|e|c] w1]; simpl in Hbody;
    [|exact Hbody|exact Hbody].
  destruct (IH s1 w1) as [H1 H2], Hbody as [H3 H4]. split; congruence.
Qed.

Lemma keeps_log_add e : keeps (log_add e).
Proof. by intros w. Qed.

Lemma keeps_sys_exit {A} c : keeps (@sys_exit A c).
Proof. by intros w. Qed.

Lemma keeps_cur_execute {A} params stmt :
  keeps (@cur_execute A params stmt).
Proof.
  intros w. unfold cur_execute.
  destruct (faults (w_db w)) as [|b rest]; destruct (aborted (w_db w) || _);
    try (by destruct (adapt_params params));
    by destruct (stmt _) as [[a t]|].
Qed.

Lemma keeps_con_commit : keeps con_commit.
Proof.
  intros w. unfold con_commit.
  by destruct (faults (w_db w)) as [|[] rest]; destruct (aborted (w_db w)).
Qed.

Lemma keeps_init : keeps Database.init.
Proof.
  unfold Database.init. apply keeps_try_except.
  - intros w. by destruct (w_db_connect_ok w).
  - intros e. apply keeps_bind; [apply keeps_log_add|].
    intros _. apply keeps_sys_exit.
Qed.

Lemma keeps_get_all_tables : keeps Database.get_all_tables.
Proof.
  unfold Database.get_all_tables. apply keeps_try_except.
  - apply keeps_bind; [apply keeps_cur_execute|]. intros tables.
    apply keeps_bind; [apply keeps_log_add|]. intros _. apply keeps_ret.
  - intros e. apply keeps_bind; [apply keeps_log_add|].
    intros _. apply keeps_ret.
Qed.

Lemma keeps_create_table table_name : keeps (Database.create_table table_name).
Proof.
  unfold Database.create_table.
  apply keeps_bind; [apply keeps_log_add|]. intros _.
  apply keeps_try_except; [|intros e; apply keeps_log_add].
  apply keeps_bind; [apply keeps_cur_execute|]. intros table_exists.
  destruct (negb table_exists); [|apply keeps_log_add].
  apply keeps_bind; [apply keeps_cur_execute|]. intros _.
  apply keeps_bind; [apply keeps_con_commit|]. intros _.
  apply keeps_log_add.
Qed.

Lemma keeps_load_data_to_db table_name vdata :
  keeps (Database.load_data_to_db table_name vdata).
Proof.
  unfold Database.load_data_to_db.
  apply keeps_bind; [apply keeps_log_add|]. intros _.
  apply keeps_try_except; [|intros e; apply keeps_log_add].
  apply keeps_bind.
  - apply keeps_for_each. intros s [idx row]. unfold Database.load_step.
    apply keeps_bind; [apply keeps_cur_execute|]. intros count.
    apply keeps_bind; [|intros _; apply keeps_ret].
    destruct (_ =? 0)%Z; [apply keeps_cur_execute | apply keeps_ret].
  - intros skipped_count.
    apply keeps_bind; [apply keeps_log_add|]. intros _.
    apply keeps_bind; [apply keeps_con_commit|]. intros _.
    apply keeps_log_add.
Qed.

Lemma keeps_db_stage vdata : keeps (db_stage vdata).
Proof.
  unfold db_stage.
  apply keeps_bind; [apply keeps_init|]. intros _.
  apply keeps_bind; [apply keeps_get_all_tables|]. intros s.
  apply keeps_bind; [apply keeps_create_table|]. intros _.
  apply keeps_load_data_to_db.
Qed.

(** The store stage on a connection that answers and on which no statement
    fails: the table of the script holds what it held, followed by the
    records of the batch that no row matched. *)
Lemma db_stage_ok vdata w :
  w_db_connect_ok w = true ->
  fault_free (w_db w) = true ->
  fst (db_stage vdata w) = Ret tt
  /\ committed (w_db (snd (db_stage vdata w))) !! "ppf_2024_may"
     = Some (load_rows vdata
               (default [] (committed (w_db w) !! "ppf_2024_may"))).
Proof.
  intros Hconn Hff.
  unfold db_stage. rewrite bind_eq.
  unfold Database.init. rewrite try_except_eq, Hconn.
  cbn [logger_info log_add].
  set (w1 := mkWorld _ _ _ _ _ _ _ _ _).
  assert (Hff1 : fault_free (w_db w1) = true).
  { unfold fault_free in *. apply andb_prop in Hff as [_ Hf].
    subst w1. cbn [w_db set_db aborted faults negb andb]. exact Hf. }
  assert (Hs1 : session (w_db w1) = committed (w_db w)) by reflexivity.
  rewrite bind_eq. unfold Database.get_all_tables.
  rewrite try_except_eq, bind_eq.
  erewrite cur_execute_ok; [|exact Hff1 | reflexivity].
  set (w2 := set_db _ w1).
  assert (Hff2 : fault_free (w_db w2) = true) by by apply set_db_fault_free.
  rewrite bind_eq. cbn [log_add ret].
  set (w3 := mkWorld _ _ _ _ _ _ _ _ _).
  assert (Hff3 : fault_free (w_db w3) = true) by exact Hff2.
  assert (Hs3 : session (w_db w3) = committed (w_db w)) by exact Hs1.
  rewrite bind_eq.
  pose proof (create_table_fault_free "ppf_2024_may" w3 Hff3) as Hct.
  pose proof (create_table_returns "ppf_2024_may" w3 eq_refl) as Hret.
  cbv zeta in Hct.
  change (fold_name "ppf_2024_may") with "ppf_2024_may" in Hct.
  rewrite Hs3 in Hct.
  destruct (Database.create_table "ppf_2024_may" w3) as [o w4].
  cbn [fst snd] in Hret, Hct. subst o.
  assert (Hok : fault_free (w_db w4) = true
                /\ session (w_db w4) !! fold_name "ppf_2024_may"
                   = Some (default []
                             (committed (w_db w) !! "ppf_2024_may"))).
  { change (fold_name "ppf_2024_may") with "ppf_2024_may".
    destruct (committed (w_db w) !! "ppf_2024_may") as [rows|] eqn:Hrows.
    - destruct Hct as (Hff4 & -> & _). by rewrite Hrows.
    - destruct Hct as (Hff4 & -> & _). by rewrite lookup_insert_eq. }
  destruct Hok as [Hff4 Hrows].
  destruct (load_data_to_db_ok "ppf_2024_may" vdata w4 _ Hff4 Hrows)
    as (Hr & _ & _ & _).
  destruct (load_data_to_db_rows "ppf_2024_may" vdata w4 _ Hff4 Hrows)
    as (Hc & _).
  change (fold_name "ppf_2024_may") with "ppf_2024_may" in Hc.
  by split.
Qed.

Lemma load_aggregated_ok start_date end_date sheet_name report w :
  w_gs_update_ok w = true ->
  w_sheet (snd (Sheets.load_aggregated_data_to_sheets start_date end_date
                  sheet_name report w))
  = (w_sheet w ++ sheet_title start_date end_date
       :: match Sheets.items report with
          | Ret kvs => sheet_rows kvs 2
          | _ => []
          end)%list
  /\ w_requests (snd (Sheets.load_aggregated_data_to_sheets start_date
                        end_date sheet_name report w))
     = w_requests w.
Proof.
  intros Hok. unfold Sheets.load_aggregated_data_to_sheets.
  rewrite try_except_eq, bind_eq, update_eq, Hok.
  rewrite bind_eq. unfold lift.
  destruct report as [report|]; [|done].
  cbn [Sheets.items]. rewrite bind_eq.
  rewrite sheet_loop_ok by exact Hok. rewrite with_cells_app. done.
Qed.

(** X19: a run in which everything goes well.  When the request of the
    script is answered with a non-empty batch whose records all pass,
    Google Sheets accepts the client, the file and the updates, the store
    accepts the connection and no statement fails, the process ends with
    status 0 after that one request; the sheet has received the title and,
    when the batch gives a report, its eleven rows; and the table
    [ppf_2024_may] holds the committed rows it held, created empty if it
    did not exist, followed by the canonical records of the batch that no
    row matched at their turn, as the columns keep them. *)
Theorem run_end_to_end (w : World) (data : list RawRecord)
  (vdata : list Canonical) :
  w_api w script_request = Some data ->
  data <> [] ->
  Forall2 (fun row c => validate_row json_loads row = Ret c) data vdata ->
  w_gs_auth_ok w = true -> w_gs_open_ok w = true ->
  w_gs_update_ok w = true ->
  w_db_connect_ok w = true ->
  fault_free (w_db w) = true ->
  fst (main json_loads w) = Ret tt
  /\ w_requests (snd (main json_loads w))
     = (w_requests w ++ [script_request])%list
  /\ w_sheet (snd (main json_loads w))
     = (w_sheet w ++ sheet_title start_date end_date
          :: match calc_body vdata with
             | Ret report =>
                 match Sheets.items (Some report) with
                 | Ret kvs => sheet_rows kvs 2
                 | _ => []
                 end
             | _ => []
             end)%list
  /\ committed (w_db (snd (main json_loads w))) !! "ppf_2024_may"
     = Some (load_rows vdata
               (default [] (committed (w_db w) !! "ppf_2024_may"))).
Proof.
  intros Hapi Hne HF Hauth Hopen Hupd Hconn Hff.
  unfold main, top_level. rewrite try_except_eq, bind_eq.
  unfold etl_stage. rewrite bind_eq, get_data_script, Hapi.
  set (w1 := mkWorld _ _ _ _ _ _ _ _ _).
  rewrite bind_eq.
  pose proof (validate_data_ok data vdata w1 Hne HF) as Hv.
  pose proof (validate_data_frame data w1) as Hf2.
  destruct (validate_data json_loads data w1) as [o2 w2].
  simpl in Hv, Hf2. subst o2.
  destruct Hf2 as (Hrq2 & _ & Hco2 & Hdb2 & Hau2 & Hop2 & Hup2 & Hsh2).
  subst w1. cbn [w_requests w_db_connect_ok w_db w_gs_auth_ok w_gs_open_ok
                  w_gs_update_ok w_sheet] in *.
  rewrite bind_eq, calc_for_gsheets_eq.
  set (report := match calc_body vdata with
                 | Ret r => Some r
                 | _ => None
                 end).
  assert (Hcalc : exists w3,
    match calc_body vdata with
    | Ret r =>
        (Ret (Some r),
         snd (logger_info "Data successfull aggregated for Google Sheets file."
                w2))
    | Raise e =>
        (Ret None,
         snd (logger_error "Error calc/aggregate data for Google Sheets"
                (Some e) w2))
    | Exit c => (Exit c, w2)
    end = (Ret report, w3)
    /\ w_requests w3 = w_requests w2 /\ w_db_connect_ok w3 = w_db_connect_ok w2
    /\ w_db w3 = w_db w2 /\ w_gs_auth_ok w3 = w_gs_auth_ok w2
    /\ w_gs_open_ok w3 = w_gs_open_ok w2
    /\ w_gs_update_ok w3 = w_gs_update_ok w2 /\ w_sheet w3 = w_sheet w2).
  { subst report. pose proof (calc_body_no_exit vdata) as Hnx.
    destruct (calc_body vdata) as [r|e|c];
      [eexists; by repeat split | eexists; by repeat split
      | by destruct (Hnx c)]. }
  destruct Hcalc as (w3 & -> & Hrq3 & Hco3 & Hdb3 & Hau3 & Hop3 & Hup3 & Hsh3).
  rewrite bind_eq. unfold Sheets.auth_goo_shee.
  rewrite Hau3, Hau2, Hauth. rewrite bind_eq. cbn [logger_info log_add ret].
  rewrite bind_eq. unfold Sheets.init.
  cbn [w_gs_open_ok]. rewrite Hop3, Hop2, Hopen.
  set (w4 := mkWorld _ _ _ _ _ _ _ _ _).
  rewrite bind_eq.
  assert (Hup4 : w_gs_update_ok w4 = true) by (subst w4; simpl; congruence).
  destruct (load_aggregated_returns start_date end_date "Sheet1" report w4)
    as (Hl & Hdb5 & Hco5).
  destruct (load_aggregated_ok start_date end_date "Sheet1" report w4 Hup4)
    as (Hsh5 & Hrq5).
  destruct (Sheets.load_aggregated_data_to_sheets _ _ _ _ w4) as [o5 w5].
  simpl in Hl, Hdb5, Hco5, Hsh5, Hrq5. subst o5. cbn [ret].
  assert (Hconn5 : w_db_connect_ok w5 = true)
    by (rewrite Hco5; subst w4; simpl; congruence).
  assert (Hff5 : fault_free (w_db w5) = true)
    by (rewrite Hdb5; subst w4; simpl; congruence).
  destruct (db_stage_ok vdata w5 Hconn5 Hff5) as [Hret Hrows].
  destruct (keeps_db_stage vdata w5) as [Hsh6 Hrq6].
  destruct (db_stage vdata w5) as [o6 w6].
  simpl in Hret, Hrows, Hsh6, Hrq6. subst o6. cbn [fst snd].
  split; [done|]. split; [|split].
  - rewrite Hrq6, Hrq5. subst w4. simpl. congruence.
  - rewrite Hsh6, Hsh5. subst w4 report. simpl w_sheet.
    rewrite Hsh3, Hsh2. by destruct (calc_body vdata).
  - rewrite Hrows, Hdb5. subst w4. simpl w_db. by rewrite Hdb3, Hdb2.
Qed.

End ScriptMore.

(** [invalid_batch_blocks_run] on a run whose payload is one record with
    [is_correct = 2]. *)
Lemma invalid_batch_blocks_run_witness :
  fst (Script.main JsonFragment.json_loads (quiet_world [row_is_correct_2]))
  = Exit 1
  /\ w_requests (snd (Script.main JsonFragment.json_loads
                        (quiet_world [row_is_correct_2])))
     = (w_requests (quiet_world [row_is_correct_2]) ++ [script_request])%list
  /\ w_db (snd (Script.main JsonFragment.json_loads
                  (quiet_world [row_is_correct_2])))
     = w_db (quiet_world [row_is_correct_2])
  /\ w_sheet (snd (Script.main JsonFragment.json_loads
                     (quiet_world [row_is_correct_2])))
     = w_sheet (quiet_world [row_is_correct_2]).
Proof.
  apply (invalid_batch_blocks_run JsonFragment.json_loads
           (quiet_world [row_is_correct_2])).
  right. constructor. intros [c Hc]. vm_compute in Hc. discriminate.
Defined.

(** [run_end_to_end] on a run whose payload is the valid sample record,
    with an empty store. *)
Lemma run_end_to_end_witness :
  fst (Script.main JsonFragment.json_loads (quiet_world [row_valid])) = Ret tt
  /\ committed (w_db (snd (Script.main JsonFragment.json_loads
                             (quiet_world [row_valid])))) !! "ppf_2024_may"
     = Some (load_rows [canonical_valid]
               (default []
                  (committed (w_db (quiet_world [row_valid]))
                   !! "ppf_2024_may"))).
Proof.
  pose proof (run_end_to_end JsonFragment.json_loads (quiet_world [row_valid])
                [row_valid] [canonical_valid]) as H.
  destruct H as (Hret & _ & _ & Hrows).
  - reflexivity.
  - discriminate.
  - constructor; [vm_compute; reflexivity | constructor].
  - reflexivity.
  - reflexivity.
  - reflexivity.
  - reflexivity.
  - reflexivity.
  - split; [exact Hret | exact Hrows].
Defined.

(** ** The order of the stages *)

Section StageOrder.
Import Script.
Variable json_loads : string -> exn + pyobj.

(** The script after the aggregation: authorise, open, publish. *)
Lemma etl_stage_valid w data vdata :
  w_api w script_request = Some data ->
  data <> [] ->
  Forall2 (fun row c => validate_row json_loads row = Ret c) data vdata ->
  exists w3 report,
    etl_stage json_loads w
    = (do gs_auth <- Sheets.auth_goo_shee;
       run Sheets.init gs_auth "simulative_basic_py_project";
       run Sheets.load_aggregated_data_to_sheets start_date end_date "Sheet1"
             report;
       ret vdata) w3
    /\ report = match calc_body vdata with Ret r => Some r | _ => None end
    /\ w_requests w3 = (w_requests w ++ [script_request])%list
    /\ w_db_connect_ok w3 = w_db_connect_ok w /\ w_db w3 = w_db w
    /\ w_gs_auth_ok w3 = w_gs_auth_ok w /\ w_gs_open_ok w3 = w_gs_open_ok w
    /\ w_gs_update_ok w3 = w_gs_update_ok w /\ w_sheet w3 = w_sheet w.
Proof.
  intros Hapi Hne HF.
  unfold etl_stage. rewrite bind_eq, get_data_script, Hapi.
  set (w1 := mkWorld _ _ _ _ _ _ _ _ _).
  rewrite bind_eq.
  pose proof (validate_data_ok json_loads data vdata w1 Hne HF) as Hv.
  pose proof (validate_data_frame json_loads data w1) as Hf2.
  destruct (validate_data json_loads data w1) as [o2 w2].
  simpl in Hv, Hf2. subst o2.
  destruct Hf2 as (Hrq2 & _ & Hco2 & Hdb2 & Hau2 & Hop2 & Hup2 & Hsh2).
  subst w1. cbn [w_requests w_db_connect_ok w_db w_gs_auth_ok w_gs_open_ok
                  w_gs_update_ok w_sheet] in *.
  rewrite bind_eq, calc_for_gsheets_eq.
  pose proof (calc_body_no_exit vdata) as Hnx.
  destruct (calc_body vdata) as [r|e|c]; [| |by destruct (Hnx c)].
  - eexists _, _. split; [reflexivity|]. by repeat split.
  - eexists _, _. split; [reflexivity|]. by repeat split.
Qed.

(** X20: the sheet comes before the store.  On a batch that passes
    validation: when Google Sheets refuses the client or the file, the
    exception reaches the handler of the script, the process ends with
    status 1, nothing is published and the store is never contacted, so
    that the valid batch is not loaded; when Google Sheets accepts
    everything and the store refuses the connection, the process ends with
    status 1 as well, with the sheet already written and the store as it
    was. *)
Theorem stage_order (w : World) (data : list RawRecord)
  (vdata : list Canonical) :
  w_api w script_request = Some data ->
  data <> [] ->
  Forall2 (fun row c => validate_row json_loads row = Ret c) data vdata ->
  (w_gs_auth_ok w = false \/ w_gs_open_ok w = false ->
   fst (main json_loads w) = Exit 1
   /\ w_sheet (snd (main json_loads w)) = w_sheet w
   /\ w_db (snd (main json_loads w)) = w_db w
   /\ exists lines,
        w_log (snd (main json_loads w))
        = (lines ++ [LogError "An error occurred"
                       (Some (if w_gs_auth_ok w then GSpreadError
                              else AttributeError))])%list)
  /\ (w_gs_auth_ok w = true -> w_gs_open_ok w = true ->
      w_gs_update_ok w = true -> w_db_connect_ok w = false ->
      fst (main json_loads w) = Exit 1
      /\ w_sheet (snd (main json_loads w))
         = (w_sheet w ++ sheet_title start_date end_date
              :: match calc_body vdata with
                 | Ret report =>
                     match Sheets.items (Some report) with
                     | Ret kvs => sheet_rows kvs 2
                     | _ => []
                     end
                 | _ => []
                 end)%list
      /\ w_db (snd (main json_loads w)) = w_db w).
Proof.
  intros Hapi Hne HF.
  destruct (etl_stage_valid w data vdata Hapi Hne HF)
    as (w3 & report & Hetl & Hrep & Hrq3 & Hco3 & Hdb3 & Hau3 & Hop3 & Hup3
        & Hsh3).
  unfold main, top_level. rewrite try_except_eq, bind_eq, Hetl.
  rewrite bind_eq. unfold Sheets.auth_goo_shee.
  split.
  - intros Hbad. destruct (w_gs_auth_ok w3) eqn:Hauth.
    + rewrite bind_eq. cbn [logger_info log_add ret].
      rewrite bind_eq. unfold Sheets.init. cbn [w_gs_open_ok].
      assert (Hopen : w_gs_open_ok w3 = false).
      { destruct Hbad as [Hb|Hb]; congruence. }
      rewrite Hopen. cbn [isinstance_Exception]. rewrite bind_eq.
      cbn [logger_error log_add sys_exit fst snd w_sheet w_db w_log].
      rewrite <- Hau3.
      split; [done|]. split; [done|]. split; [done|]. by eexists.
    + rewrite bind_eq. unfold Sheets.init, raise.
      cbn [isinstance_Exception]. rewrite bind_eq.
      cbn [logger_error log_add sys_exit fst snd w_sheet w_db w_log].
      rewrite <- Hau3.
      split; [done|]. split; [done|]. split; [done|]. by eexists.
  - intros Hauth Hopen Hupd Hconn.
    rewrite Hau3, Hauth. rewrite bind_eq. cbn [logger_info log_add ret].
    rewrite bind_eq. unfold Sheets.init. cbn [w_gs_open_ok].
    rewrite Hop3, Hopen.
    set (w4 := mkWorld _ _ _ _ _ _ _ _ _).
    rewrite bind_eq.
    assert (Hup4 : w_gs_update_ok w4 = true) by (subst w4; simpl; congruence).
    destruct (load_aggregated_returns start_date end_date "Sheet1" report w4)
      as (Hl & Hdb5 & Hco5).
    destruct (load_aggregated_ok start_date end_date "Sheet1" report w4 Hup4)
      as (Hsh5 & _).
    destruct (Sheets.load_aggregated_data_to_sheets _ _ _ _ w4) as [o5 w5].
    simpl in Hl, Hdb5, Hco5, Hsh5. subst o5. cbn [ret].
    assert (Hconn5 : w_db_connect_ok w5 = false)
      by (rewrite Hco5; subst w4; simpl; congruence).
    unfold db_stage. rewrite bind_eq. unfold Database.init.
    rewrite try_except_eq, Hconn5. cbn [isinstance_Exception].
    rewrite bind_eq.
    cbn [logger_error log_add sys_exit fst snd w_sheet w_db w_log].
    split; [done|]. split.
    + rewrite Hsh5. subst w4 report. simpl w_sheet. rewrite Hsh3.
      by destruct (calc_body vdata).
    + rewrite Hdb5. subst w4. simpl w_db. exact Hdb3.
Qed.

End StageOrder.

(** [stage_order] on a run whose payload is the valid sample record and
    in which Google refuses the client. *)
Lemma stage_order_witness :
  fst (Script.main JsonFragment.json_loads world_auth_refused) = Exit 1
  /\ w_sheet (snd (Script.main JsonFragment.json_loads world_auth_refused))
     = w_sheet world_auth_refused
  /\ w_db (snd (Script.main JsonFragment.json_loads world_auth_refused))
     = w_db world_auth_refused.
Proof.
  pose proof (stage_order JsonFragment.json_loads world_auth_refused
                [row_valid] [canonical_valid]) as H.
  destruct H as [H _].
  - reflexivity.
  - discriminate.
  - constructor; [vm_compute; reflexivity | constructor].
  - destruct H as (H1 & H2 & H3 & _); [by left|]. by repeat split.
Defined.
